(** * Tabak et al. 2011 reproduction: tabak.py and analysis.py

    A shallow embedding of the two Python modules of the repository and the
    properties of their specification.

    Number model.  Times, voltages, durations, amplitudes and conductances
    are exact rationals ([Q]): the code compares, counts and selects them,
    and comparing two finite binary64 values gives the same answer as
    comparing the rationals they denote.  Where the value that an
    arithmetic expression produces matters, the code is embedded a second
    time on binary64 floats, which Rocq evaluates as CPython does (round to
    nearest, ties to even): the conductance scaling, and the number of
    steps and the clock of the noise loop (module [TabakBinary64]).  Over
    the rationals a quotient, a sum of steps or a number of steps is the
    exact one, which the code's value only approximates.

    External code.  NEURON and NumPy are not part of the repository.  They
    appear as interfaces ([Neuron], [Numpy]); what a property needs from
    them is a hypothesis of its theorem. *)

From Stdlib Require Import QArith Qround Floats Lia Lqa Sorted.
From stdpp Require Import gmap strings list.

Set Warnings "-inexact-float".

(** ** Python outcomes *)

(** The exceptions that the modelled code and libraries can raise. *)
Inductive exn : Type :=
  | IndexError
  | ValueError
  | TypeError
  | ZeroDivisionError
  | FileNotFoundError
  | ImportError
  | KeyError
  | RuntimeError (msg : string).

(** A computation finishes with a value, raises, or is still running when
    the fuel of a [while] loop is used up. *)
Inductive outcome (A : Type) : Type :=
  | Done (a : A)
  | Raise (e : exn)
  | Timeout.
Arguments Done {A} a.
Arguments Raise {A} e.
Arguments Timeout {A}.

(** State and exceptions: a computation over a state [S]. *)
Definition M (S A : Type) : Type := S -> outcome (A * S).

Definition ret {S A} (a : A) : M S A := fun s => Done (a, s).

Definition bind {S A B} (m : M S A) (k : A -> M S B) : M S B :=
  fun s =>
    match m s with
    | Done (a, s') => k a s'
    | Raise e => Raise e
    | Timeout => Timeout
    end.

Definition raise {S A} (e : exn) : M S A := fun _ => Raise e.
Definition modify {S} (f : S -> S) : M S unit := fun s => Done (tt, f s).

Notation "'let!' x ':=' m 'in' k" := (bind m (fun x => k))
  (at level 10, x pattern, m at level 100, k at level 200, only parsing).
Notation "'do!' m 'in' k" := (bind m (fun _ => k))
  (at level 10, m at level 100, k at level 200, only parsing).

(** [x < y] on rationals as a boolean, for [if] and [while] tests. *)
Definition Qlt_bool (x y : Q) : bool := negb (Qle_bool y x).

(** ** tabak.py on binary64 *)

Module TabakBinary64.
Local Open Scope float_scope.

(** [A = 3.1415927e-6  # cm^2] *)
Definition A : float := 3.1415927e-6.

(** [g_x_NEURON = G_x*1e-9/A] *)
Definition scale_conductance (G_x : float) : float := G_x * 1e-9 / A.

(** [dt = 0.01 # ms] *)
Definition dt : float := 0.01.

(** The rational that a finite float is. *)
Definition to_Q (x : float) : option Q :=
  match Prim2SF x with
  | S754_zero _ => Some 0%Q
  | S754_finite s m e =>
      Some (inject_Z (if s then Z.neg m else Z.pos m) * Qpower 2 e)%Q
  | S754_infinity _ => None
  | S754_nan => None
  end.

(** [int(np.ceil(x))]: [int] raises for a NaN and for an infinity, here
    [None]. *)
Definition int_ceil (x : float) : option Z :=
  match to_Q x with
  | Some q => Some (Qceiling q)
  | None => None
  end.

(** [n_steps = int(np.ceil(simulation_time/nrn.dt)) + 1], the quotient
    rounded to binary64 before the ceiling is taken. *)
Definition n_steps (simulation_time nrn_dt : float) : option Z :=
  match int_ceil (simulation_time / nrn_dt) with
  | Some steps => Some (steps + 1)%Z
  | None => None
  end.


Section NoiseLoop.
(** The clock after [nrn.fadvance()], from the clock before. *)
Variable fadvance : float -> float.


(** The loop of [run_simulation] that adds the noise, on a binary64
    clock [t],
[[
    while nrn.t < simulation_time:
        noise_stim.amp = noise[i]
        nrn.fadvance()
        i += 1
]]
    It returns the values of [i] and of the clock at the exit. *)
Fixpoint noise_loop (fuel : nat) (noise : list float) (simulation_time : float)
    (i : nat) (t : float) : outcome (nat * float) :=
  if t <? simulation_time then
    match fuel with
    | O => Timeout
    | S fuel' =>
        match noise !! i with
        | None => Raise IndexError
        | Some x => noise_loop fuel' noise simulation_time (S i) (fadvance t)
        end
    end
  else Done (i, t).
End NoiseLoop.
End TabakBinary64.

(** ** NumPy *)

(** Boolean-mask selection [a[mask]]: the elements of [a] at the positions
    where [mask] is [True]. *)
Fixpoint select {A} (a : list A) (mask : list bool) : list A :=
  match a, mask with
  | x :: a', b :: mask' => if b then x :: select a' mask' else select a' mask'
  | _, _ => []
  end.

(** [a[mask]] raises [IndexError] when the mask and the array differ in
    length. *)
Definition getitem_mask {A} (a : list A) (mask : list bool) : outcome (list A) :=
  if Nat.eqb (length a) (length mask) then Done (select a mask)
  else Raise IndexError.

(** The part of NumPy whose results the code cannot compute itself: the
    global random generator and the square root. *)
Class Numpy : Type := {
  rng : Type;
  (** [np.random.normal(size=n)] *)
  random_normal : nat -> rng -> list Q * rng;
  random_normal_length : forall n g, length (random_normal n g).1 = n;
  (** [np.random.uniform(low, high, n)] *)
  random_uniform : Q -> Q -> nat -> rng -> list Q * rng;
  random_uniform_length : forall lo hi n g, length (random_uniform lo hi n g).1 = n;
  (** [np.sqrt] *)
  np_sqrt : Q -> Q
}.

(** ** NEURON *)

(** A section with the properties and mechanisms [create_soma] gives it. *)
Record section : Type := {
  sec_name : string;
  sec_L : Q;
  sec_diam : Q;
  sec_nseg : Z;
  sec_mechanisms : list string;
  sec_Ra : Q;
  sec_cm : Q;
  sec_ek : Q;
  sec_eCa : Q;
  seg_ftau_bk : Q;
  seg_alpha_Cadt : Q;
  seg_g_pas : Q;
  seg_e_pas : Q;
  seg_gkdrbar_kdrt : Q;
  seg_ghvat_ihvat : Q;
  seg_gskbar_sk : Q;
  seg_gbk_bk : Q
}.

(** A current clamp as [insert_current_clamp] sets it. *)
Record iclamp : Type := {
  stim_delay : Q;
  stim_dur : Q;
  stim_amp : Q
}.

(** The calls into [neuron.h] that tabak.py makes, on the state of the
    engine. *)
Class Neuron : Type := {
  engine : Type;
  sec : Type;
  clamp : Type;
  (** [nrn('forall delete_section()')], then [nrn.Section('soma')] with its
      properties and mechanisms *)
  h_Section : section -> engine -> sec * engine;
  (** [nrn.IClamp(site)] with delay, duration and amplitude *)
  h_IClamp : sec -> iclamp -> engine -> clamp * engine;
  (** [stim.amp = x] *)
  h_set_amp : clamp -> Q -> engine -> engine;
  (** two fresh vectors recording [_ref_t] and [site._ref_v] *)
  h_record : sec -> engine -> engine;
  (** [cvode.active(b)] *)
  h_cvode_active : bool -> engine -> engine;
  (** [nrn.dt = x] *)
  h_set_dt : Q -> engine -> engine;
  (** [nrn.finitialize(v)], [neuron.init()], [neuron.run(tstop)],
      [nrn.fadvance()] *)
  h_finitialize : Q -> engine -> engine;
  h_init : engine -> engine;
  h_run : Q -> engine -> engine;
  h_fadvance : engine -> engine;
  (** [nrn.t], [nrn.dt] and the contents of the two recording vectors *)
  h_t : engine -> Q;
  h_dt : engine -> Q;
  vec_t : engine -> list Q;
  vec_v : engine -> list Q
}.

(** ** tabak.py *)

Module Tabak.
Local Open Scope Q_scope.

(** [dt = 0.01  # ms], the decimal; [TabakBinary64.dt] is the float. *)
Definition dt : Q := 1 # 100.

(** [A = 3.1415927e-6  # cm^2] *)
Definition A : Q := 31415927 # 10000000000000.

(** [g_x_NEURON = G_x*1e-9/A], read over the rationals. *)
Definition scale_conductance (G_x : Q) : Q := G_x * (1 # 1000000000) / A.

(** [c = 10*1e-6/A] and [alpha = 0.0015*A*10**6] *)
Definition c : Q := 10 * (1 # 1000000) / A.
Definition alpha : Q := (15 # 10000) * A * 1000000.

Definition g_l_scaled : Q := scale_conductance (2 # 10).
Definition g_K_scaled : Q := scale_conductance 3.
Definition g_Ca_scaled : Q := scale_conductance 2.
Definition g_SK_scaled : Q := scale_conductance 2.

(** The names bound in the module after [import tabak], in the order of
    their first binding. *)
Definition module_names : list string :=
  ["absolute_import"; "division"; "print_function"; "unicode_literals";
   "np"; "neuron"; "nrn"; "dt"; "A"; "scale_conductance"; "c"; "alpha";
   "g_l_scaled"; "g_K_scaled"; "g_Ca_scaled"; "g_SK_scaled";
   "create_soma"; "insert_current_clamp"; "run_simulation"; "record";
   "tabak"]%string.

(** Parameter lists: the name and whether the parameter has a default. *)
Definition scale_conductance_signature : list (string * bool) :=
  [("G_x", false)]%string.

Definition tabak_signature : list (string * bool) :=
  [("g_l", true); ("e_pas", true); ("g_K", true); ("g_Ca", true);
   ("g_SK", true); ("g_BK", true); ("tau_BK", true);
   ("simulation_time", true); ("noise_amplitude", true);
   ("discard", true); ("stimulus_amplitude", true)]%string.

Section Simulation.
Context {NP : Numpy} {NRN : Neuron}.

(** The state of the Python process: the engine and NumPy's generator. *)
Record process : Type := {
  nrn : engine;
  np_random : rng
}.

(** A call into the engine that returns nothing. *)
Definition hoc (f : engine -> engine) : M process unit :=
  modify (fun w => {| nrn := f (nrn w); np_random := np_random w |}).

(** A call into the engine that returns a handle. *)
Definition hoc_new {H} (f : engine -> H * engine) : M process H :=
  fun w => let '(h, e) := f (nrn w) in
           Done (h, {| nrn := e; np_random := np_random w |}).

(** Reading a variable of the engine. *)
Definition hoc_read {V} (f : engine -> V) : M process V :=
  fun w => Done (f (nrn w), w).

Definition create_soma (g_l e_pas g_K g_Ca g_SK g_BK tau_BK : Q) : M process sec :=
  hoc_new (h_Section
    {| sec_name := "soma";
       sec_L := 10;
       sec_diam := 10;
       sec_nseg := 1;
       sec_mechanisms := ["pas"; "kdrt"; "Cadt"; "ihvat"; "sk"; "bk"]%string;
       sec_Ra := 100;
       sec_cm := c;
       sec_ek := -75;
       sec_eCa := 60;
       seg_ftau_bk := tau_BK;
       seg_alpha_Cadt := alpha;
       seg_g_pas := g_l;
       seg_e_pas := e_pas;
       seg_gkdrbar_kdrt := g_K;
       seg_ghvat_ihvat := g_Ca;
       seg_gskbar_sk := g_SK;
       seg_gbk_bk := g_BK |}).

Definition insert_current_clamp (input_site : sec) (duration delay amplitude : Q)
  : M process clamp :=
  hoc_new (h_IClamp input_site
    {| stim_delay := delay; stim_dur := duration; stim_amp := amplitude |}).

Definition record (record_site : sec) : M process unit :=
  hoc (h_record record_site).

(** [np.random.normal(size=n)]; a negative size raises [ValueError]. *)
Definition np_random_normal (n : Z) : M process (list Q) :=
  fun w =>
    if (n <? 0)%Z then Raise ValueError
    else let '(xs, g) := random_normal (Z.to_nat n) (np_random w) in
         Done (xs, {| nrn := nrn w; np_random := g |}).

(** The loop of [run_simulation] that adds the noise,
[[
    while nrn.t < simulation_time:
        noise_stim.amp = noise[i]
        nrn.fadvance()
        i += 1
]]
    It returns the value of [i] at the exit. *)
Fixpoint noise_loop (fuel : nat) (noise : list Q) (simulation_time : Q)
    (noise_stim : clamp) (i : nat) : M process nat :=
  fun w =>
    if Qlt_bool (h_t (nrn w)) simulation_time then
      match fuel with
      | O => Timeout
      | S fuel' =>
          match noise !! i with
          | None => Raise IndexError
          | Some x =>
              (do! hoc (h_set_amp noise_stim x) in
               do! hoc h_fadvance in
               noise_loop fuel' noise simulation_time noise_stim (S i)) w
          end
      end
    else Done (i, w).

(** [n_steps = int(np.ceil(simulation_time/nrn.dt)) + 1], with the exact
    quotient; [TabakBinary64.n_steps] has the rounded one, which can give
    one step more. *)
Definition n_steps (simulation_time nrn_dt : Q) : Z :=
  (Qceiling (simulation_time / nrn_dt) + 1)%Z.

Definition run_simulation (fuel : nat) (soma : sec)
    (simulation_time noise_amplitude : Q) : M process (list Q * list Q) :=
  do! record soma in
  do! (if Qeq_bool noise_amplitude 0 then
         do! hoc (h_cvode_active true) in
         do! hoc (h_finitialize (-60)) in
         do! hoc h_init in
         hoc (h_run simulation_time)
       else
         do! hoc (h_cvode_active false) in
         let! noise_stim := insert_current_clamp soma simulation_time 0 0 in
         do! hoc (h_set_dt dt) in
         do! hoc (h_finitialize (-60)) in
         do! hoc h_init in
         let! nrn_dt := hoc_read h_dt in
         if Qeq_bool nrn_dt 0 then raise ZeroDivisionError else
         let! normal := np_random_normal (n_steps simulation_time nrn_dt) in
         let noise := map (fun x => noise_amplitude * x / np_sqrt nrn_dt) normal in
         let! i := noise_loop fuel noise simulation_time noise_stim 0 in
         ret tt) in
  let! rec_t := hoc_read vec_t in
  let! rec_v := hoc_read vec_v in
  ret (rec_t, rec_v).

(** The keyword arguments of [tabak] and their defaults. *)
Record tabak_args : Type := {
  g_l : Q; e_pas : Q; g_K : Q; g_Ca : Q; g_SK : Q; g_BK : Q; tau_BK : Q;
  simulation_time : Q; noise_amplitude : Q; discard : Q;
  stimulus_amplitude : Q
}.

Definition tabak_defaults : tabak_args :=
  {| g_l := g_l_scaled; e_pas := -50; g_K := g_K_scaled;
     g_Ca := g_Ca_scaled; g_SK := g_SK_scaled; g_BK := 0; tau_BK := 5;
     simulation_time := 5000; noise_amplitude := 0; discard := 0;
     stimulus_amplitude := 0 |}.

(** [time > discard], elementwise. *)
Definition after_discard (discard : Q) (time : list Q) : list bool :=
  map (fun t => Qlt_bool discard t) time.

Definition lift {A} (o : outcome A) : M process A :=
  fun w => match o with
           | Done a => Done (a, w)
           | Raise e => Raise e
           | Timeout => Timeout
           end.

Definition tabak (fuel : nat) (a : tabak_args) : M process (list Q * list Q) :=
  let! soma := create_soma (g_l a) (e_pas a) (g_K a) (g_Ca a) (g_SK a)
                           (g_BK a) (tau_BK a) in
  let! stim := insert_current_clamp soma (simulation_time a) 0
                                    (stimulus_amplitude a) in
  let! (time, voltage) := run_simulation fuel soma (simulation_time a)
                                          (noise_amplitude a) in
  let! time' := lift (getitem_mask time (after_discard (discard a) time)) in
  let! voltage' := lift (getitem_mask voltage (after_discard (discard a) time)) in
  ret (time', voltage').
End Simulation.
End Tabak.

(** ** The fixed-step contract of NEURON *)

(** What the noise loop relies on: [nrn.dt = x] sets the step, neither
    initialisation nor a change of a clamp's amplitude alters it,
    [neuron.init()] leaves the clock at 0, and [nrn.fadvance()] advances
    the clock by exactly the step.  The sum is the exact one: this is a
    clock without rounding, on which the loop ends; how many steps a
    binary64 clock takes is the matter of [TabakBinary64.noise_loop]. *)
Record FixedStep (NRN : Neuron) : Prop := {
  set_dt_dt : forall d e, (h_dt (h_set_dt d e) == d)%Q;
  finitialize_dt : forall v e, (h_dt (h_finitialize v e) == h_dt e)%Q;
  init_dt : forall e, (h_dt (h_init e) == h_dt e)%Q;
  init_t : forall e, (h_t (h_init e) == 0)%Q;
  set_amp_dt : forall s x e, (h_dt (h_set_amp s x e) == h_dt e)%Q;
  set_amp_t : forall s x e, (h_t (h_set_amp s x e) == h_t e)%Q;
  fadvance_dt : forall e, (h_dt (h_fadvance e) == h_dt e)%Q;
  fadvance_t : forall e, (h_t (h_fadvance e) == h_t e + h_dt e)%Q
}.





(** The recording contract of NEURON: a vector that records the clock
    holds, after [neuron.init()], the one sample of the initial time, gets
    the new time at every [nrn.fadvance()], and is not touched when the
    amplitude of a clamp is set. *)
Record Recording (NRN : Neuron) : Prop := {
  init_vec_t : forall e, vec_t (h_init e) = [h_t (h_init e)];
  set_amp_vec_t : forall s x e, vec_t (h_set_amp s x e) = vec_t e;
  fadvance_vec_t : forall e, vec_t (h_fadvance e) = vec_t e ++ [h_t (h_fadvance e)]
}.

(** The arguments of a call of [tabak] with another value for [discard]. *)
Definition with_discard (d : Q) (a : Tabak.tabak_args) : Tabak.tabak_args :=
  {| Tabak.g_l := Tabak.g_l a; Tabak.e_pas := Tabak.e_pas a;
     Tabak.g_K := Tabak.g_K a; Tabak.g_Ca := Tabak.g_Ca a;
     Tabak.g_SK := Tabak.g_SK a; Tabak.g_BK := Tabak.g_BK a;
     Tabak.tau_BK := Tabak.tau_BK a;
     Tabak.simulation_time := Tabak.simulation_time a;
     Tabak.noise_amplitude := Tabak.noise_amplitude a;
     Tabak.discard := d;
     Tabak.stimulus_amplitude := Tabak.stimulus_amplitude a |}.

(** A strictly increasing sequence: each element is below the next. *)
Definition strictly_increasing (l : list Q) : Prop := Sorted Qlt l.

(** ** A fixed-step engine and a constant generator

    A small engine that satisfies the contracts above, used to run the
    embedding on concrete inputs: the clock advances by the step, every
    recorded voltage is the initial one, and the generator returns its lower
    bound. *)

Module Double.
Local Open Scope Q_scope.

Record state : Type := {
  clock : Q;
  step : Q;
  v_init : Q;
  samples : list (Q * Q)
}.

Definition boot : state :=
  {| clock := 0; step := 25 # 1000; v_init := -65; samples := [] |}.

Definition initialise (v : Q) (e : state) : state :=
  {| clock := 0; step := step e; v_init := v; samples := [(0, v)] |}.

Definition advance (d : Q) (e : state) : state :=
  {| clock := clock e + d; step := step e; v_init := v_init e;
     samples := samples e ++ [(clock e + d, v_init e)] |}.

#[export] Instance neuron : Neuron := {|
  engine := state;
  sec := unit;
  clamp := unit;
  h_Section := fun _ e => (tt, e);
  h_IClamp := fun _ _ e => (tt, e);
  h_set_amp := fun _ _ e => e;
  h_record := fun _ e =>
    {| clock := clock e; step := step e; v_init := v_init e; samples := [] |};
  h_cvode_active := fun _ e => e;
  h_set_dt := fun d e =>
    {| clock := clock e; step := d; v_init := v_init e; samples := samples e |};
  h_finitialize := initialise;
  h_init := fun e => initialise (v_init e) e;
  h_run := fun tstop e =>
    if Qlt_bool (clock e) tstop then advance (tstop - clock e) e else e;
  h_fadvance := fun e => advance (step e) e;
  h_t := clock;
  h_dt := step;
  vec_t := fun e => map fst (samples e);
  vec_v := fun e => map snd (samples e)
|}.

#[export] Program Instance numpy : Numpy := {|
  rng := unit;
  random_normal := fun n g => (repeat 0 n, g);
  random_uniform := fun lo hi n g => (repeat lo n, g);
  np_sqrt := fun x => x
|}.
Next Obligation. intros n g. apply repeat_length. Qed.
Next Obligation. intros lo hi n g. apply repeat_length. Qed.

Definition process0 : Tabak.process := {| Tabak.nrn := boot; Tabak.np_random := tt |}.

(** The process when the noise loop starts: step [dt], clock at 0. *)
Definition loop_start : Tabak.process :=
  {| Tabak.nrn := initialise (-60) (h_set_dt Tabak.dt boot);
     Tabak.np_random := tt |}.

(** [tabak(simulation_time=0.03, noise_amplitude=0.004, discard=0.01)] *)
Definition short_noisy_run : Tabak.tabak_args :=
  {| Tabak.g_l := Tabak.g_l_scaled; Tabak.e_pas := -50;
     Tabak.g_K := Tabak.g_K_scaled; Tabak.g_Ca := Tabak.g_Ca_scaled;
     Tabak.g_SK := Tabak.g_SK_scaled; Tabak.g_BK := 0; Tabak.tau_BK := 5;
     Tabak.simulation_time := 3 # 100; Tabak.noise_amplitude := 4 # 1000;
     Tabak.discard := 1 # 100; Tabak.stimulus_amplitude := 0 |}.

(** The trace of a finished run, each sample in lowest terms. *)
Definition observed (o : outcome (list Q * list Q * Tabak.process))
  : option (list Q * list Q) :=
  match o with
  | Done ((time, voltage), _) => Some (map Qred time, map Qred voltage)
  | _ => None
  end.
End Double.

(** ** analysis.py *)

Module Analysis.
Local Open Scope Q_scope.

(** Simulation and analysis parameters. *)
Definition discard : Q := 10000.
Definition simulation_time : Q := 60000.
Definition noise_amplitude : Q := 4 # 1000.
Definition simulation_time_plot : Q := 15000.

Definition robustness_reruns : nat := 512.

Definition A : Q := 31415927 # 10000000000000.
Definition dt : Q := 1 # 100.

(** [figure_folder = os.path.join(os.pardir, "article", "figures")] *)
Definition figure_folder : string := "../article/figures".
Definition figure_format : string := ".eps".
Definition data_folder : string := "data".
Definition output_file : string := "robustness.txt".

(** Edge [i] of [n] bins of equal width over [lo, hi]. *)
Definition edge (lo hi : Q) (n i : nat) : Q :=
  lo + inject_Z (Z.of_nat i) * (hi - lo) / inject_Z (Z.of_nat n).

(** [np.linspace(lo, hi, n + 1)]: the edges of [n] bins of equal width. *)
Definition linspace (lo hi : Q) (n : nat) : list Q :=
  map (edge lo hi n) (seq 0 (S n)).

(** Bin [i] of [n] holds [x] when [x] lies from its left edge up to, not
    including, its right edge; the last bin includes its right edge. *)
Definition in_bin (lo hi : Q) (n i : nat) (x : Q) : bool :=
  Qle_bool (edge lo hi n i) x
  && (Qlt_bool x (edge lo hi n (S i))
      || (Nat.eqb (S i) n && Qle_bool x (edge lo hi n (S i)))).

(** A bin closed on the left and open on the right. *)
Definition half_open (lo hi : Q) (n i : nat) (x : Q) : bool :=
  Qle_bool (edge lo hi n i) x && Qlt_bool x (edge lo hi n (S i)).

(** [np.histogram(a, bins=n, range=(lo, hi))] for [lo < hi] and [n >= 1]:
    the number of elements in each bin, and the edges.  Elements outside
    the range are not counted. *)
Definition np_histogram (a : list Q) (n : nat) (lo hi : Q) : list Z * list Q :=
  (map (fun i => Z.of_nat (length (List.filter (in_bin lo hi n i) a))) (seq 0 n),
   linspace lo hi n).

(** [a.sum()] *)
Definition np_sum (a : list Z) : Z := foldr Z.add 0%Z a.

(** [a / total] on an integer array: a float array, [nan] (here [None])
    where the division is 0/0; an entry is the exact quotient, which the
    code rounds to binary64. *)
Definition np_true_divide (a : list Z) (total : Z) : list (option Q) :=
  map (fun x => if (total =? 0)%Z then None
                else Some (inject_Z x / inject_Z total)) a.

(** [a[i]] on a row of parameters. *)
Definition getitem {S} (a : list Q) (i : nat) : M S Q :=
  match a !! i with
  | Some x => ret x
  | None => raise IndexError
  end.

(** [f(k1=v1, ..., **extra)]: the keyword arguments of the call.  A keyword
    given twice raises [TypeError]. *)
Definition call_kwargs {S} (explicit : list (string * Q)) (extra : gmap string Q)
  : M S (gmap string Q) :=
  if forallb (fun kv => bool_decide (extra !! kv.1 = None)) explicit
  then ret (list_to_map explicit ∪ extra)
  else raise TypeError.

(** The rows of a matrix given by its columns: [np.array(columns).T]. *)
Fixpoint transpose (columns : list (list Q)) : list (list Q) :=
  match columns with
  | [] => []
  | [col] => map (fun x => [x]) col
  | col :: rest => zip_with cons col (transpose rest)
  end.

(** [np.ones(n)*x] *)
Definition ones_times (n : nat) (x : Q) : list Q := map (fun one => one * x) (repeat 1 n).

(** *** Files *)

(** A NumPy array: floats or integers. *)
Inductive ndarray : Type :=
  | FloatArray (a : list Q)
  | IntArray (a : list Z).

(** A file holds the chunks of text written to it, an array in NumPy's
    format, or a figure. *)
Inductive file : Type :=
  | TextFile (chunks : list string)
  | NpyFile (a : ndarray)
  | FigureFile.

Record filesystem : Type := {
  directories : gset string;
  files : gmap string file
}.

Definition newline : string := String (Ascii.ascii_of_nat 10) EmptyString.

Definition slash : Ascii.ascii := Ascii.ascii_of_nat 47.

Fixpoint has_slash (s : string) : bool :=
  match s with
  | EmptyString => false
  | String ch rest => Ascii.eqb ch slash || has_slash rest
  end.

(** [os.path.dirname(path)]: what comes before the last slash. *)
Fixpoint dirname (path : string) : string :=
  match path with
  | EmptyString => EmptyString
  | String ch rest => if has_slash rest then String ch (dirname rest) else EmptyString
  end.

(** [s.endswith(suffix)] *)
Definition endswith (s suffix : string) : bool :=
  String.eqb (String.substring (String.length s - String.length suffix)
                        (String.length suffix) s) suffix
  && Nat.leb (String.length suffix) (String.length s).

(** [os.path.join(a, b)] on POSIX. *)
Definition os_path_join (a b : string) : string :=
  if String.prefix "/" b then b
  else if String.eqb a "" || endswith a "/" then a +:+ b
  else a +:+ "/" +:+ b.

(** The file name [np.save] writes to: the extension [.npy] is appended
    unless the name has it. *)
Definition npy_name (file : string) : string :=
  if endswith file ".npy" then file else file +:+ ".npy".

(** *** Imports and calls *)

(** [from module import names] raises [ImportError] when a name is not
    bound in the module. *)
Definition unbound_names (module_names names : list string) : list string :=
  List.filter (fun n => negb (bool_decide (n ∈ module_names))) names.

Definition import_from (module_names names : list string) : outcome unit :=
  match unbound_names module_names names with
  | [] => Done tt
  | _ => Raise ImportError
  end.

(** Binding the arguments of a call to a parameter list: [TypeError] for
    too many positional arguments, a keyword that is no parameter, a
    parameter given by position and by keyword, or a parameter without
    default left unbound. *)
Definition bind_call (signature : list (string * bool)) (positional : nat)
    (keywords : list string) : outcome unit :=
  let names := map fst signature in
  if Nat.ltb (length signature) positional then Raise TypeError
  else if existsb (fun k => negb (bool_decide (k ∈ names))) keywords
  then Raise TypeError
  else if existsb (fun k => bool_decide (k ∈ take positional names)) keywords
  then Raise TypeError
  else if existsb (fun p => negb p.2 && negb (bool_decide (p.1 ∈ keywords)))
                  (drop positional signature)
  then Raise TypeError
  else Done tt.

(** [from tabak import ...] (lines 12 and 13). *)
Definition imports_from_tabak : list string :=
  ["scale_conductance"; "tabak"; "scale_capacitance"; "scale_alpha";
   "scale_tabak"; "G_l"; "G_K"; "G_SK"; "G_Ca"; "C"; "Alpha"]%string.

(** The calls of [tabak]: the number of positional arguments and the
    keywords.  [tabak_parallel] names all its keywords; each of the three
    calls in [figure_1] names five and forwards a dictionary;
    [calculate_frequency_bf] names three and forwards the keywords of its
    own call, which at every call site include [A] and [dt]. *)
Definition tabak_calls : list (nat * list string) :=
  [(0%nat, ["noise_amplitude"; "discard"; "simulation_time"; "g_BK"; "g_K";
            "g_Ca"; "g_SK"; "g_l"; "c"; "alpha"; "A"; "dt"]);
   (0%nat, ["noise_amplitude"; "discard"; "simulation_time"; "A"; "dt"]);
   (0%nat, ["noise_amplitude"; "discard"; "simulation_time"; "A"; "dt"]);
   (0%nat, ["noise_amplitude"; "discard"; "simulation_time"; "A"; "dt"]);
   (0%nat, ["noise_amplitude"; "discard"; "simulation_time"; "A"; "dt"])]%string.

(** The calls of [scale_conductance]: each passes a conductance and the
    area, by position. *)
Definition scale_conductance_calls : list (nat * list string) :=
  repeat (2%nat, []) 12.

(** The names analysis.py imports from the modules [tabak] and
    [burstiness] and uses with an interface that no source file provides:
    [tabak] called with the keywords [A], [dt], [c] and [alpha],
    [scale_conductance] called with the area as second argument, the
    helpers and constants of the model, the event detector [duration] and
    [burst_threshold]. *)
Class Imports {NP : Numpy} {NRN : Neuron} : Type := {
  tabak : gmap string Q -> M Tabak.process (list Q * list Q);
  scale_conductance : Q -> Q -> Q;
  scale_capacitance : Q -> Q -> Q;
  scale_alpha : Q -> Q -> Q;
  scale_tabak : Q -> gmap string Q;
  G_l : Q;
  G_K : Q;
  G_SK : Q;
  G_Ca : Q;
  C : Q;
  Alpha : Q;
  duration : list Q -> list Q -> list Q;
  burst_threshold : Q
}.

(** The machine and the Python runtime.  [mp.cpu_count()] is a fact of the
    machine; task [i] of [pool.imap] runs in a worker process whose
    simulator and generator are in the state [worker i], apart from those
    of the parent; [format_float] is [str.format] of a float. *)
Class Machine {NP : Numpy} {NRN : Neuron} : Type := {
  cpu_count : Z;
  worker : nat -> Tabak.process;
  format_float : Q -> string
}.

Section Scripts.
Context {NP : Numpy} {NRN : Neuron} {IM : Imports} {MA : Machine}.

(** Modelled from the spec: burstiness.py is not among the sources.  The
    burstiness factor is the fraction of detected events classified as
    bursts by a duration threshold: the number of durations above
    [burst_threshold] over the number of durations.  With no event there
    is no fraction; [robustness] tests the factor against [None], which is
    what the model returns then. *)
Definition burstiness (durations : list Q) : option Q :=
  let burst_occurrences := map (fun d => Qlt_bool burst_threshold d) durations in
  match durations with
  | [] => None
  | _ => Some (inject_Z (Z.of_nat (length (List.filter id burst_occurrences)))
               / inject_Z (Z.of_nat (length burst_occurrences)))
  end.

Definition calculate_frequency_bf (parameters : gmap string Q)
  : M Tabak.process (list Q * list (option Q) * option Q) :=
  let nr_bins := 40%nat in
  let hist_range := (0, 200) in
  let! kwargs := call_kwargs [("noise_amplitude", noise_amplitude);
                              ("discard", discard);
                              ("simulation_time", simulation_time)]%string
                             parameters in
  let! (time, voltage) := tabak kwargs in
  let event_durations := duration time voltage in
  let '(binned_durations, bins) :=
    np_histogram event_durations nr_bins hist_range.1 hist_range.2 in
  let frequency := np_true_divide binned_durations (np_sum binned_durations) in
  let burstiness_factor := burstiness event_durations in
  ret (bins, frequency, burstiness_factor).

Definition tabak_parallel (parameters : list Q) : M Tabak.process (option Q) :=
  let! A := getitem parameters 5 in
  let c_scaled := scale_capacitance C A in
  let alpha_scaled := scale_alpha Alpha A in
  let! g_BK := getitem parameters 0 in
  let! g_K := getitem parameters 1 in
  let! g_Ca := getitem parameters 2 in
  let! g_SK := getitem parameters 3 in
  let! g_l := getitem parameters 4 in
  let! dt := getitem parameters 6 in
  let! (time, voltage) :=
    tabak (list_to_map [("noise_amplitude", noise_amplitude);
                        ("discard", discard);
                        ("simulation_time", simulation_time);
                        ("g_BK", g_BK); ("g_K", g_K); ("g_Ca", g_Ca);
                        ("g_SK", g_SK); ("g_l", g_l);
                        ("c", c_scaled); ("alpha", alpha_scaled);
                        ("A", A); ("dt", dt)]%string) in
  let event_durations := duration time voltage in
  let burstiness_factor := burstiness event_durations in
  ret burstiness_factor.

(** The keyword arguments of the call of [tabak] in [tabak_parallel]. *)
Definition row_kwargs (g_BK g_K g_Ca g_SK g_l A dt : Q) : gmap string Q :=
  list_to_map [("noise_amplitude", noise_amplitude);
               ("discard", discard);
               ("simulation_time", simulation_time);
               ("g_BK", g_BK); ("g_K", g_K); ("g_Ca", g_Ca);
               ("g_SK", g_SK); ("g_l", g_l);
               ("c", scale_capacitance C A);
               ("alpha", scale_alpha Alpha A);
               ("A", A); ("dt", dt)]%string.

(** [np.random.uniform(low, high, n)] on the generator of the process. *)
Definition np_random_uniform (low high : Q) (n : nat) : M Tabak.process (list Q) :=
  fun w => let '(xs, g) := random_uniform low high n (Tabak.np_random w) in
           Done (xs, {| Tabak.nrn := Tabak.nrn w; Tabak.np_random := g |}).

(** The first part of [robustness]: the matrix of parameters, one row
    [[g_BK, g_K, g_Ca, g_SK, g_l, A, dt]] per model evaluation. *)
Definition sweep_parameters (g_BK A dt : Q) : M Tabak.process (list (list Q)) :=
  let g_l_scaled := scale_conductance G_l A in
  let g_K_scaled := scale_conductance G_K A in
  let g_Ca_scaled := scale_conductance G_Ca A in
  let g_SK_scaled := scale_conductance G_SK A in
  let! g_K := np_random_uniform (g_K_scaled * (1 # 2)) (g_K_scaled * (3 # 2))
                                robustness_reruns in
  let! g_Ca := np_random_uniform (g_Ca_scaled * (1 # 2)) (g_Ca_scaled * (3 # 2))
                                 robustness_reruns in
  let! g_SK := np_random_uniform (g_SK_scaled * (1 # 2)) (g_SK_scaled * (3 # 2))
                                 robustness_reruns in
  let! g_l := np_random_uniform (g_l_scaled * (1 # 2)) (g_l_scaled * (3 # 2))
                                robustness_reruns in
  let g_BKs := ones_times robustness_reruns g_BK in
  let As := ones_times robustness_reruns A in
  let dts := ones_times robustness_reruns dt in
  ret (transpose [g_BKs; g_K; g_Ca; g_SK; g_l; As; dts]).

(** [mp.Pool(processes=n)] raises [ValueError] unless [n >= 1]. *)
Definition mp_Pool {S} (processes : Z) : M S unit :=
  if (processes <? 1)%Z then raise ValueError else ret tt.

(** [pool.imap(tabak_parallel, tasks)], consumed by the [for] loop: the
    results in the order of the tasks; an exception raised in a worker is
    raised again in the parent when the loop reaches that result. *)
Fixpoint pool_imap (i : nat) (tasks : list (list Q)) : outcome (list (option Q)) :=
  match tasks with
  | [] => Done []
  | task :: rest =>
      match tabak_parallel task (worker i) with
      | Done (result, _) =>
          match pool_imap (S i) rest with
          | Done results => Done (result :: results)
          | Raise e => Raise e
          | Timeout => Timeout
          end
      | Raise e => Raise e
      | Timeout => Timeout
      end
  end.

(** The loop body: the factors that are not [None], in order. *)
Definition collect (results : list (option Q)) : list Q := omap id results.

(** [len(np.where(cond)[0])/len(a)] *)
Definition fraction_where (cond : Q -> bool) (a : list Q) : Q :=
  inject_Z (Z.of_nat (length (List.filter cond a)))
  / inject_Z (Z.of_nat (length a)).

(** The last part of [robustness]: the statistics of the collected
    factors. *)
Definition aggregate {S} (burstiness_factors : list Q)
  : M S (list Q * list Z * Q * Q) :=
  let bins := 10%nat in
  let hist_range := (0, 1) in
  let '(binned_burstiness_factors, bins) :=
    np_histogram burstiness_factors bins hist_range.1 hist_range.2 in
  if Nat.eqb (length burstiness_factors) 0 then raise ZeroDivisionError else
  let bursters := fraction_where (fun b => Qlt_bool (1 # 2) b) burstiness_factors in
  let spikers := fraction_where (fun b => Qlt_bool b (3 # 10)) burstiness_factors in
  ret (bins, binned_burstiness_factors, bursters, spikers).

Definition robustness (g_BK A dt : Q) : M Tabak.process (list Q * list Z * Q * Q) :=
  let! parameters := sweep_parameters g_BK A dt in
  do! mp_Pool (cpu_count - 2) in
  let! results := Tabak.lift (pool_imap 0 parameters) in
  aggregate (collect results).

(** *** The state of a script *)

(** The process, the file system, and the arrays that [figure_1] binds to
    names: an array is an object of the heap, named by its position. *)
Record world : Type := {
  proc : Tabak.process;
  disk : filesystem;
  heap : list (list Q)
}.

Definition in_process {X} (m : M Tabak.process X) : M world X :=
  fun w =>
    match m (proc w) with
    | Done (x, p) => Done (x, {| proc := p; disk := disk w; heap := heap w |})
    | Raise e => Raise e
    | Timeout => Timeout
    end.

(** Writing a file needs its directory; the current directory is there. *)
Definition write_file (path : string) (f : file) : M world unit :=
  fun w =>
    if String.eqb (dirname path) "" || bool_decide (dirname path ∈ directories (disk w))
    then Done (tt, {| proc := proc w;
                      disk := {| directories := directories (disk w);
                                 files := <[path := f]> (files (disk w)) |};
                      heap := heap w |})
    else Raise FileNotFoundError.

(** [np.save(file, arr)] *)
Definition np_save (file : string) (arr : ndarray) : M world unit :=
  write_file (npy_name file) (NpyFile arr).

(** [np.load(file)] *)
Definition np_load (file : string) : M world ndarray :=
  fun w =>
    match files (disk w) !! file with
    | Some (NpyFile a) => Done (a, w)
    | Some (TextFile _) => Raise ValueError
    | Some FigureFile => Raise ValueError
    | None => Raise FileNotFoundError
    end.

Definition generate_data_figure_2
  : M world (ndarray * ndarray * ndarray * ndarray * ndarray * ndarray) :=
  let g_BK := scale_conductance 0 A in
  let! (bins_0, binned_burstiness_factors_0, bursters_0, spikers_0) :=
    in_process (robustness g_BK (31415927 # 10000000000000) dt) in
  let g_BK := scale_conductance (1 # 2) A in
  let! (bins_05, binned_burstiness_factors_05, bursters_05, spikers_05) :=
    in_process (robustness g_BK (31415927 # 10000000000000) dt) in
  let g_BK := scale_conductance 1 A in
  let! (bins_1, binned_burstiness_factors_1, bursters_1, spikers_1) :=
    in_process (robustness g_BK (31415927 # 10000000000000) dt) in
  do! write_file (os_path_join data_folder output_file)
        (TextFile
           ["G_BK = 0" +:+ newline;
            "Spikers = " +:+ format_float spikers_0 +:+ newline;
            "Bursters = " +:+ format_float bursters_0 +:+ newline +:+ newline;
            "G_BK = 0.5" +:+ newline;
            "Spikers = " +:+ format_float spikers_05 +:+ newline;
            "Bursters = " +:+ format_float bursters_05 +:+ newline +:+ newline;
            "G_BK = 1" +:+ newline;
            "Spikers = " +:+ format_float spikers_1 +:+ newline;
            "Bursters = " +:+ format_float bursters_1 +:+ newline]) in
  do! np_save (os_path_join data_folder "bins_0") (FloatArray bins_0) in
  do! np_save (os_path_join data_folder "bins_05") (FloatArray bins_05) in
  do! np_save (os_path_join data_folder "bins_1") (FloatArray bins_1) in
  do! np_save (os_path_join data_folder "binned_burstiness_factors_0")
              (IntArray binned_burstiness_factors_0) in
  do! np_save (os_path_join data_folder "binned_burstiness_factors_05")
              (IntArray binned_burstiness_factors_05) in
  do! np_save (os_path_join data_folder "binned_burstiness_factors_1")
              (IntArray binned_burstiness_factors_1) in
  ret (FloatArray bins_0, FloatArray bins_05, FloatArray bins_1,
       IntArray binned_burstiness_factors_0,
       IntArray binned_burstiness_factors_05,
       IntArray binned_burstiness_factors_1).

Definition load_results_figure_2
  : M world (ndarray * ndarray * ndarray * ndarray * ndarray * ndarray) :=
  let! bins_0 := np_load (os_path_join data_folder "bins_0.npy") in
  let! bins_05 := np_load (os_path_join data_folder "bins_05.npy") in
  let! bins_1 := np_load (os_path_join data_folder "bins_1.npy") in
  let! binned_burstiness_factors_0 :=
    np_load (os_path_join data_folder "binned_burstiness_factors_0.npy") in
  let! binned_burstiness_factors_05 :=
    np_load (os_path_join data_folder "binned_burstiness_factors_05.npy") in
  let! binned_burstiness_factors_1 :=
    np_load (os_path_join data_folder "binned_burstiness_factors_1.npy") in
  ret (bins_0, bins_05, bins_1, binned_burstiness_factors_0,
       binned_burstiness_factors_05, binned_burstiness_factors_1).

(** *** figure_1 *)

(** A new array object. *)
Definition new_array (a : list Q) : M world nat :=
  fun w => Done (length (heap w),
                 {| proc := proc w; disk := disk w; heap := heap w ++ [a] |}).

(** An operation that changes an array in place. *)
Definition update_array (l : nat) (f : list Q -> list Q) : M world unit :=
  fun w =>
    match heap w !! l with
    | Some a => Done (tt, {| proc := proc w; disk := disk w;
                             heap := <[l := f a]> (heap w) |})
    | None => Raise (RuntimeError "no such array")
    end.

(** [a -= x] and [a /= x] on a float array. *)
Definition isub (l : nat) (x : Q) : M world unit :=
  update_array l (map (fun y => y - x)).

Definition itruediv (l : nat) (x : Q) : M world unit :=
  update_array l (map (fun y => y / x)).

(** [del d[k]] raises [KeyError] when the key is missing. *)
Definition del_key {S} (k : string) (d : gmap string Q) : M S (gmap string Q) :=
  match d !! k with
  | Some _ => ret (delete k d)
  | None => raise KeyError
  end.

(** A [for] loop that appends one result per element. *)
Fixpoint for_each {S X Y} (f : X -> M S Y) (xs : list X) : M S (list Y) :=
  match xs with
  | [] => ret []
  | x :: rest =>
      let! y := f x in
      let! ys := for_each f rest in
      ret (y :: ys)
  end.

Definition change_g_BK : M Tabak.process (list Q * list (option Q)) :=
  let G_BKs := [0; 2 # 10; 4 # 10; 5 # 10; 6 # 10; 8 # 10; 1] in
  let g_BKs := map (fun G => scale_conductance G A) G_BKs in
  let parameters := scale_tabak A in
  let! parameters := del_key "g_BK" parameters in
  let! burstiness_factors :=
    for_each (fun g_BK =>
                let! kwargs := call_kwargs [("g_BK", g_BK); ("A", A); ("dt", dt)]%string
                                           parameters in
                let! (bins, frequency, burstiness_factor) :=
                  calculate_frequency_bf kwargs in
                ret burstiness_factor) g_BKs in
  ret (G_BKs, burstiness_factors).

Definition change_tau_BK : M Tabak.process (list Q * list (option Q)) :=
  let tau_BKs := [2; 4; 5; 6; 7; 8; 10] in
  let parameters := scale_tabak A in
  let parameters := <["g_BK" := scale_conductance 1 A]> parameters in
  let! burstiness_factors :=
    for_each (fun tau_BK =>
                let! kwargs := call_kwargs [("tau_BK", tau_BK); ("A", A); ("dt", dt)]%string
                                           parameters in
                let! (bins, frequency, burstiness_factor) :=
                  calculate_frequency_bf kwargs in
                ret burstiness_factor) tau_BKs in
  ret (tau_BKs, burstiness_factors).

(** What [figure_1] has computed before it plots, for one value of G_BK:
    the arrays [time], [V] and [bins] as objects of the heap, the
    frequencies and the burstiness factor. *)
Record panel : Type := {
  time_ : nat;
  V_ : nat;
  bins_ : nat;
  frequency_ : list (option Q);
  burstiness_factor_ : option Q
}.

(** The block of [figure_1] for one value of G_BK: a run of the model and
    the histogram of a second run. *)
Definition figure_1_panel (parameters : gmap string Q) : M world panel :=
  let! kwargs := call_kwargs [("noise_amplitude", noise_amplitude);
                              ("discard", discard);
                              ("simulation_time", simulation_time);
                              ("A", A); ("dt", dt)]%string parameters in
  let! (time, V) := in_process (tabak kwargs) in
  let! time_x := new_array time in
  let! V_x := new_array V in
  let! kwargs := call_kwargs [("A", A); ("dt", dt)]%string parameters in
  let! (bins, frequency, burstiness_factor) :=
    in_process (calculate_frequency_bf kwargs) in
  let! bins_x := new_array bins in
  ret {| time_ := time_x; V_ := V_x; bins_ := bins_x;
         frequency_ := frequency; burstiness_factor_ := burstiness_factor |}.

Record figure_1_data : Type := {
  panel_0 : panel;
  panel_05 : panel;
  panel_1 : panel;
  scaled_g_BKs : list Q;
  burstiness_factors_g_BK : list (option Q);
  scaled_tau_BK : list Q;
  burstiness_factors_tau_BK : list (option Q)
}.

(** [figure_1] up to the results for figures 1D and 1E (lines 299 to
    348). *)
Definition figure_1_compute : M world figure_1_data :=
  let parameters := scale_tabak A in
  let parameters := <["g_BK" := scale_conductance 0 A]> parameters in
  let! p_0 := figure_1_panel parameters in
  let parameters := <["g_BK" := scale_conductance (1 # 2) A]> parameters in
  let! p_05 := figure_1_panel parameters in
  let parameters := <["g_BK" := scale_conductance 1 A]> parameters in
  let! p_1 := figure_1_panel parameters in
  let! (scaled_g_BKs, burstiness_factors_g_BK) := in_process change_g_BK in
  let! (scaled_tau_BK, burstiness_factors_tau_BK) := in_process change_tau_BK in
  ret {| panel_0 := p_0; panel_05 := p_05; panel_1 := p_1;
         scaled_g_BKs := scaled_g_BKs;
         burstiness_factors_g_BK := burstiness_factors_g_BK;
         scaled_tau_BK := scaled_tau_BK;
         burstiness_factors_tau_BK := burstiness_factors_tau_BK |}.

(** [figure_1] from there to the plotting (lines 350 to 364): the discarded
    time is removed and milliseconds become seconds.  It returns
    [burst_threshold_scaled], [simulation_time_plot_scaled] and
    [discard_scaled]. *)
Definition figure_1_rescale (d : figure_1_data) : M world (Q * Q * Q) :=
  do! isub (time_ (panel_0 d)) discard in
  do! isub (time_ (panel_05 d)) discard in
  do! isub (time_ (panel_1 d)) discard in
  do! itruediv (time_ (panel_0 d)) 1000 in
  do! itruediv (time_ (panel_05 d)) 1000 in
  do! itruediv (time_ (panel_1 d)) 1000 in
  do! itruediv (bins_ (panel_0 d)) 1000 in
  do! itruediv (bins_ (panel_05 d)) 1000 in
  do! itruediv (bins_ (panel_1 d)) 1000 in
  let burst_threshold_scaled := burst_threshold / 1000 in
  let simulation_time_plot_scaled := simulation_time_plot / 1000 in
  let discard_scaled := discard / 1000 in
  ret (burst_threshold_scaled, simulation_time_plot_scaled, discard_scaled).

(** *** The two figures *)

(** [plt.savefig(path)]: the plotting calls before it read their arrays;
    what reaches the disk is one figure file. *)
Definition plt_savefig (path : string) : M world unit :=
  write_file path FigureFile.

Definition figure_1 : M world unit :=
  let! d := figure_1_compute in
  let! scalars := figure_1_rescale d in
  plt_savefig (os_path_join figure_folder ("figure_1" +:+ figure_format)).

Definition plot_figure_2
    (results : ndarray * ndarray * ndarray * ndarray * ndarray * ndarray)
  : M world unit :=
  plt_savefig (os_path_join figure_folder ("figure_2" +:+ figure_format)).

Definition figure_2 : M world unit :=
  let! results := generate_data_figure_2 in
  plot_figure_2 results.

(** [if __name__ == "__main__":] *)
Definition main : M world unit :=
  do! figure_1 in
  figure_2.

End Scripts.
End Analysis.

(** ** A model double for the scripts

    Stand-ins for what analysis.py imports, to run the scripts on concrete
    inputs: a simulator that returns one fixed trace, one that fails, a
    detector that reports the time above -30 mV since 10 s, and the scaling
    of tabak.py with the area as an argument. *)

Module DoubleScripts.
Local Open Scope Q_scope.
#[local] Existing Instances Double.neuron Double.numpy.

Definition trace : list Q * list Q :=
  ([10050; 10070; 10090], [0; 0; -60]).

Definition tabak (kwargs : gmap string Q) : M Tabak.process (list Q * list Q) :=
  ret trace.

Definition failing_tabak (kwargs : gmap string Q) : M Tabak.process (list Q * list Q) :=
  raise (RuntimeError "hoc error").

Definition duration (time voltage : list Q) : list Q :=
  map (fun p => p.1 - 10000)
      (List.filter (fun p => Qlt_bool (-30) p.2) (combine time voltage)).

Definition burst_threshold : Q := 60.

Definition scale_conductance (G_x A : Q) : Q := G_x * (1 # 1000000000) / A.
Definition scale_capacitance (C A : Q) : Q := C * (1 # 1000000) / A.
Definition scale_alpha (Alpha A : Q) : Q := Alpha * A * 1000000.

Definition scale_tabak (A : Q) : gmap string Q :=
  list_to_map [("g_l", scale_conductance (2 # 10) A);
               ("g_K", scale_conductance 3 A);
               ("g_Ca", scale_conductance 2 A);
               ("g_SK", scale_conductance 2 A);
               ("g_BK", scale_conductance 1 A)]%string.

#[export] Instance imports : Analysis.Imports := {|
  Analysis.tabak := tabak;
  Analysis.scale_conductance := scale_conductance;
  Analysis.scale_capacitance := scale_capacitance;
  Analysis.scale_alpha := scale_alpha;
  Analysis.scale_tabak := scale_tabak;
  Analysis.G_l := 2 # 10;
  Analysis.G_K := 3;
  Analysis.G_SK := 2;
  Analysis.G_Ca := 2;
  Analysis.C := 10;
  Analysis.Alpha := 15 # 10000;
  Analysis.duration := duration;
  Analysis.burst_threshold := burst_threshold
|}.

(** The same imports with a simulator that fails. *)
Definition failing_imports : Analysis.Imports := {|
  Analysis.tabak := failing_tabak;
  Analysis.scale_conductance := scale_conductance;
  Analysis.scale_capacitance := scale_capacitance;
  Analysis.scale_alpha := scale_alpha;
  Analysis.scale_tabak := scale_tabak;
  Analysis.G_l := 2 # 10;
  Analysis.G_K := 3;
  Analysis.G_SK := 2;
  Analysis.G_Ca := 2;
  Analysis.C := 10;
  Analysis.Alpha := 15 # 10000;
  Analysis.duration := duration;
  Analysis.burst_threshold := burst_threshold
|}.

(** A machine with four processors. *)
#[export] Instance machine : Analysis.Machine := {|
  Analysis.cpu_count := 4;
  Analysis.worker := fun i => Double.process0;
  Analysis.format_float := fun x => "0.5"%string
|}.

Definition world0 : Analysis.world :=
  {| Analysis.proc := Double.process0;
     Analysis.disk := {| Analysis.directories :=
                           {["data"%string; "../article/figures"%string]};
                         Analysis.files := ∅ |};
     Analysis.heap := [] |}.
(** Variants of the doubles: the imports with another simulator, another
    [scale_tabak] and another detector. *)
Definition variant (tabak' : gmap string Q -> M Tabak.process (list Q * list Q))
    (scale_tabak' : Q -> gmap string Q)
    (duration' : list Q -> list Q -> list Q) : Analysis.Imports := {|
  Analysis.tabak := tabak';
  Analysis.scale_conductance := scale_conductance;
  Analysis.scale_capacitance := scale_capacitance;
  Analysis.scale_alpha := scale_alpha;
  Analysis.scale_tabak := scale_tabak';
  Analysis.G_l := 2 # 10;
  Analysis.G_K := 3;
  Analysis.G_SK := 2;
  Analysis.G_Ca := 2;
  Analysis.C := 10;
  Analysis.Alpha := 15 # 10000;
  Analysis.duration := duration';
  Analysis.burst_threshold := burst_threshold
|}.

(** A cell without events, a [scale_tabak] without entries, one that also
    sets [tau_BK] and one that also sets [dt]. *)
Definition silent_imports : Analysis.Imports :=
  variant tabak scale_tabak (fun _ _ => []).

Definition bare_imports : Analysis.Imports :=
  variant tabak (fun _ => ∅) duration.

Definition tau_imports : Analysis.Imports :=
  variant tabak (fun A => <["tau_BK"%string := 5]> (scale_tabak A)) duration.

Definition dt_imports : Analysis.Imports :=
  variant tabak (fun A => <["dt"%string := 1 # 100]> (scale_tabak A)) duration.

(** A machine with two processors. *)
Definition laptop : Analysis.Machine := {|
  Analysis.cpu_count := 2;
  Analysis.worker := fun i => Double.process0;
  Analysis.format_float := fun x => "0.5"%string
|}.

(** A disk without the data folder. *)
Definition world_without_data : Analysis.world :=
  {| Analysis.proc := Double.process0;
     Analysis.disk := {| Analysis.directories := ∅; Analysis.files := ∅ |};
     Analysis.heap := [] |}.
End DoubleScripts.

(** * Properties *)

(** ** Conductance scaling over the rationals *)

Lemma scale_conductance_linear_Q (a G : Q) :
  (Tabak.scale_conductance (a * G) == a * Tabak.scale_conductance G)%Q.
Proof. unfold Tabak.scale_conductance. field. discriminate. Qed.

Lemma scale_conductance_additive_Q (G1 G2 : Q) :
  (Tabak.scale_conductance (G1 + G2) ==
   Tabak.scale_conductance G1 + Tabak.scale_conductance G2)%Q.
Proof. unfold Tabak.scale_conductance. field. discriminate. Qed.

Lemma Qlt_bool_true (x y : Q) : Qlt_bool x y = true <-> (x < y)%Q.
Proof.
  unfold Qlt_bool. rewrite negb_true_iff, <- not_true_iff_false, Qle_bool_iff.
  split; [apply Qnot_le_lt | apply Qlt_not_le].
Qed.

Lemma Qlt_bool_false (x y : Q) : Qlt_bool x y = false <-> (y <= x)%Q.
Proof.
  unfold Qlt_bool. rewrite negb_false_iff, Qle_bool_iff. reflexivity.
Qed.

Section NoiseLoop.
Context {NP : Numpy} {NRN : Neuron}.
Hypothesis contract : FixedStep NRN.


End NoiseLoop.

Section RunSimulation.
Context {NP : Numpy} {NRN : Neuron}.
Hypothesis contract : FixedStep NRN.

End RunSimulation.

(** ** Monad inversion *)

Lemma bind_Done {S A B} (m : M S A) (k : A -> M S B) (s : S) (r : B * S) :
  bind m k s = Done r -> exists a s', m s = Done (a, s') /\ k a s' = Done r.
Proof.
  unfold bind. destruct (m s) as [[a s']| |]; [eauto | discriminate | discriminate].
Qed.

Lemma bind_Raise {S A B} (m : M S A) (k : A -> M S B) (s : S) (e : exn) :
  m s = Raise e -> bind m k s = Raise e.
Proof. unfold bind. intros ->. reflexivity. Qed.

Lemma bind_step {S A B} (m : M S A) (k : A -> M S B) (s s' : S) (a : A) :
  m s = Done (a, s') -> bind m k s = k a s'.
Proof. unfold bind. intros ->. reflexivity. Qed.

(** ** Boolean masks *)

Lemma select_map_filter {A} (f : A -> bool) (a : list A) :
  select a (map f a) = List.filter f a.
Proof.
  induction a as [|x a IH]; simpl; [reflexivity |].
  destruct (f x); rewrite IH; reflexivity.
Qed.




Lemma getitem_mask_Done {A} (a r : list A) (mask : list bool) :
  getitem_mask a mask = Done r -> length a = length mask /\ r = select a mask.
Proof.
  unfold getitem_mask. destruct (Nat.eqb _ _) eqn:H; [| discriminate].
  apply Nat.eqb_eq in H. intros [= <-]. auto.
Qed.

(** ** Strictly increasing sequences *)

Lemma StronglySorted_filter {A} (R : A -> A -> Prop) (f : A -> bool) (l : list A) :
  StronglySorted R l -> StronglySorted R (List.filter f l).
Proof.
  induction 1 as [|x l Hl IH Hx]; simpl; [constructor |].
  destruct (f x); [| exact IH].
  constructor; [exact IH |].
  apply List.Forall_forall. intros y Hy. apply List.filter_In in Hy as [Hy _].
  rewrite List.Forall_forall in Hx. auto.
Qed.

Lemma strictly_increasing_filter (f : Q -> bool) (l : list Q) :
  strictly_increasing l -> strictly_increasing (List.filter f l).
Proof.
  unfold strictly_increasing. intros H.
  apply StronglySorted_Sorted, StronglySorted_filter, Sorted_StronglySorted; [| exact H].
  intros x y z. apply Qlt_trans.
Qed.

(** ** What [tabak] returns *)

Section TabakResult.
Context {NP : Numpy} {NRN : Neuron}.

Lemma lift_Done {A} (o : outcome A) (w : Tabak.process) (r : A * Tabak.process) :
  Tabak.lift o w = Done r -> o = Done r.1 /\ r.2 = w.
Proof. destruct o; simpl; [| discriminate | discriminate]. intros [= <-]. auto. Qed.

Lemma run_simulation_Done (fuel : nat) (soma : sec) (T amp : Q)
    (w w' : Tabak.process) (rec_t rec_v : list Q) :
  Tabak.run_simulation fuel soma T amp w = Done ((rec_t, rec_v), w') ->
  rec_t = vec_t (Tabak.nrn w') /\ rec_v = vec_v (Tabak.nrn w').
Proof.
  unfold Tabak.run_simulation. intros H.
  apply bind_Done in H as (? & w1 & _ & H).
  apply bind_Done in H as (? & w2 & _ & H).
  unfold bind, Tabak.hoc_read, ret in H. injection H as <- <- <-. auto.
Qed.

Lemma tabak_Done (fuel : nat) (a : Tabak.tabak_args) (w w' : Tabak.process)
    (time voltage : list Q) :
  Tabak.tabak fuel a w = Done ((time, voltage), w') ->
  let rec_t := vec_t (Tabak.nrn w') in
  let rec_v := vec_v (Tabak.nrn w') in
  length rec_v = length rec_t
  /\ time = List.filter (fun t => Qlt_bool (Tabak.discard a) t) rec_t
  /\ voltage = select rec_v (Tabak.after_discard (Tabak.discard a) rec_t).
Proof.
  unfold Tabak.tabak. intros H.
  apply bind_Done in H as (soma & w1 & _ & H).
  apply bind_Done in H as (stim & w2 & _ & H).
  apply bind_Done in H as ([rec_t rec_v] & w3 & Hrun & H).
  apply run_simulation_Done in Hrun as [-> ->].
  apply bind_Done in H as (time' & w4 & Ht & H).
  apply lift_Done in Ht as [Ht Hw4]. simpl in Ht, Hw4. subst w4.
  apply bind_Done in H as (voltage' & w5 & Hv & H).
  apply lift_Done in Hv as [Hv Hw5]. simpl in Hv, Hw5. subst w5.
  unfold ret in H. injection H as <- <- <-.
  apply getitem_mask_Done in Ht as [_ ->].
  apply getitem_mask_Done in Hv as [Hlen ->].
  unfold Tabak.after_discard in *. rewrite length_map in Hlen.
  rewrite select_map_filter. auto.
Qed.
End TabakResult.

(** ** The engine double meets its contracts *)

Lemma double_fixed_step : FixedStep Double.neuron.
Proof. split; intros; simpl; reflexivity. Qed.


Example short_noisy_run_result :
  Double.observed (Tabak.tabak 3 Double.short_noisy_run Double.process0) =
  Some ([1 # 50; 3 # 100]%Q, [-60; -60]%Q).
Proof. vm_compute. reflexivity. Qed.



(** ** Fractions of a list *)

Lemma filter_mask_length {X} (f : X -> bool) (l : list X) :
  length (List.filter id (map f l)) = length (List.filter f l).
Proof.
  induction l as [|x l IH]; [reflexivity |].
  cbn. destruct (f x); cbn; rewrite IH; reflexivity.
Qed.

Lemma filter_length_bound {X} (f : X -> bool) (l : list X) :
  length (List.filter f l) <= length l.
Proof.
  induction l as [|x l IH]; simpl; [lia |]. destruct (f x); simpl; lia.
Qed.

Lemma fraction_in_unit_interval (k n : nat) :
  k <= n -> 0 < n ->
  (0 <= inject_Z (Z.of_nat k) / inject_Z (Z.of_nat n) <= 1)%Q.
Proof.
  intros Hk Hn.
  assert (Hpos : (0 < inject_Z (Z.of_nat n))%Q).
  { change 0%Q with (inject_Z 0). rewrite <- Zlt_Qlt. lia. }
  split.
  - apply Qle_shift_div_l; [exact Hpos |]. rewrite Qmult_0_l.
    change 0%Q with (inject_Z 0). rewrite <- Zle_Qle. lia.
  - apply Qle_shift_div_r; [exact Hpos |]. rewrite Qmult_1_l.
    rewrite <- Zle_Qle. lia.
Qed.

Section Burstiness.
Context {NP : Numpy} {NRN : Neuron} {IM : Analysis.Imports}.

Lemma burstiness_nil : Analysis.burstiness [] = None.
Proof. reflexivity. Qed.

Lemma burstiness_fraction (durations : list Q) :
  durations <> [] ->
  exists q : Q,
    Analysis.burstiness durations = Some q
    /\ q = (inject_Z (Z.of_nat (length (List.filter
                (fun d => Qlt_bool Analysis.burst_threshold d) durations)))
            / inject_Z (Z.of_nat (length durations)))%Q
    /\ (0 <= q <= 1)%Q.
Proof.
  intros Hne. unfold Analysis.burstiness.
  destruct durations as [|d durations]; [contradiction |].
  cbv zeta. rewrite filter_mask_length, length_map.
  eexists. split; [reflexivity |]. split; [reflexivity |].
  apply fraction_in_unit_interval; [apply filter_length_bound | simpl; lia].
Qed.


Lemma call_kwargs_Done {S} (explicit : list (string * Q)) (extra kwargs : gmap string Q)
    (s s' : S) :
  Analysis.call_kwargs explicit extra s = Done (kwargs, s') ->
  kwargs = list_to_map explicit ∪ extra /\ s' = s.
Proof.
  unfold Analysis.call_kwargs. destruct (forallb _ _); [| discriminate].
  unfold ret. intros [= <- <-]. auto.
Qed.
End Burstiness.

(** ** The matrix of parameters *)





Section Sweep.
Context {NP : Numpy} {NRN : Neuron} {IM : Analysis.Imports} {MA : Analysis.Machine}.

(** The four columns drawn by [sweep_parameters], with the generator
    threaded through the draws in the order of the code. *)
Lemma sweep_parameters_Done (g_BK A dt : Q) (w : Tabak.process) :
  let n := Analysis.robustness_reruns in
  let scaled G := Analysis.scale_conductance G A in
  let draw G g := random_uniform (scaled G * (1 # 2)) (scaled G * (3 # 2)) n g in
  let g0 := Tabak.np_random w in
  let g1 := (draw Analysis.G_K g0).2 in
  let g2 := (draw Analysis.G_Ca g1).2 in
  let g3 := (draw Analysis.G_SK g2).2 in
  Analysis.sweep_parameters g_BK A dt w =
  Done (Analysis.transpose
          [Analysis.ones_times n g_BK;
           (draw Analysis.G_K g0).1;
           (draw Analysis.G_Ca g1).1;
           (draw Analysis.G_SK g2).1;
           (draw Analysis.G_l g3).1;
           Analysis.ones_times n A;
           Analysis.ones_times n dt],
        {| Tabak.nrn := Tabak.nrn w; Tabak.np_random := (draw Analysis.G_l g3).2 |}).
Proof.
  cbv zeta. unfold Analysis.sweep_parameters, bind, Analysis.np_random_uniform, ret.
  cbn [Tabak.np_random Tabak.nrn].
  repeat (destruct (random_uniform _ _ _ _) as [? ?]; cbn [fst snd Tabak.np_random Tabak.nrn]).
  reflexivity.
Qed.

End Sweep.

(** ** The pool and the statistics *)

Section Pool.
Context {NP : Numpy} {NRN : Neuron} {IM : Analysis.Imports} {MA : Analysis.Machine}.

(** Every task of a finished [pool.imap] was run to its end, in its
    worker, and its result stands at the position of the task. *)
Lemma pool_imap_Done (tasks : list (list Q)) :
  forall (i : nat) (results : list (option Q)),
    Analysis.pool_imap i tasks = Done results ->
    length results = length tasks
    /\ forall (k : nat) (task : list Q),
         tasks !! k = Some task ->
         exists (result : option Q) (wk : Tabak.process),
           Analysis.tabak_parallel task (Analysis.worker (i + k)) = Done (result, wk)
           /\ results !! k = Some result.
Proof.
  induction tasks as [|task tasks IH]; intros i results H; simpl in H.
  - injection H as <-. split; [reflexivity |]. intros k task Hk. discriminate.
  - destruct (Analysis.tabak_parallel task (Analysis.worker i))
      as [[result wi]| |] eqn:Hrun; try discriminate.
    destruct (Analysis.pool_imap (S i) tasks) as [rest| |] eqn:Hrest; try discriminate.
    injection H as <-. destruct (IH _ _ Hrest) as [Hlen Hall].
    split; [simpl; lia |].
    intros [|k] task' Hk; simpl in Hk.
    + injection Hk as <-. rewrite Nat.add_0_r. eauto.
    + destruct (Hall k task' Hk) as (r & wk & Hr & Hlook).
      rewrite <- Nat.add_succ_comm. eauto.
Qed.

(** An exception in a worker is raised by [pool.imap] when the tasks
    before it have been run to their end. *)
Lemma pool_imap_Raise (tasks : list (list Q)) :
  forall (i k : nat) (task : list Q) (e : exn),
    tasks !! k = Some task ->
    Analysis.tabak_parallel task (Analysis.worker (i + k)) = Raise e ->
    (forall (j : nat) (task' : list Q),
        j < k -> tasks !! j = Some task' ->
        exists (r : option Q) (wj : Tabak.process),
          Analysis.tabak_parallel task' (Analysis.worker (i + j)) = Done (r, wj)) ->
    Analysis.pool_imap i tasks = Raise e.
Proof.
  induction tasks as [|task0 tasks IH]; intros i k task e Hk Hraise Hbefore;
    [discriminate |].
  destruct k as [|k]; simpl in Hk |- *.
  - injection Hk as ->. rewrite Nat.add_0_r in Hraise. rewrite Hraise. reflexivity.
  - destruct (Hbefore 0 task0) as (r & w0 & Hr); [lia | reflexivity |].
    rewrite Nat.add_0_r in Hr. rewrite Hr.
    rewrite (IH (S i) k task e Hk); [reflexivity | |].
    + rewrite Nat.add_succ_comm. exact Hraise.
    + intros j task' Hj Hlook. rewrite Nat.add_succ_comm.
      apply (Hbefore (S j) task'); [lia | exact Hlook].
Qed.


Lemma aggregate_Done {S} (factors : list Q) (s : S) :
  factors <> [] ->
  Analysis.aggregate factors s =
  Done ((Analysis.linspace 0 1 10,
         (Analysis.np_histogram factors 10 0 1).1,
         Analysis.fraction_where (fun b => Qlt_bool (1 # 2) b) factors,
         Analysis.fraction_where (fun b => Qlt_bool b (3 # 10)) factors), s).
Proof. destruct factors; [contradiction | reflexivity]. Qed.

Lemma aggregate_nil {S} (s : S) : Analysis.aggregate [] s = Raise ZeroDivisionError.
Proof. reflexivity. Qed.

Lemma mp_Pool_Done {S} (n : Z) (s s' : S) (u : unit) :
  Analysis.mp_Pool n s = Done (u, s') -> (1 <= n)%Z /\ s' = s.
Proof.
  unfold Analysis.mp_Pool. destruct (n <? 1)%Z eqn:Hn; [discriminate |].
  apply Z.ltb_ge in Hn. unfold ret. intros [= _ <-]. auto.
Qed.

(** [robustness] returns only through its four steps, each finished. *)
Lemma robustness_Done (g_BK A dt : Q) (w w' : Tabak.process)
    (r : list Q * list Z * Q * Q) :
  Analysis.robustness g_BK A dt w = Done (r, w') ->
  exists (rows : list (list Q)) (results : list (option Q)),
    Analysis.sweep_parameters g_BK A dt w = Done (rows, w')
    /\ (3 <= Analysis.cpu_count)%Z
    /\ Analysis.pool_imap 0 rows = Done results
    /\ Analysis.collect results <> []
    /\ Analysis.aggregate (Analysis.collect results) w' = Done (r, w').
Proof.
  unfold Analysis.robustness. intros H.
  apply bind_Done in H as (rows & w1 & Hsweep & H).
  apply bind_Done in H as (u & w2 & Hpool & H).
  apply mp_Pool_Done in Hpool as [Hcpu ->].
  apply bind_Done in H as (results & w3 & Himap & H).
  apply lift_Done in Himap as [Himap Hw]. simpl in Himap, Hw. subst w3.
  assert (Hne : Analysis.collect results <> []).
  { intros Hnil. rewrite Hnil, aggregate_nil in H. discriminate. }
  pose proof H as Hagg. rewrite aggregate_Done in H by exact Hne.
  injection H as <- <-.
  exists rows, results. repeat split; try assumption. lia.
Qed.


(** An exception of a worker ends [robustness]. *)
Lemma robustness_Raise (g_BK A dt : Q) (w w1 : Tabak.process)
    (rows : list (list Q)) (e : exn) :
  Analysis.sweep_parameters g_BK A dt w = Done (rows, w1) ->
  (3 <= Analysis.cpu_count)%Z ->
  Analysis.pool_imap 0 rows = Raise e ->
  Analysis.robustness g_BK A dt w = Raise e.
Proof.
  intros Hsweep Hcpu Himap. unfold Analysis.robustness, bind.
  rewrite Hsweep. unfold Analysis.mp_Pool.
  destruct (Analysis.cpu_count - 2 <? 1)%Z eqn:Hn; [apply Z.ltb_lt in Hn; lia |].
  unfold ret. rewrite Himap. reflexivity.
Qed.
End Pool.

(** ** Histograms *)

Section Histogram.
Variables lo hi : Q.
Variable n : nat.
Hypothesis range : (lo < hi)%Q.
Hypothesis bins : 0 < n.

Lemma width_pos : (0 < inject_Z (Z.of_nat n))%Q.
Proof. change 0%Q with (inject_Z 0). rewrite <- Zlt_Qlt. lia. Qed.

Lemma edge_mono (i j : nat) :
  i <= j -> (Analysis.edge lo hi n i <= Analysis.edge lo hi n j)%Q.
Proof.
  intros Hij. unfold Analysis.edge. apply Qplus_le_r. unfold Qdiv.
  apply Qmult_le_compat_r; [| apply Qlt_le_weak, Qinv_lt_0_compat, width_pos].
  apply Qmult_le_compat_r; [| lra].
  rewrite <- Zle_Qle. lia.
Qed.

Lemma edge_first : (Analysis.edge lo hi n 0 == lo)%Q.
Proof. unfold Analysis.edge. simpl. unfold Qdiv. ring. Qed.

Lemma edge_last : (Analysis.edge lo hi n n == hi)%Q.
Proof.
  unfold Analysis.edge. field. intros H.
  pose proof width_pos as Hpos. rewrite H in Hpos. discriminate Hpos.
Qed.

Lemma half_open_count (x : Q) (k : nat) :
  length (List.filter (fun i => Analysis.half_open lo hi n i x) (seq 0 k)) =
  if Qle_bool (Analysis.edge lo hi n 0) x && Qlt_bool x (Analysis.edge lo hi n k)
  then 1 else 0.
Proof.
  induction k as [|k IH].
  - simpl. destruct (Qle_bool _ _) eqn:H1; [| reflexivity].
    destruct (Qlt_bool _ _) eqn:H2; [| reflexivity].
    apply Qle_bool_iff in H1. apply Qlt_bool_true in H2. lra.
  - rewrite seq_S, List.filter_app, length_app, IH. simpl. unfold Analysis.half_open.
    pose proof (edge_mono 0 k ltac:(lia)) as H0k.
    pose proof (edge_mono k (S k) ltac:(lia)) as Hkk.
    destruct (Qle_bool (Analysis.edge lo hi n 0) x) eqn:H1;
      destruct (Qlt_bool x (Analysis.edge lo hi n k)) eqn:H2;
      destruct (Qle_bool (Analysis.edge lo hi n k) x) eqn:H3;
      destruct (Qlt_bool x (Analysis.edge lo hi n (S k))) eqn:H4;
      simpl; try reflexivity;
      repeat match goal with
             | H : Qle_bool _ _ = true |- _ => apply Qle_bool_iff in H
             | H : Qle_bool _ _ = false |- _ =>
                 apply not_true_iff_false in H; rewrite Qle_bool_iff in H
             | H : Qlt_bool _ _ = true |- _ => apply Qlt_bool_true in H
             | H : Qlt_bool _ _ = false |- _ => apply Qlt_bool_false in H
             end; exfalso; lra.
Qed.

Lemma in_bin_inner (i : nat) (x : Q) :
  S i <> n -> Analysis.in_bin lo hi n i x = Analysis.half_open lo hi n i x.
Proof.
  intros Hi. unfold Analysis.in_bin, Analysis.half_open.
  apply Nat.eqb_neq in Hi. rewrite Hi. simpl. rewrite orb_false_r. reflexivity.
Qed.

Lemma in_bin_count (x : Q) :
  length (List.filter (fun i => Analysis.in_bin lo hi n i x) (seq 0 n)) =
  if Qle_bool lo x && Qle_bool x hi then 1 else 0.
Proof.
  set (m := pred n). assert (Hn : S m = n) by (unfold m; lia).
  replace (seq 0 n) with (seq 0 m ++ [m]) by (rewrite <- Hn, seq_S; reflexivity).
  rewrite List.filter_app, length_app.
  rewrite (List.filter_ext_in _ (fun i => Analysis.half_open lo hi n i x)).
  2:{ intros i Hi. apply in_seq in Hi. apply in_bin_inner. lia. }
  rewrite half_open_count. simpl. unfold Analysis.in_bin.
  rewrite Hn, Nat.eqb_refl. simpl.
  pose proof (edge_mono 0 m ltac:(lia)) as H0m.
  pose proof (edge_mono m n ltac:(lia)) as Hmm.
  pose proof edge_first as Hfirst. pose proof edge_last as Hlast.
  destruct (Qle_bool (Analysis.edge lo hi n 0) x) eqn:H1;
    destruct (Qlt_bool x (Analysis.edge lo hi n m)) eqn:H2;
    destruct (Qle_bool (Analysis.edge lo hi n m) x) eqn:H3;
    destruct (Qlt_bool x (Analysis.edge lo hi n n)) eqn:H4;
    destruct (Qle_bool x (Analysis.edge lo hi n n)) eqn:H5;
    destruct (Qle_bool lo x) eqn:H6;
    destruct (Qle_bool x hi) eqn:H7;
    simpl; try reflexivity;
    repeat match goal with
           | H : Qle_bool _ _ = true |- _ => apply Qle_bool_iff in H
           | H : Qle_bool _ _ = false |- _ =>
               apply not_true_iff_false in H; rewrite Qle_bool_iff in H
           | H : Qlt_bool _ _ = true |- _ => apply Qlt_bool_true in H
           | H : Qlt_bool _ _ = false |- _ => apply Qlt_bool_false in H
           end; exfalso; lra.
Qed.

Lemma np_sum_counts (p : nat -> Q -> bool) (a : list Q) (idx : list nat) :
  (forall x, length (List.filter (fun i => p i x) idx) <= 1) ->
  Analysis.np_sum (map (fun i => Z.of_nat (length (List.filter (p i) a))) idx) =
  Z.of_nat (length (List.filter
                      (fun x => Nat.eqb (length (List.filter (fun i => p i x) idx)) 1) a)).
Proof.
  intros Hone. induction a as [|x a IH].
  - clear Hone. induction idx as [|i idx IHi]; [reflexivity |].
    cbn [map]. change (Analysis.np_sum (?z :: ?l))
      with (z + Analysis.np_sum l)%Z. rewrite IHi. reflexivity.
  - assert (Hsplit :
      Analysis.np_sum (map (fun i => Z.of_nat (length (List.filter (p i) (x :: a)))) idx) =
      (Z.of_nat (length (List.filter (fun i => p i x) idx)) +
       Analysis.np_sum (map (fun i => Z.of_nat (length (List.filter (p i) a))) idx))%Z).
    { clear. induction idx as [|i idx IHi]; [reflexivity |].
      cbn [map]. change (Analysis.np_sum (?z :: ?l))
        with (z + Analysis.np_sum l)%Z.
      change (Analysis.np_sum (?z :: ?l)) with (z + Analysis.np_sum l)%Z.
      rewrite IHi. cbn [List.filter].
      destruct (p i x); cbn [length]; lia. }
    rewrite Hsplit, IH. simpl. specialize (Hone x).
    destruct (Nat.eqb _ 1) eqn:Heq.
    + apply Nat.eqb_eq in Heq. rewrite Heq. simpl. lia.
    + apply Nat.eqb_neq in Heq. simpl.
      assert (length (List.filter (fun i => p i x) idx) = 0) as -> by lia. lia.
Qed.

(** Every element of the range is counted in exactly one bin: the counts
    add up to the number of elements within the range. *)
Lemma histogram_total (a : list Q) :
  Analysis.np_sum (Analysis.np_histogram a n lo hi).1 =
  Z.of_nat (length (List.filter (fun x => Qle_bool lo x && Qle_bool x hi) a)).
Proof.
  unfold Analysis.np_histogram. cbn [fst].
  rewrite (np_sum_counts (Analysis.in_bin lo hi n)).
  - f_equal. f_equal. apply List.filter_ext. intros x. rewrite in_bin_count.
    destruct (Qle_bool lo x && Qle_bool x hi); reflexivity.
  - intros x. rewrite in_bin_count. destruct (_ && _); lia.
Qed.

Lemma histogram_shape (a : list Q) :
  length (Analysis.np_histogram a n lo hi).1 = n
  /\ length (Analysis.np_histogram a n lo hi).2 = S n.
Proof.
  unfold Analysis.np_histogram, Analysis.linspace. cbn [fst snd].
  rewrite !length_map, !length_seq. auto.
Qed.
End Histogram.

(** ** One model evaluation *)

Section Evaluation.
Context {NP : Numpy} {NRN : Neuron} {IM : Analysis.Imports} {MA : Analysis.Machine}.

Lemma tabak_parallel_row (g_BK g_K g_Ca g_SK g_l A dt : Q) (w : Tabak.process) :
  Analysis.tabak_parallel [g_BK; g_K; g_Ca; g_SK; g_l; A; dt] w =
  match Analysis.tabak (Analysis.row_kwargs g_BK g_K g_Ca g_SK g_l A dt) w with
  | Done ((time, voltage), w') =>
      Done (Analysis.burstiness (Analysis.duration time voltage), w')
  | Raise e => Raise e
  | Timeout => Timeout
  end.
Proof.
  unfold Analysis.tabak_parallel, bind, Analysis.getitem, ret. cbn.
  unfold Analysis.row_kwargs.
  destruct (Analysis.tabak _ w) as [[[time voltage] w']| |]; reflexivity.
Qed.




Lemma filter_all {X} (f : X -> bool) (l : list X) :
  (forall x, x ∈ l -> f x = true) -> List.filter f l = l.
Proof.
  induction l as [|x l IH]; intros H; simpl; [reflexivity |].
  rewrite (H x) by apply list_elem_of_here. rewrite IH; [reflexivity |].
  intros y Hy. apply H. apply list_elem_of_further. exact Hy.
Qed.

End Evaluation.


Section Propagation.
Context {NP : Numpy} {NRN : Neuron} {IM : Analysis.Imports} {MA : Analysis.Machine}.

Lemma in_process_Raise {X} (m : M Tabak.process X) (w : Analysis.world) (e : exn) :
  m (Analysis.proc w) = Raise e -> Analysis.in_process m w = Raise e.
Proof. unfold Analysis.in_process. intros ->. reflexivity. Qed.
End Propagation.

(** ** Files *)

Section Files.
Context {NP : Numpy} {NRN : Neuron} {IM : Analysis.Imports} {MA : Analysis.Machine}.

Lemma in_process_Done {X} (m : M Tabak.process X) (w w' : Analysis.world) (x : X) :
  Analysis.in_process m w = Done (x, w') ->
  Analysis.disk w' = Analysis.disk w /\ Analysis.heap w' = Analysis.heap w
  /\ m (Analysis.proc w) = Done (x, Analysis.proc w').
Proof.
  unfold Analysis.in_process. destruct (m (Analysis.proc w)) as [[x' p]| |];
    try discriminate.
  intros [= <- <-]. auto.
Qed.

Lemma write_file_Done (path : string) (f : Analysis.file) (w w' : Analysis.world)
    (u : unit) :
  Analysis.write_file path f w = Done (u, w') ->
  Analysis.files (Analysis.disk w') = <[path := f]> (Analysis.files (Analysis.disk w))
  /\ Analysis.directories (Analysis.disk w') = Analysis.directories (Analysis.disk w)
  /\ Analysis.proc w' = Analysis.proc w /\ Analysis.heap w' = Analysis.heap w.
Proof.
  unfold Analysis.write_file. destruct (_ || _); [| discriminate].
  intros [= _ <-]. auto.
Qed.

Lemma np_load_saved (path : string) (a : Analysis.ndarray) (w : Analysis.world) :
  Analysis.files (Analysis.disk w) !! path = Some (Analysis.NpyFile a) ->
  Analysis.np_load path w = Done (a, w).
Proof. unfold Analysis.np_load. intros ->. reflexivity. Qed.

Lemma saved_names :
  Analysis.npy_name (Analysis.os_path_join Analysis.data_folder "bins_0")
    = "data/bins_0.npy"%string
  /\ Analysis.npy_name (Analysis.os_path_join Analysis.data_folder "bins_05")
    = "data/bins_05.npy"%string
  /\ Analysis.npy_name (Analysis.os_path_join Analysis.data_folder "bins_1")
    = "data/bins_1.npy"%string
  /\ Analysis.npy_name
       (Analysis.os_path_join Analysis.data_folder "binned_burstiness_factors_0")
    = "data/binned_burstiness_factors_0.npy"%string
  /\ Analysis.npy_name
       (Analysis.os_path_join Analysis.data_folder "binned_burstiness_factors_05")
    = "data/binned_burstiness_factors_05.npy"%string
  /\ Analysis.npy_name
       (Analysis.os_path_join Analysis.data_folder "binned_burstiness_factors_1")
    = "data/binned_burstiness_factors_1.npy"%string.
Proof. repeat split; reflexivity. Qed.

Lemma loaded_names :
  Analysis.os_path_join Analysis.data_folder "bins_0.npy" = "data/bins_0.npy"%string
  /\ Analysis.os_path_join Analysis.data_folder "bins_05.npy" = "data/bins_05.npy"%string
  /\ Analysis.os_path_join Analysis.data_folder "bins_1.npy" = "data/bins_1.npy"%string
  /\ Analysis.os_path_join Analysis.data_folder "binned_burstiness_factors_0.npy"
     = "data/binned_burstiness_factors_0.npy"%string
  /\ Analysis.os_path_join Analysis.data_folder "binned_burstiness_factors_05.npy"
     = "data/binned_burstiness_factors_05.npy"%string
  /\ Analysis.os_path_join Analysis.data_folder "binned_burstiness_factors_1.npy"
     = "data/binned_burstiness_factors_1.npy"%string.
Proof. repeat split; reflexivity. Qed.

(** The six files that [generate_data_figure_2] leaves on the disk. *)
Lemma generate_data_figure_2_files (w w' : Analysis.world)
    (b0 b05 b1 n0 n05 n1 : Analysis.ndarray) :
  Analysis.generate_data_figure_2 w = Done ((b0, b05, b1, n0, n05, n1), w') ->
  let saved := Analysis.files (Analysis.disk w') in
  saved !! "data/bins_0.npy"%string = Some (Analysis.NpyFile b0)
  /\ saved !! "data/bins_05.npy"%string = Some (Analysis.NpyFile b05)
  /\ saved !! "data/bins_1.npy"%string = Some (Analysis.NpyFile b1)
  /\ saved !! "data/binned_burstiness_factors_0.npy"%string = Some (Analysis.NpyFile n0)
  /\ saved !! "data/binned_burstiness_factors_05.npy"%string = Some (Analysis.NpyFile n05)
  /\ saved !! "data/binned_burstiness_factors_1.npy"%string = Some (Analysis.NpyFile n1).
Proof.
  unfold Analysis.generate_data_figure_2, Analysis.np_save. intros H.
  destruct saved_names as (E1 & E2 & E3 & E4 & E5 & E6).
  rewrite E1, E2, E3, E4, E5, E6 in H. clear E1 E2 E3 E4 E5 E6.
  apply bind_Done in H as ([[[? ?] ?] ?] & w1 & _ & H).
  apply bind_Done in H as ([[[? ?] ?] ?] & w2 & _ & H).
  apply bind_Done in H as ([[[? ?] ?] ?] & w3 & _ & H).
  apply bind_Done in H as (? & w4 & _ & H).
  apply bind_Done in H as (? & w5 & H5 & H). apply write_file_Done in H5 as (F5 & _).
  apply bind_Done in H as (? & w6 & H6 & H). apply write_file_Done in H6 as (F6 & _).
  apply bind_Done in H as (? & w7 & H7 & H). apply write_file_Done in H7 as (F7 & _).
  apply bind_Done in H as (? & w8 & H8 & H). apply write_file_Done in H8 as (F8 & _).
  apply bind_Done in H as (? & w9 & H9 & H). apply write_file_Done in H9 as (F9 & _).
  apply bind_Done in H as (? & w10 & H10 & H). apply write_file_Done in H10 as (F10 & _).
  unfold ret in H. injection H as <- <- <- <- <- <- <-.
  cbv zeta. rewrite F10, F9, F8, F7, F6, F5.
  repeat split; simplify_map_eq; reflexivity.
Qed.
End Files.

(** ** The arrays of figure_1 *)

Section Figure1.
Context {NP : Numpy} {NRN : Neuron} {IM : Analysis.Imports} {MA : Analysis.Machine}.

Lemma new_array_Done (a : list Q) (w w' : Analysis.world) (l : nat) :
  Analysis.new_array a w = Done (l, w') ->
  l = length (Analysis.heap w)
  /\ Analysis.heap w' = Analysis.heap w ++ [a]
  /\ Analysis.proc w' = Analysis.proc w /\ Analysis.disk w' = Analysis.disk w.
Proof. unfold Analysis.new_array. intros [= <- <-]. auto. Qed.

(** A panel adds its three arrays at the end of the heap, in the order
    [time], [V], [bins], and leaves the other arrays and the disk as they
    are. *)
Lemma figure_1_panel_Done (parameters : gmap string Q) (w w' : Analysis.world)
    (p : Analysis.panel) :
  Analysis.figure_1_panel parameters w = Done (p, w') ->
  exists time V bins : list Q,
    Analysis.heap w' = Analysis.heap w ++ [time; V; bins]
    /\ Analysis.time_ p = length (Analysis.heap w)
    /\ Analysis.V_ p = S (length (Analysis.heap w))
    /\ Analysis.bins_ p = S (S (length (Analysis.heap w)))
    /\ Analysis.disk w' = Analysis.disk w.
Proof.
  unfold Analysis.figure_1_panel. intros H.
  apply bind_Done in H as (kw & w1 & Hk & H).
  apply call_kwargs_Done in Hk as [_ ->].
  apply bind_Done in H as ([time V] & w2 & Hrun & H).
  apply in_process_Done in Hrun as (Hd2 & Hh2 & _).
  apply bind_Done in H as (lt & w3 & Ht & H).
  apply new_array_Done in Ht as (-> & Hh3 & _ & Hd3).
  apply bind_Done in H as (lv & w4 & Hv & H).
  apply new_array_Done in Hv as (-> & Hh4 & _ & Hd4).
  apply bind_Done in H as (kw2 & w5 & Hk2 & H).
  apply call_kwargs_Done in Hk2 as [_ ->].
  apply bind_Done in H as ([[bins freq] bf] & w6 & Hfreq & H).
  apply in_process_Done in Hfreq as (Hd6 & Hh6 & _).
  apply bind_Done in H as (lb & w7 & Hb & H).
  apply new_array_Done in Hb as (-> & Hh7 & _ & Hd7).
  unfold ret in H. injection H as <- <-. cbn.
  exists time, V, bins.
  rewrite Hh7, Hh6, Hh4, Hh3, Hh2, Hd7, Hd6, Hd4, Hd3, Hd2.
  rewrite <- !app_assoc. cbn.
  repeat split; try reflexivity; rewrite ?length_app; cbn; lia.
Qed.

(** The nine arrays of [figure_1], at the end of the heap. *)
Lemma figure_1_compute_Done (w w1 : Analysis.world) (d : Analysis.figure_1_data) :
  Analysis.figure_1_compute w = Done (d, w1) ->
  let n := length (Analysis.heap w) in
  exists t0 v0 b0 t05 v05 b05 t1 v1 b1 : list Q,
    Analysis.heap w1 = Analysis.heap w ++ [t0; v0; b0; t05; v05; b05; t1; v1; b1]
    /\ Analysis.time_ (Analysis.panel_0 d) = n
    /\ Analysis.V_ (Analysis.panel_0 d) = n + 1
    /\ Analysis.bins_ (Analysis.panel_0 d) = n + 2
    /\ Analysis.time_ (Analysis.panel_05 d) = n + 3
    /\ Analysis.V_ (Analysis.panel_05 d) = n + 4
    /\ Analysis.bins_ (Analysis.panel_05 d) = n + 5
    /\ Analysis.time_ (Analysis.panel_1 d) = n + 6
    /\ Analysis.V_ (Analysis.panel_1 d) = n + 7
    /\ Analysis.bins_ (Analysis.panel_1 d) = n + 8.
Proof.
  unfold Analysis.figure_1_compute. intros H.
  apply bind_Done in H as (p0 & w2 & H0 & H).
  apply figure_1_panel_Done in H0 as (t0 & v0 & b0 & Hh0 & Ht0 & Hv0 & Hb0 & _).
  apply bind_Done in H as (p05 & w3 & H05 & H).
  apply figure_1_panel_Done in H05 as (t05 & v05 & b05 & Hh05 & Ht05 & Hv05 & Hb05 & _).
  apply bind_Done in H as (p1 & w4 & H1 & H).
  apply figure_1_panel_Done in H1 as (t1 & v1 & b1 & Hh1 & Ht1 & Hv1 & Hb1 & _).
  apply bind_Done in H as ([G bfG] & w5 & HG & H).
  apply in_process_Done in HG as (_ & Hh5 & _).
  apply bind_Done in H as ([tau bftau] & w6 & Htau & H).
  apply in_process_Done in Htau as (_ & Hh6 & _).
  unfold ret in H. injection H as <- <-. cbn.
  exists t0, v0, b0, t05, v05, b05, t1, v1, b1.
  rewrite Hh6, Hh5, Hh1, Hh05, Hh0, <- !app_assoc. cbn.
  rewrite Ht0, Hv0, Hb0, Ht05, Hv05, Hb05, Ht1, Hv1, Hb1, Hh05, Hh0.
  rewrite !length_app. cbn.
  repeat split; try reflexivity; lia.
Qed.

Lemma lookup_added {X} (old new : list X) (k : nat) :
  (old ++ new) !! (length old + k) = new !! k.
Proof.
  rewrite lookup_app_r by lia. f_equal. lia.
Qed.

(** An update in place of an array in the part of the heap that a script
    has added. *)
Lemma update_array_app (l k : nat) (f : list Q -> list Q) (w : Analysis.world)
    (old new : list (list Q)) (a : list Q) :
  Analysis.heap w = old ++ new -> l = length old + k -> new !! k = Some a ->
  Analysis.update_array l f w =
  Done (tt, {| Analysis.proc := Analysis.proc w; Analysis.disk := Analysis.disk w;
               Analysis.heap := old ++ <[k := f a]> new |}).
Proof.
  intros Hh -> Hk. unfold Analysis.update_array.
  rewrite Hh, lookup_app_r by lia.
  replace (length old + k - length old) with k by lia. rewrite Hk.
  rewrite insert_app_r. reflexivity.
Qed.

(** The rescaling of [figure_1] on its nine arrays. *)
Lemma figure_1_rescale_Done (d : Analysis.figure_1_data) (w1 : Analysis.world)
    (old : list (list Q)) (t0 v0 b0 t05 v05 b05 t1 v1 b1 : list Q) :
  Analysis.heap w1 = old ++ [t0; v0; b0; t05; v05; b05; t1; v1; b1] ->
  Analysis.time_ (Analysis.panel_0 d) = length old ->
  Analysis.bins_ (Analysis.panel_0 d) = length old + 2 ->
  Analysis.time_ (Analysis.panel_05 d) = length old + 3 ->
  Analysis.bins_ (Analysis.panel_05 d) = length old + 5 ->
  Analysis.time_ (Analysis.panel_1 d) = length old + 6 ->
  Analysis.bins_ (Analysis.panel_1 d) = length old + 8 ->
  let shift := map (fun y => (y - Analysis.discard)%Q) in
  let seconds := map (fun y => (y / 1000)%Q) in
  Analysis.figure_1_rescale d w1 =
  Done ((Analysis.burst_threshold / 1000, Analysis.simulation_time_plot / 1000,
         Analysis.discard / 1000)%Q,
        {| Analysis.proc := Analysis.proc w1; Analysis.disk := Analysis.disk w1;
           Analysis.heap :=
             old ++ [seconds (shift t0); v0; seconds b0;
                     seconds (shift t05); v05; seconds b05;
                     seconds (shift t1); v1; seconds b1] |}).
Proof.
  intros Hh Ht0 Hb0 Ht05 Hb05 Ht1 Hb1. cbv zeta.
  unfold Analysis.figure_1_rescale, Analysis.isub, Analysis.itruediv.
  assert (Ht0' : Analysis.time_ (Analysis.panel_0 d) = length old + 0) by lia.
  rewrite Ht0', Hb0, Ht05, Hb05, Ht1, Hb1.
  erewrite bind_step;
    [| eapply update_array_app; [exact Hh | reflexivity | reflexivity]].
  do 8 (erewrite bind_step;
        [| eapply update_array_app;
           [cbn [Analysis.heap]; reflexivity | reflexivity | reflexivity]];
        cbn [Analysis.proc Analysis.disk list_insert insert]).
  reflexivity.
Qed.
End Figure1.

(** ** The noise loop on binary64 *)

Section NoiseLoopBinary64.
Variable fadvance : float -> float.
Variable noise : list float.
Variable simulation_time : float.


End NoiseLoopBinary64.
(** * The claims *)



(** C6. The time sequence that [tabak] returns is strictly increasing
    whenever the time sequence the simulator recorded is: discarding the
    samples with time <= discard keeps the order. *)
Theorem tabak_time_strictly_increasing {NP : Numpy} {NRN : Neuron}
    (fuel : nat) (a : Tabak.tabak_args) (w w' : Tabak.process)
    (time voltage : list Q) :
  Tabak.tabak fuel a w = Done ((time, voltage), w') ->
  strictly_increasing (vec_t (Tabak.nrn w')) ->
  strictly_increasing time.
Proof.
  intros Hrun Hrec. apply tabak_Done in Hrun as (_ & -> & _).
  apply strictly_increasing_filter. exact Hrec.
Qed.

Lemma tabak_time_strictly_increasing_witness :
  exists (time voltage : list Q) (w' : Tabak.process),
    Tabak.tabak 3 Double.short_noisy_run Double.process0 = Done ((time, voltage), w')
    /\ strictly_increasing (vec_t (Tabak.nrn w'))
    /\ strictly_increasing time.
Proof.
  eexists _, _, _. split; [vm_compute; reflexivity |].
  assert (Hrec : strictly_increasing
                   [0; 1 # 100; 200 # 10000; 30000 # 1000000]%Q).
  { unfold strictly_increasing. repeat constructor. }
  split; [exact Hrec |].
  eapply (tabak_time_strictly_increasing 3 Double.short_noisy_run Double.process0).
  - vm_compute. reflexivity.
  - exact Hrec.
Defined.




(** C3, as stated, fails on binary64.  Scaling 2 + 3 nS differs in the last
    place from the sum of the scaled 2 nS and 3 nS (the values of G_Ca and
    G_K), and scaling 5 * 2 nS differs from 5 times the scaled 2 nS: the
    scaling as computed is neither additive nor homogeneous. *)
Lemma scale_conductance_not_linear :
  TabakBinary64.scale_conductance (2 + 3) <>
    (TabakBinary64.scale_conductance 2 + TabakBinary64.scale_conductance 3)%float
  /\ TabakBinary64.scale_conductance (5 * 2) <>
     (5 * TabakBinary64.scale_conductance 2)%float.
Proof.
  split; intros H.
  - apply (f_equal (PrimFloat.eqb (TabakBinary64.scale_conductance (2 + 3)))) in H.
    vm_compute in H. discriminate H.
  - apply (f_equal (PrimFloat.eqb (TabakBinary64.scale_conductance (5 * 2)))) in H.
    vm_compute in H. discriminate H.
Qed.

(** C3, amended.  [scale_conductance] returns the binary64 value of
    [G_x*1e-9/A] (evaluated left to right) with [A = 3.1415927e-6], and it
    maps 0 to 0.  Read over the rationals, the same expression is the map
    [G_x |-> G_x * 10^-9 / A], which maps 0 to 0, is homogeneous and is
    additive. *)
Theorem scale_conductance_formula :
  (forall G_x : float,
      TabakBinary64.scale_conductance G_x = (G_x * 1e-9 / 3.1415927e-6)%float)
  /\ TabakBinary64.scale_conductance 0 = 0%float
  /\ (forall G_x : Q,
        Tabak.scale_conductance G_x ==
        G_x * (1 # 1000000000) / (31415927 # 10000000000000))%Q
  /\ (Tabak.scale_conductance 0 == 0)%Q
  /\ (forall a G : Q,
        Tabak.scale_conductance (a * G) == a * Tabak.scale_conductance G)%Q
  /\ (forall G1 G2 : Q,
        Tabak.scale_conductance (G1 + G2) ==
        Tabak.scale_conductance G1 + Tabak.scale_conductance G2)%Q.
Proof.
  split; [reflexivity |]. split; [vm_compute; reflexivity |].
  split; [reflexivity |]. split; [reflexivity |].
  split; [apply scale_conductance_linear_Q | apply scale_conductance_additive_Q].
Qed.


(** C1. The burstiness factor that [calculate_frequency_bf] returns for a
    run is that of the events detected in the trace of the run: with no
    event it is [None]; with at least one event it is the number of events
    whose duration exceeds [burst_threshold] over the number of events, a
    single number in [0, 1]. *)
Theorem burstiness_factor_is_fraction {NP : Numpy} {NRN : Neuron}
    {IM : Analysis.Imports}
    (parameters : gmap string Q) (w w' : Tabak.process)
    (bins : list Q) (frequency : list (option Q)) (burstiness_factor : option Q) :
  Analysis.calculate_frequency_bf parameters w
    = Done ((bins, frequency, burstiness_factor), w') ->
  exists time voltage : list Q,
    Analysis.tabak
      (list_to_map [("noise_amplitude", Analysis.noise_amplitude);
                    ("discard", Analysis.discard);
                    ("simulation_time", Analysis.simulation_time)]%string
       ∪ parameters) w = Done ((time, voltage), w')
    /\ let events := Analysis.duration time voltage in
       let bursts :=
         List.filter (fun d => Qlt_bool Analysis.burst_threshold d) events in
       (events = [] -> burstiness_factor = None)
       /\ (events <> [] ->
           exists q : Q,
             burstiness_factor = Some q
             /\ q = (inject_Z (Z.of_nat (length bursts))
                     / inject_Z (Z.of_nat (length events)))%Q
             /\ (0 <= q <= 1)%Q).
Proof.
  unfold Analysis.calculate_frequency_bf. intros H.
  apply bind_Done in H as (kwargs & w1 & Hk & H).
  apply call_kwargs_Done in Hk as [-> ->].
  apply bind_Done in H as ([time voltage] & w2 & Ht & H).
  cbn in H. unfold ret in H. injection H as <- <- <- <-.
  exists time, voltage. split; [exact Ht |].
  cbn zeta. split.
  - intros ->. reflexivity.
  - apply burstiness_fraction.
Qed.

Lemma burstiness_factor_is_fraction_witness :
  exists time voltage : list Q,
    DoubleScripts.tabak
      (list_to_map [("noise_amplitude", Analysis.noise_amplitude);
                    ("discard", Analysis.discard);
                    ("simulation_time", Analysis.simulation_time)]%string
       ∪ ∅) Double.process0 = Done ((time, voltage), Double.process0)
    /\ let events := DoubleScripts.duration time voltage in
       let bursts := List.filter (fun d => Qlt_bool 60 d) events in
       (events = [] -> Some (1 # 2)%Q = None)
       /\ (events <> [] ->
           exists q : Q,
             Some (1 # 2)%Q = Some q
             /\ q = (inject_Z (Z.of_nat (length bursts))
                     / inject_Z (Z.of_nat (length events)))%Q
             /\ (0 <= q <= 1)%Q).
Proof.
  refine (burstiness_factor_is_fraction (IM := DoubleScripts.imports)
            ∅ Double.process0 Double.process0 _ _ (Some (1 # 2)%Q) _).
  vm_compute. reflexivity.
Defined.



(** C9. Nothing between the simulator and the top level handles an
    exception.  An exception of the simulator ends the model evaluation of
    its worker; an exception of a worker ends [robustness] as soon as the
    runs before it have ended; an exception of any of the three calls of
    [robustness] ends [generate_data_figure_2].  And [robustness] computes
    its statistics only from the results of all runs: when it returns,
    every row has been run to its end and the statistics are those of the
    collected results.  At the top, an exception of
    [generate_data_figure_2] ends [figure_2], one of the computations of
    [figure_1] ends [figure_1], and one of [figure_1] or [figure_2] ends
    the script. *)
Theorem errors_propagate {NP : Numpy} {NRN : Neuron} {IM : Analysis.Imports}
    {MA : Analysis.Machine} :
  (forall (g_BK g_K g_Ca g_SK g_l A dt : Q) (w : Tabak.process) (e : exn),
      Analysis.tabak (Analysis.row_kwargs g_BK g_K g_Ca g_SK g_l A dt) w = Raise e ->
      Analysis.tabak_parallel [g_BK; g_K; g_Ca; g_SK; g_l; A; dt] w = Raise e)
  /\ (forall (g_BK A dt : Q) (w w1 : Tabak.process) (rows : list (list Q))
             (k : nat) (row : list Q) (e : exn),
        Analysis.sweep_parameters g_BK A dt w = Done (rows, w1) ->
        (3 <= Analysis.cpu_count)%Z ->
        rows !! k = Some row ->
        Analysis.tabak_parallel row (Analysis.worker k) = Raise e ->
        (forall (j : nat) (row' : list Q),
            j < k -> rows !! j = Some row' ->
            exists (r : option Q) (wj : Tabak.process),
              Analysis.tabak_parallel row' (Analysis.worker j) = Done (r, wj)) ->
        Analysis.robustness g_BK A dt w = Raise e)
  /\ (forall (w : Analysis.world),
        let area := (31415927 # 10000000000000)%Q in
        let run G := Analysis.in_process
                       (Analysis.robustness (Analysis.scale_conductance G Analysis.A)
                                            area Analysis.dt) in
        match run 0%Q w with
        | Raise e => Analysis.generate_data_figure_2 w = Raise e
        | Timeout => True
        | Done (_, w1) =>
            match run (1 # 2)%Q w1 with
            | Raise e => Analysis.generate_data_figure_2 w = Raise e
            | Timeout => True
            | Done (_, w2) =>
                match run 1%Q w2 with
                | Raise e => Analysis.generate_data_figure_2 w = Raise e
                | _ => True
                end
            end
        end)
  /\ (forall (g_BK A dt : Q) (w w' : Tabak.process) (r : list Q * list Z * Q * Q),
        Analysis.robustness g_BK A dt w = Done (r, w') ->
        exists (rows : list (list Q)) (results : list (option Q)),
          Analysis.sweep_parameters g_BK A dt w = Done (rows, w')
          /\ length results = length rows
          /\ (forall (k : nat) (row : list Q),
                rows !! k = Some row ->
                exists (result : option Q) (wk : Tabak.process),
                  Analysis.tabak_parallel row (Analysis.worker k) = Done (result, wk)
                  /\ results !! k = Some result)
          /\ Analysis.aggregate (Analysis.collect results) w' = Done (r, w'))
  /\ (forall (w : Analysis.world) (e : exn),
        (Analysis.generate_data_figure_2 w = Raise e -> Analysis.figure_2 w = Raise e)
        /\ (Analysis.figure_1_compute w = Raise e -> Analysis.figure_1 w = Raise e)
        /\ (Analysis.figure_1 w = Raise e -> Analysis.main w = Raise e)
        /\ (forall (w1 : Analysis.world) (u : unit),
              Analysis.figure_1 w = Done (u, w1) ->
              Analysis.figure_2 w1 = Raise e -> Analysis.main w = Raise e)).
Proof.
  split; [| split; [| split; [| split]]].
  - intros g_BK g_K g_Ca g_SK g_l A dt w e H.
    rewrite tabak_parallel_row, H. reflexivity.
  - intros g_BK A dt w w1 rows k row e Hsweep Hcpu Hrow Hraise Hbefore.
    apply (robustness_Raise _ _ _ _ _ _ _ Hsweep Hcpu).
    apply (pool_imap_Raise rows 0 k row e Hrow Hraise Hbefore).
  - intros w. cbv zeta. unfold Analysis.generate_data_figure_2.
    destruct (Analysis.in_process _ w) as [[[[[b0 n0] u0] s0] w1]|e|] eqn:H0;
      [| apply bind_Raise; exact H0 | exact I].
    destruct (Analysis.in_process _ w1) as [[[[[b05 n05] u05] s05] w2]|e|] eqn:H05;
      [| rewrite (bind_step _ _ _ _ _ H0); apply bind_Raise; exact H05 | exact I].
    destruct (Analysis.in_process _ w2) as [[[[[b1 n1] u1] s1] w3]|e|] eqn:H1;
      [exact I | | exact I].
    rewrite (bind_step _ _ _ _ _ H0), (bind_step _ _ _ _ _ H05).
    apply bind_Raise. exact H1.
  - intros g_BK A dt w w' r Hrun.
    apply robustness_Done in Hrun as (rows & results & Hs & _ & Himap & _ & Hagg).
    exists rows, results. split; [exact Hs |].
    destruct (pool_imap_Done _ _ _ Himap) as [Hl Hall]. auto.
  - intros w e. repeat split.
    + apply bind_Raise.
    + apply bind_Raise.
    + apply bind_Raise.
    + intros w1 u H1 H2. unfold Analysis.main.
      rewrite (bind_step _ _ _ _ _ H1). exact H2.
Qed.

Lemma errors_propagate_witness :
  let crash := RuntimeError "hoc error" in
  Analysis.tabak_parallel (IM := DoubleScripts.failing_imports)
    [0; 1; 2; 3; 4; 5; 6]%Q Double.process0 = Raise crash
  /\ Analysis.robustness (IM := DoubleScripts.failing_imports)
       (MA := DoubleScripts.machine) 0 Analysis.A Analysis.dt Double.process0
     = Raise crash
  /\ Analysis.generate_data_figure_2 (IM := DoubleScripts.failing_imports)
       (MA := DoubleScripts.machine) DoubleScripts.world0 = Raise crash
  /\ Analysis.figure_2 (IM := DoubleScripts.failing_imports)
       (MA := DoubleScripts.machine) DoubleScripts.world0 = Raise crash
  /\ Analysis.main (IM := DoubleScripts.failing_imports)
       (MA := DoubleScripts.machine) DoubleScripts.world0 = Raise crash
  /\ exists (rows : list (list Q)) (results : list (option Q))
            (r : list Q * list Z * Q * Q),
       Analysis.robustness (IM := DoubleScripts.imports) (MA := DoubleScripts.machine)
         0 Analysis.A Analysis.dt Double.process0 = Done (r, Double.process0)
       /\ length results = length rows
       /\ Analysis.aggregate (Analysis.collect results) Double.process0
          = Done (r, Double.process0).
Proof.
  cbv zeta.
  destruct (errors_propagate (IM := DoubleScripts.failing_imports)
              (MA := DoubleScripts.machine)) as (Hsim & Hworker & Htop & _ & Hmain).
  destruct (errors_propagate (IM := DoubleScripts.imports)
              (MA := DoubleScripts.machine)) as (_ & _ & _ & Hdone & _).
  split; [apply Hsim; reflexivity |].
  assert (Hrun : Analysis.robustness (IM := DoubleScripts.failing_imports)
                   (MA := DoubleScripts.machine) 0 Analysis.A Analysis.dt Double.process0
                 = Raise (RuntimeError "hoc error")).
  { eapply (Hworker 0%Q Analysis.A Analysis.dt Double.process0 _ _ 0%nat).
    - vm_compute. reflexivity.
    - vm_compute. discriminate.
    - reflexivity.
    - vm_compute. reflexivity.
    - intros j row' Hj. lia. }
  split; [exact Hrun |].
  assert (Hgen : Analysis.generate_data_figure_2 (IM := DoubleScripts.failing_imports)
                   (MA := DoubleScripts.machine) DoubleScripts.world0
                 = Raise (RuntimeError "hoc error")).
  2:{ split; [exact Hgen |].
      destruct (Hmain DoubleScripts.world0 (RuntimeError "hoc error"))
        as (Hfig2 & Hfig1 & Hmain1 & _).
      split; [apply Hfig2; exact Hgen |].
      split; [apply Hmain1, Hfig1; vm_compute; reflexivity |].
      assert (Hok : exists r,
                 Analysis.robustness (IM := DoubleScripts.imports)
                   (MA := DoubleScripts.machine) 0 Analysis.A Analysis.dt
                   Double.process0 = Done (r, Double.process0)).
      { eexists. vm_compute. reflexivity. }
      destruct Hok as [r Hok].
      destruct (Hdone _ _ _ _ _ _ Hok) as (rows & results & _ & Hl & _ & Hagg).
      exists rows, results, r. auto. }
  { specialize (Htop DoubleScripts.world0). cbv beta zeta in Htop.
    assert (Hin : Analysis.in_process
                    (Analysis.robustness (IM := DoubleScripts.failing_imports)
                       (MA := DoubleScripts.machine)
                       (Analysis.scale_conductance
                          (Imports := DoubleScripts.failing_imports) 0 Analysis.A)
                       (31415927 # 10000000000000) Analysis.dt) DoubleScripts.world0
                  = Raise (RuntimeError "hoc error")).
    { vm_compute. reflexivity. }
    rewrite Hin in Htop. exact Htop. }
Defined.

(** C7. Saving and loading the results of the sweep is a round trip: when
    [generate_data_figure_2] has returned its six arrays, a call of
    [load_results_figure_2] returns the same six arrays in the same order
    ([bins_0], [bins_05], [bins_1], [binned_burstiness_factors_0],
    [binned_burstiness_factors_05], [binned_burstiness_factors_1]) and
    changes nothing. *)
Theorem save_load_round_trip {NP : Numpy} {NRN : Neuron} {IM : Analysis.Imports}
    {MA : Analysis.Machine} (w w' : Analysis.world)
    (arrays : Analysis.ndarray * Analysis.ndarray * Analysis.ndarray *
              Analysis.ndarray * Analysis.ndarray * Analysis.ndarray) :
  Analysis.generate_data_figure_2 w = Done (arrays, w') ->
  Analysis.load_results_figure_2 w' = Done (arrays, w').
Proof.
  destruct arrays as [[[[[b0 b05] b1] n0] n05] n1]. intros H.
  apply generate_data_figure_2_files in H as (F1 & F2 & F3 & F4 & F5 & F6).
  unfold Analysis.load_results_figure_2.
  destruct loaded_names as (E1 & E2 & E3 & E4 & E5 & E6).
  rewrite E1, E2, E3, E4, E5, E6.
  rewrite (bind_step _ _ _ _ _ (np_load_saved _ _ _ F1)).
  rewrite (bind_step _ _ _ _ _ (np_load_saved _ _ _ F2)).
  rewrite (bind_step _ _ _ _ _ (np_load_saved _ _ _ F3)).
  rewrite (bind_step _ _ _ _ _ (np_load_saved _ _ _ F4)).
  rewrite (bind_step _ _ _ _ _ (np_load_saved _ _ _ F5)).
  rewrite (bind_step _ _ _ _ _ (np_load_saved _ _ _ F6)).
  reflexivity.
Qed.

Lemma save_load_round_trip_witness :
  exists arrays w',
    Analysis.generate_data_figure_2 (IM := DoubleScripts.imports)
      (MA := DoubleScripts.machine) DoubleScripts.world0 = Done (arrays, w')
    /\ Analysis.load_results_figure_2 w' = Done (arrays, w').
Proof.
  eexists _, _. split; [vm_compute; reflexivity |].
  apply (save_load_round_trip (IM := DoubleScripts.imports)
           (MA := DoubleScripts.machine) DoubleScripts.world0).
  vm_compute. reflexivity.
Defined.

(** C8, as stated, fails: [figure_1] changes the time array of a trace in
    place.  With a simulator that returns the times 10050, 10070 and
    10090 ms, the array that [tabak] returned holds 0.05, 0.07 and 0.09 once
    [figure_1] has removed the discarded time and rescaled to seconds. *)
Lemma figure_1_changes_time_in_place :
  exists (d : Analysis.figure_1_data) (w1 w2 : Analysis.world) (scalars : Q * Q * Q),
    Analysis.figure_1_compute (IM := DoubleScripts.imports) DoubleScripts.world0
      = Done (d, w1)
    /\ Analysis.figure_1_rescale (IM := DoubleScripts.imports) d w1 = Done (scalars, w2)
    /\ Analysis.heap w1 !! Analysis.time_ (Analysis.panel_0 d)
       = Some [10050; 10070; 10090]%Q
    /\ map Qred <$> Analysis.heap w2 !! Analysis.time_ (Analysis.panel_0 d)
       = Some [1 # 20; 7 # 100; 9 # 100]%Q
    /\ Analysis.heap w2 !! Analysis.time_ (Analysis.panel_0 d)
       <> Analysis.heap w1 !! Analysis.time_ (Analysis.panel_0 d).
Proof.
  eexists _, _, _, _.
  split; [vm_compute; reflexivity |].
  split; [vm_compute; reflexivity |].
  split; [reflexivity |].
  split; [vm_compute; reflexivity |].
  vm_compute. discriminate.
Qed.

(** C8, amended.  [figure_1] changes six of its arrays in place, and only
    those: in each of its three panels the time array of the trace becomes
    [(time - discard) / 1000] and the bin edges become [bins / 1000], while
    the voltage array of the trace keeps its contents; the arrays that
    existed before, the process and the disk are as they were. *)
Theorem figure_1_rescales_in_place {NP : Numpy} {NRN : Neuron}
    {IM : Analysis.Imports} {MA : Analysis.Machine}
    (w w1 : Analysis.world) (d : Analysis.figure_1_data) :
  Analysis.figure_1_compute w = Done (d, w1) ->
  exists (scalars : Q * Q * Q) (w2 : Analysis.world),
    Analysis.figure_1_rescale d w1 = Done (scalars, w2)
    /\ Analysis.proc w2 = Analysis.proc w1
    /\ Analysis.disk w2 = Analysis.disk w1
    /\ length (Analysis.heap w2) = length (Analysis.heap w1)
    /\ (forall p : Analysis.panel,
          p ∈ [Analysis.panel_0 d; Analysis.panel_05 d; Analysis.panel_1 d] ->
          exists time V bins : list Q,
            Analysis.heap w1 !! Analysis.time_ p = Some time
            /\ Analysis.heap w1 !! Analysis.V_ p = Some V
            /\ Analysis.heap w1 !! Analysis.bins_ p = Some bins
            /\ Analysis.heap w2 !! Analysis.time_ p
               = Some (map (fun t => (t - Analysis.discard) / 1000)%Q time)
            /\ Analysis.heap w2 !! Analysis.V_ p = Some V
            /\ Analysis.heap w2 !! Analysis.bins_ p
               = Some (map (fun b => b / 1000)%Q bins))
    /\ (forall l : nat,
          l < length (Analysis.heap w) ->
          Analysis.heap w1 !! l = Analysis.heap w !! l
          /\ Analysis.heap w2 !! l = Analysis.heap w !! l).
Proof.
  intros Hcompute.
  destruct (figure_1_compute_Done _ _ _ Hcompute)
    as (t0 & v0 & b0 & t05 & v05 & b05 & t1 & v1 & b1 & Hh & Ht0 & Hv0 & Hb0
        & Ht05 & Hv05 & Hb05 & Ht1 & Hv1 & Hb1).
  cbv zeta in *.
  pose proof (figure_1_rescale_Done (IM := IM) d w1 _ _ _ _ _ _ _ _ _ _
                Hh Ht0 Hb0 Ht05 Hb05 Ht1 Hb1) as Hrescale.
  cbv zeta in Hrescale.
  eexists _, _. split; [exact Hrescale |]. cbn.
  split; [reflexivity |]. split; [reflexivity |].
  split; [rewrite Hh, !length_app; reflexivity |].
  split.
  - assert (Ht0' : Analysis.time_ (Analysis.panel_0 d)
                   = length (Analysis.heap w) + 0) by lia.
    intros p Hp. rewrite !elem_of_cons in Hp.
    destruct Hp as [-> | [-> | [-> | Hp]]]; [| | | inversion Hp].
    + exists t0, v0, b0. rewrite Hh, Ht0', Hv0, Hb0, !lookup_added, !List.map_map.
      repeat split; reflexivity.
    + exists t05, v05, b05. rewrite Hh, Ht05, Hv05, Hb05, !lookup_added, !List.map_map.
      repeat split; reflexivity.
    + exists t1, v1, b1. rewrite Hh, Ht1, Hv1, Hb1, !lookup_added, !List.map_map.
      repeat split; reflexivity.
  - intros l Hl. rewrite Hh, !lookup_app_l by exact Hl. auto.
Qed.

Lemma figure_1_rescales_in_place_witness :
  exists (d : Analysis.figure_1_data) (w1 w2 : Analysis.world) (scalars : Q * Q * Q),
    Analysis.figure_1_compute (IM := DoubleScripts.imports) DoubleScripts.world0
      = Done (d, w1)
    /\ Analysis.figure_1_rescale (IM := DoubleScripts.imports) d w1 = Done (scalars, w2)
    /\ Analysis.disk w2 = Analysis.disk w1
    /\ length (Analysis.heap w2) = length (Analysis.heap w1)
    /\ exists time V bins : list Q,
         Analysis.heap w1 !! Analysis.time_ (Analysis.panel_0 d) = Some time
         /\ Analysis.heap w1 !! Analysis.V_ (Analysis.panel_0 d) = Some V
         /\ Analysis.heap w1 !! Analysis.bins_ (Analysis.panel_0 d) = Some bins
         /\ Analysis.heap w2 !! Analysis.time_ (Analysis.panel_0 d)
            = Some (map (fun t => (t - Analysis.discard) / 1000)%Q time)
         /\ Analysis.heap w2 !! Analysis.V_ (Analysis.panel_0 d) = Some V
         /\ Analysis.heap w2 !! Analysis.bins_ (Analysis.panel_0 d)
            = Some (map (fun b => b / 1000)%Q bins).
Proof.
  assert (Hcompute : exists d w1,
             Analysis.figure_1_compute (IM := DoubleScripts.imports)
               DoubleScripts.world0 = Done (d, w1)).
  { eexists _, _. vm_compute. reflexivity. }
  destruct Hcompute as (d & w1 & Hcompute).
  destruct (figure_1_rescales_in_place (MA := DoubleScripts.machine) _ _ _ Hcompute)
    as (scalars & w2 & Hrescale & _ & Hdisk & Hlen & Hpanels & _).
  exists d, w1, w2, scalars.
  split; [exact Hcompute |]. split; [exact Hrescale |].
  split; [exact Hdisk |]. split; [exact Hlen |].
  apply Hpanels. apply list_elem_of_here.
Defined.

(** C5 does not hold of the sources: analysis.py and tabak.py disagree
    about the interface between them.  [from tabak import ...] names nine
    names that tabak.py does not bind, so the import raises [ImportError];
    every call of [tabak] passes keywords that [tabak] does not accept
    ([A] and [dt], in [tabak_parallel] also [c] and [alpha]), and every
    call of [scale_conductance] passes two positional arguments to a
    function of one parameter, so each call would raise [TypeError].  A
    call that keeps to the parameters of tabak.py binds. *)
Theorem analysis_breaks_tabak_interface :
  Analysis.unbound_names Tabak.module_names Analysis.imports_from_tabak
  = ["scale_capacitance"; "scale_alpha"; "scale_tabak"; "G_l"; "G_K"; "G_SK";
     "G_Ca"; "C"; "Alpha"]%string
  /\ Analysis.import_from Tabak.module_names Analysis.imports_from_tabak
     = Raise ImportError
  /\ Forall (fun call => Analysis.bind_call Tabak.tabak_signature call.1 call.2
                         = Raise TypeError) Analysis.tabak_calls
  /\ Forall (fun call => Analysis.bind_call Tabak.scale_conductance_signature
                           call.1 call.2 = Raise TypeError)
            Analysis.scale_conductance_calls
  /\ Analysis.bind_call Tabak.tabak_signature 0
       ["noise_amplitude"; "discard"; "simulation_time"; "g_BK"]%string = Done tt
  /\ Analysis.bind_call Tabak.scale_conductance_signature 1 [] = Done tt.
Proof.
  split; [reflexivity |]. split; [reflexivity |].
  split; [repeat constructor |]. split; [repeat constructor |].
  split; reflexivity.
Qed.
(** * Further properties of tabak.py *)

Lemma Qceiling_le_Z (x : Q) (z : Z) : (x <= inject_Z z)%Q -> (Qceiling x <= z)%Z.
Proof.
  intros H. apply Qceiling_resp_le in H. rewrite Qceiling_Z in H. exact H.
Qed.

Section NoisyRun.
Context {NP : Numpy} {NRN : Neuron}.
Hypothesis fixed : FixedStep NRN.

(** A run with noise, step by step: the engine is set up, the normal
    samples are drawn, the loop runs, the vectors are read. *)
Lemma run_simulation_noisy (fuel : nat) (soma : sec) (T amp : Q) (w : Tabak.process) :
  Qeq_bool amp 0 = false ->
  exists (stim : clamp) (e1 : engine),
    (h_t e1 == 0)%Q /\ (h_dt e1 == Tabak.dt)%Q
    /\ (Recording NRN -> vec_t e1 = [h_t e1])
    /\ Tabak.run_simulation fuel soma T amp w =
       if (Tabak.n_steps T Tabak.dt <? 0)%Z then Raise ValueError
       else
         let draw := random_normal (Z.to_nat (Tabak.n_steps T Tabak.dt))
                                   (Tabak.np_random w) in
         match Tabak.noise_loop fuel
                 (map (fun x => amp * x / np_sqrt (h_dt e1))%Q draw.1) T stim 0
                 {| Tabak.nrn := e1; Tabak.np_random := draw.2 |} with
         | Done (i, w') => Done ((vec_t (Tabak.nrn w'), vec_v (Tabak.nrn w')), w')
         | Raise e => Raise e
         | Timeout => Timeout
         end.
Proof.
  intros Hamp.
  unfold Tabak.run_simulation, Tabak.record, Tabak.insert_current_clamp.
  unfold bind at 1. unfold Tabak.hoc at 1, modify at 1. rewrite Hamp.
  unfold bind, Tabak.hoc, Tabak.hoc_new, Tabak.hoc_read, modify, raise, ret. cbn.
  destruct (h_IClamp soma _ _) as [stim e0]. cbn.
  set (e1 := h_init (h_finitialize (-60) (h_set_dt Tabak.dt e0))).
  assert (Hdt : (h_dt e1 == Tabak.dt)%Q).
  { unfold e1. rewrite (init_dt _ fixed), (finitialize_dt _ fixed).
    apply (set_dt_dt _ fixed). }
  assert (Hz : Qeq_bool (h_dt e1) 0 = false).
  { apply not_true_iff_false. intros Hz. apply Qeq_bool_iff in Hz.
    rewrite Hdt in Hz. discriminate Hz. }
  assert (Hn : Tabak.n_steps T (h_dt e1) = Tabak.n_steps T Tabak.dt).
  { unfold Tabak.n_steps. f_equal. apply Qceiling_comp. rewrite Hdt. reflexivity. }
  exists stim, e1. split; [apply (init_t _ fixed) |]. split; [exact Hdt |].
  split; [intros Hrec; apply (init_vec_t _ Hrec) |].
  rewrite Hz, Hn. unfold Tabak.np_random_normal. cbn.
  destruct (Tabak.n_steps T Tabak.dt <? 0)%Z; [reflexivity |].
  destruct (random_normal _ _) as [normal g]. cbn.
  destruct (Tabak.noise_loop _ _ _ _ _ _) as [[i w']| |]; reflexivity.
Qed.

End NoisyRun.

(** ** Discarding *)

Lemma discard_twice (d1 d2 : Q) (time : list Q) :
  (d1 <= d2)%Q ->
  List.filter (fun t => Qlt_bool d2 t) (List.filter (fun t => Qlt_bool d1 t) time)
  = List.filter (fun t => Qlt_bool d2 t) time.
Proof.
  intros Hd. induction time as [|t time IH]; simpl; [reflexivity |].
  destruct (Qlt_bool d1 t) eqn:H1; simpl; rewrite IH; [reflexivity |].
  destruct (Qlt_bool d2 t) eqn:H2; [| reflexivity].
  apply Qlt_bool_false in H1. apply Qlt_bool_true in H2. lra.
Qed.

Lemma select_twice (d1 d2 : Q) (time : list Q) {X} (voltage : list X) :
  (d1 <= d2)%Q -> length voltage = length time ->
  select (select voltage (Tabak.after_discard d1 time))
         (Tabak.after_discard d2 (List.filter (fun t => Qlt_bool d1 t) time))
  = select voltage (Tabak.after_discard d2 time).
Proof.
  intros Hd. revert voltage.
  induction time as [|t time IH]; intros [|v voltage] Hlen; simpl in *;
    try reflexivity; try discriminate.
  injection Hlen as Hlen.
  destruct (Qlt_bool d1 t) eqn:H1; simpl.
  - destruct (Qlt_bool d2 t); rewrite IH by exact Hlen; reflexivity.
  - rewrite IH by exact Hlen.
    destruct (Qlt_bool d2 t) eqn:H2; [| reflexivity].
    apply Qlt_bool_false in H1. apply Qlt_bool_true in H2. lra.
Qed.

Lemma filter_none {X} (f : X -> bool) (l : list X) :
  (forall x, x ∈ l -> f x = false) -> List.filter f l = [].
Proof.
  induction l as [|x l IH]; intros H; simpl; [reflexivity |].
  rewrite (H x) by apply list_elem_of_here. apply IH.
  intros y Hy. apply H, list_elem_of_further, Hy.
Qed.

Lemma select_none {X} (l : list X) (mask : list bool) :
  (forall b, b ∈ mask -> b = false) -> select l mask = [].
Proof.
  revert mask. induction l as [|x l IH]; intros [|b mask] H; simpl; try reflexivity.
  rewrite (H b) by apply list_elem_of_here. apply IH.
  intros y Hy. apply H, list_elem_of_further, Hy.
Qed.

Lemma select_all {X} (l : list X) (mask : list bool) :
  length l = length mask -> (forall b, b ∈ mask -> b = true) -> select l mask = l.
Proof.
  revert mask. induction l as [|x l IH]; intros [|b mask] Hlen H; simpl in *;
    try reflexivity; try discriminate.
  rewrite (H b) by apply list_elem_of_here. f_equal. apply IH; [lia |].
  intros y Hy. apply H, list_elem_of_further, Hy.
Qed.

(** X1. Every time [tabak] returns is after [discard]; nothing is returned
    when no recorded time is, and the whole recording when every recorded
    time is. *)
Theorem tabak_returns_times_after_discard {NP : Numpy} {NRN : Neuron}
    (fuel : nat) (a : Tabak.tabak_args) (w w' : Tabak.process)
    (time voltage : list Q) :
  Tabak.tabak fuel a w = Done ((time, voltage), w') ->
  Forall (fun t => (Tabak.discard a < t)%Q) time
  /\ length time <= length (vec_t (Tabak.nrn w'))
  /\ ((forall t, t ∈ vec_t (Tabak.nrn w') -> (t <= Tabak.discard a)%Q) ->
      time = [] /\ voltage = [])
  /\ ((forall t, t ∈ vec_t (Tabak.nrn w') -> (Tabak.discard a < t)%Q) ->
      time = vec_t (Tabak.nrn w') /\ voltage = vec_v (Tabak.nrn w')).
Proof.
  intros Hrun. apply tabak_Done in Hrun as (Hlen & -> & ->). cbv zeta in *.
  split; [| split; [| split]].
  - apply List.Forall_forall. intros t Ht. apply List.filter_In in Ht as [_ Ht].
    apply Qlt_bool_true. exact Ht.
  - apply filter_length_bound.
  - intros Hall. split.
    + apply filter_none. intros t Ht. apply Qlt_bool_false. apply Hall, Ht.
    + apply select_none. intros b Hb. unfold Tabak.after_discard in Hb.
      apply list_elem_of_In, in_map_iff in Hb as (t & <- & Ht).
      apply Qlt_bool_false, Hall, list_elem_of_In, Ht.
  - intros Hall. split.
    + apply filter_all. intros t Ht. apply Qlt_bool_true. apply Hall, Ht.
    + apply select_all.
      * unfold Tabak.after_discard. rewrite length_map. exact Hlen.
      * intros b Hb. unfold Tabak.after_discard in Hb.
        apply list_elem_of_In, in_map_iff in Hb as (t & <- & Ht).
        apply Qlt_bool_true, Hall, list_elem_of_In, Ht.
Qed.

Lemma tabak_returns_times_after_discard_witness :
  exists (time voltage : list Q) (w' : Tabak.process),
    Tabak.tabak 3 Double.short_noisy_run Double.process0 = Done ((time, voltage), w')
    /\ Forall (fun t => (1 # 100 < t)%Q) time
    /\ length time <= length (vec_t (Tabak.nrn w')).
Proof.
  assert (H : exists r w',
             Tabak.tabak 3 Double.short_noisy_run Double.process0 = Done (r, w')).
  { eexists _, _. vm_compute. reflexivity. }
  destruct H as ([time voltage] & w' & H). exists time, voltage, w'.
  split; [exact H |].
  destruct (tabak_returns_times_after_discard _ _ _ _ _ _ H) as (H1 & H2 & _).
  split; [exact H1 | exact H2].
Defined.

(** X2. Discarding composes.  From the same state, a call of [tabak] with a
    larger [discard] returns what is left of the result of the call with
    the smaller one when the samples up to the larger value are removed
    from it. *)
Theorem tabak_discard_composes {NP : Numpy} {NRN : Neuron}
    (fuel : nat) (a : Tabak.tabak_args) (d2 : Q) (w w' : Tabak.process)
    (time voltage : list Q) :
  Tabak.tabak fuel a w = Done ((time, voltage), w') ->
  (Tabak.discard a <= d2)%Q ->
  Tabak.tabak fuel (with_discard d2 a) w =
  Done ((List.filter (fun t => Qlt_bool d2 t) time,
         select voltage (Tabak.after_discard d2 time)), w').
Proof.
  intros Hrun Hd. pose proof (tabak_Done _ _ _ _ _ _ Hrun) as (Hlen & Ht & Hv).
  cbv zeta in *.
  unfold Tabak.tabak in Hrun |- *. cbn [with_discard Tabak.g_l Tabak.e_pas Tabak.g_K
    Tabak.g_Ca Tabak.g_SK Tabak.g_BK Tabak.tau_BK Tabak.simulation_time
    Tabak.noise_amplitude Tabak.discard Tabak.stimulus_amplitude].
  apply bind_Done in Hrun as (soma & w1 & Hsoma & Hrun). rewrite (bind_step _ _ _ _ _ Hsoma).
  apply bind_Done in Hrun as (stim & w2 & Hstim & Hrun). rewrite (bind_step _ _ _ _ _ Hstim).
  apply bind_Done in Hrun as ([rec_t rec_v] & w3 & Hsim & Hrun).
  rewrite (bind_step _ _ _ _ _ Hsim).
  pose proof (run_simulation_Done _ _ _ _ _ _ _ _ Hsim) as [-> ->].
  apply bind_Done in Hrun as (t1 & w4 & H1 & Hrun).
  apply lift_Done in H1 as [_ Hw4]. simpl in Hw4. subst w4.
  apply bind_Done in Hrun as (v1 & w5 & H2 & Hrun).
  apply lift_Done in H2 as [_ Hw5]. simpl in Hw5. subst w5.
  unfold ret in Hrun. injection Hrun as _ _ <-.
  rewrite Ht, Hv, discard_twice by exact Hd.
  rewrite (select_twice _ _ _ _ Hd Hlen).
  unfold bind, Tabak.lift, getitem_mask, ret, Tabak.after_discard.
  rewrite length_map, Nat.eqb_refl, Hlen, Nat.eqb_refl.
  rewrite select_map_filter. reflexivity.
Qed.

Lemma tabak_discard_composes_witness :
  exists (time voltage : list Q) (w' : Tabak.process),
    Tabak.tabak 3 Double.short_noisy_run Double.process0 = Done ((time, voltage), w')
    /\ Tabak.tabak 3 (with_discard (2 # 100) Double.short_noisy_run) Double.process0 =
       Done ((List.filter (fun t => Qlt_bool (2 # 100) t) time,
              select voltage (Tabak.after_discard (2 # 100) time)), w').
Proof.
  assert (H : exists r w',
             Tabak.tabak 3 Double.short_noisy_run Double.process0 = Done (r, w')).
  { eexists _, _. vm_compute. reflexivity. }
  destruct H as ([time voltage] & w' & H). exists time, voltage, w'.
  split; [exact H |].
  apply (tabak_discard_composes _ _ _ _ _ _ _ H). vm_compute. discriminate.
Defined.

(** ** Runs with and without noise *)

Lemma double_recording : Recording Double.neuron.
Proof.
  split; intros; simpl; try reflexivity. rewrite map_app. reflexivity.
Qed.

Section TabakRuns.
Context {NP : Numpy} {NRN : Neuron}.

(** The state in which [tabak] starts the simulation has the generator of
    the caller. *)
Lemma tabak_unfold (fuel : nat) (a : Tabak.tabak_args) (w : Tabak.process) :
  exists (soma : sec) (e2 : engine),
    Tabak.tabak fuel a w =
    match Tabak.run_simulation fuel soma (Tabak.simulation_time a)
            (Tabak.noise_amplitude a)
            {| Tabak.nrn := e2; Tabak.np_random := Tabak.np_random w |} with
    | Done ((time, voltage), w') =>
        match getitem_mask time (Tabak.after_discard (Tabak.discard a) time),
              getitem_mask voltage (Tabak.after_discard (Tabak.discard a) time) with
        | Done time', Done voltage' => Done ((time', voltage'), w')
        | Done _, Raise e => Raise e
        | Done _, Timeout => Timeout
        | Raise e, _ => Raise e
        | Timeout, _ => Timeout
        end
    | Raise e => Raise e
    | Timeout => Timeout
    end.
Proof.
  unfold Tabak.tabak, Tabak.create_soma, Tabak.insert_current_clamp.
  unfold bind at 1. unfold Tabak.hoc_new at 1.
  destruct (h_Section _ _) as [soma e1].
  unfold bind at 1. unfold Tabak.hoc_new at 1. cbn [Tabak.nrn Tabak.np_random].
  destruct (h_IClamp _ _ _) as [stim e2].
  exists soma, e2. unfold bind at 1.
  destruct (Tabak.run_simulation _ _ _ _ _) as [[[time voltage] w']| |]; try reflexivity.
  unfold bind, Tabak.lift, ret.
  destruct (getitem_mask time _); try reflexivity.
  destruct (getitem_mask voltage _); reflexivity.
Qed.
(** A run without noise: no loop, no random number. *)
Lemma run_simulation_adaptive (fuel : nat) (soma : sec) (T amp : Q) (w : Tabak.process) :
  Qeq_bool amp 0 = true ->
  exists e' : engine,
    Tabak.run_simulation fuel soma T amp w =
    Done ((vec_t e', vec_v e'), {| Tabak.nrn := e'; Tabak.np_random := Tabak.np_random w |}).
Proof.
  intros Hamp. unfold Tabak.run_simulation, Tabak.record.
  unfold bind at 1. unfold Tabak.hoc at 1, modify at 1. rewrite Hamp.
  eexists. reflexivity.
Qed.
End TabakRuns.

(** ** Runs with noise, on any engine *)

Section AnyEngine.
Context {NP : Numpy} {NRN : Neuron}.

(** What the noise loop has done when it ends, whatever the engine does to
    its clock: the generator is as before, the clock is not below
    [simulation_time], every index read is within the array and below the
    index at the exit, and with a recording of the clock every recorded
    time but the last is below [simulation_time]. *)
Lemma noise_loop_exit (noise : list Q) (T : Q) (stim : clamp) :
  forall (fuel i : nat) (w w' : Tabak.process) (j : nat),
    Tabak.noise_loop fuel noise T stim i w = Done (j, w') ->
    Tabak.np_random w' = Tabak.np_random w
    /\ i <= j <= i + fuel
    /\ (i < j -> j <= length noise)
    /\ (T <= h_t (Tabak.nrn w'))%Q
    /\ (forall noise' : list Q,
          (forall k, i <= k < j -> noise' !! k = noise !! k) ->
          Tabak.noise_loop fuel noise' T stim i w = Done (j, w'))
    /\ (Recording NRN ->
        forall before : list Q,
          vec_t (Tabak.nrn w) = before ++ [h_t (Tabak.nrn w)] ->
          Forall (fun t => (t < T)%Q) before ->
          exists before' : list Q,
            vec_t (Tabak.nrn w') = before' ++ [h_t (Tabak.nrn w')]
            /\ Forall (fun t => (t < T)%Q) before').
Proof.
  induction fuel as [|fuel IH]; intros i w w' j Hrun; simpl in Hrun.
  - destruct (Qlt_bool _ _) eqn:Hc; [discriminate |].
    injection Hrun as <- <-. apply Qlt_bool_false in Hc.
    split; [reflexivity |]. split; [lia |]. split; [lia |]. split; [exact Hc |].
    split.
    + intros noise' _. simpl. apply Qlt_bool_false in Hc. rewrite Hc. reflexivity.
    + intros _ before Hvec Hall. exists before. auto.
  - destruct (Qlt_bool _ _) eqn:Hc.
    + destruct (noise !! i) as [x|] eqn:Hx; [| discriminate].
      unfold bind, Tabak.hoc, modify in Hrun; simpl in Hrun.
      pose proof (IH _ _ _ _ Hrun) as (Hg & Hj & Hlen & HT & Hsame & Hrec).
      simpl in Hg.
      split; [exact Hg |]. split; [lia |].
      split.
      { intros _. apply lookup_lt_Some in Hx.
        destruct (Nat.eq_dec j (S i)) as [-> | Hne]; [lia | apply Hlen; lia]. }
      split; [exact HT |]. split.
      * intros noise' Hk. simpl. rewrite Hc, (Hk i) by lia. rewrite Hx.
        unfold bind, Tabak.hoc, modify; simpl. apply Hsame.
        intros k Hik. apply Hk. lia.
      * intros Hrecording before Hvec Hall.
        apply (Hrec Hrecording (before ++ [h_t (Tabak.nrn w)])).
        -- simpl. rewrite (fadvance_vec_t _ Hrecording),
             (set_amp_vec_t _ Hrecording), Hvec. reflexivity.
        -- apply Forall_app. split; [exact Hall |].
           constructor; [| constructor]. apply Qlt_bool_true. exact Hc.
    + injection Hrun as <- <-. pose proof Hc as Hc'. apply Qlt_bool_false in Hc.
      split; [reflexivity |]. split; [lia |]. split; [lia |]. split; [exact Hc |].
      split.
      * intros noise' _. simpl. rewrite Hc'. reflexivity.
      * intros _ before Hvec Hall. exists before. auto.
Qed.

(** A run with noise, step by step, on any engine: the engine is set up
    and initialised, the normal samples are drawn, the loop runs, the
    vectors are read. *)
Lemma run_simulation_with_noise (fuel : nat) (soma : sec) (T amp : Q)
    (w : Tabak.process) :
  Qeq_bool amp 0 = false ->
  exists (stim : clamp) (e0 : engine),
    let e1 := h_init e0 in
    Tabak.run_simulation fuel soma T amp w =
    if Qeq_bool (h_dt e1) 0 then Raise ZeroDivisionError
    else if (Tabak.n_steps T (h_dt e1) <? 0)%Z then Raise ValueError
    else
      let draw := random_normal (Z.to_nat (Tabak.n_steps T (h_dt e1)))
                                (Tabak.np_random w) in
      match Tabak.noise_loop fuel
              (map (fun x => amp * x / np_sqrt (h_dt e1))%Q draw.1) T stim 0
              {| Tabak.nrn := e1; Tabak.np_random := draw.2 |} with
      | Done (i, w') => Done ((vec_t (Tabak.nrn w'), vec_v (Tabak.nrn w')), w')
      | Raise e => Raise e
      | Timeout => Timeout
      end.
Proof.
  intros Hamp.
  unfold Tabak.run_simulation, Tabak.record, Tabak.insert_current_clamp.
  unfold bind at 1. unfold Tabak.hoc at 1, modify at 1. rewrite Hamp.
  unfold bind, Tabak.hoc, Tabak.hoc_new, Tabak.hoc_read, modify, raise, ret. cbn.
  destruct (h_IClamp soma _ _) as [stim e0]. cbn.
  exists stim, (h_finitialize (-60) (h_set_dt Tabak.dt e0)). cbv zeta.
  destruct (Qeq_bool (h_dt _) 0); [reflexivity |].
  unfold Tabak.np_random_normal. cbn.
  destruct (Tabak.n_steps T _ <? 0)%Z; [reflexivity |].
  destruct (random_normal _ _) as [normal g]. cbn.
  destruct (Tabak.noise_loop _ _ _ _ _ _) as [[i w']| |]; reflexivity.
Qed.
End AnyEngine.

(** X3. The noise loop uses the noise only below the index it ends with,
    on any engine: when it ends with index [i], it has read [noise[0]] to
    [noise[i-1]], all within the array, it has left the clock at or past
    [simulation_time] and NumPy's generator as it was, and a noise array
    with the same first [i] elements gives the same run. *)
Theorem noise_loop_reads_below_exit {NP : Numpy} {NRN : Neuron}
    (fuel : nat) (noise : list Q) (simulation_time : Q) (noise_stim : clamp)
    (w w' : Tabak.process) (i : nat) :
  Tabak.noise_loop fuel noise simulation_time noise_stim 0 w = Done (i, w') ->
  i <= length noise
  /\ i <= fuel
  /\ (simulation_time <= h_t (Tabak.nrn w'))%Q
  /\ Tabak.np_random w' = Tabak.np_random w
  /\ forall noise' : list Q,
       (forall k, k < i -> noise' !! k = noise !! k) ->
       Tabak.noise_loop fuel noise' simulation_time noise_stim 0 w = Done (i, w').
Proof.
  intros Hrun.
  apply noise_loop_exit in Hrun as (Hg & Hi & Hlen & HT & Hsame & _).
  split; [destruct i; [lia | apply Hlen; lia] |]. split; [lia |].
  split; [exact HT |]. split; [exact Hg |].
  intros noise' Hk. apply Hsame. intros k Hik. apply Hk. lia.
Qed.

Lemma noise_loop_reads_below_exit_witness :
  exists w' : Tabak.process,
    Tabak.noise_loop (NRN := Double.neuron) 3 [1; 2; 3; 4]%Q (3 # 100) tt 0
      Double.loop_start = Done (3, w')
    /\ Tabak.noise_loop (NRN := Double.neuron) 3 [1; 2; 3; 7]%Q (3 # 100) tt 0
         Double.loop_start = Done (3, w').
Proof.
  assert (H : exists w',
             Tabak.noise_loop (NRN := Double.neuron) 3 [1; 2; 3; 4]%Q (3 # 100) tt 0
               Double.loop_start = Done (3, w'))
    by (eexists; vm_compute; reflexivity).
  destruct H as (w' & H). exists w'. split; [exact H |].
  destruct (noise_loop_reads_below_exit (NP := Double.numpy) _ _ _ _ _ _ _ H)
    as (_ & _ & _ & _ & Hsame).
  apply Hsame. intros [|[|[|k]]] Hk; [reflexivity | reflexivity | reflexivity | lia].
Defined.

(** X4. A run with noise and a duration of -2 steps or less raises
    [ValueError]: [n_steps] is negative and [np.random.normal] refuses a
    negative size. *)
Theorem tabak_negative_duration {NP : Numpy} {NRN : Neuron} :
  FixedStep NRN ->
  forall (fuel : nat) (a : Tabak.tabak_args) (w : Tabak.process),
    Qeq_bool (Tabak.noise_amplitude a) 0 = false ->
    (Tabak.simulation_time a <= - (2 # 100))%Q ->
    Tabak.tabak fuel a w = Raise ValueError.
Proof.
  intros Hfixed fuel a w Hamp HT.
  destruct (tabak_unfold fuel a w) as (soma & e2 & ->).
  destruct (run_simulation_noisy Hfixed fuel soma (Tabak.simulation_time a)
              (Tabak.noise_amplitude a)
              {| Tabak.nrn := e2; Tabak.np_random := Tabak.np_random w |} Hamp)
    as (stim & e1 & _ & _ & _ & ->).
  assert (Hn : (Tabak.n_steps (Tabak.simulation_time a) Tabak.dt <? 0)%Z = true).
  { apply Z.ltb_lt. unfold Tabak.n_steps.
    assert (Qceiling (Tabak.simulation_time a / Tabak.dt) <= -2)%Z; [| lia].
    apply Qceiling_le_Z. apply Qle_shift_div_r; [reflexivity |].
    eapply Qle_trans; [exact HT |]. vm_compute. discriminate. }
  rewrite Hn. reflexivity.
Qed.

Lemma tabak_negative_duration_witness :
  Tabak.tabak 0 (Tabak.Build_tabak_args 0 0 0 0 0 0 0 (-1) 1 0 0) Double.process0
  = Raise ValueError.
Proof.
  apply (tabak_negative_duration double_fixed_step);
    [reflexivity | vm_compute; discriminate].
Defined.

(** X5. The random numbers a run uses, on any engine.  A run without
    noise leaves NumPy's generator as it was; a run with noise draws from
    it once, the normal samples of the noise, before the first step, and
    nothing else touches it. *)
Theorem tabak_random_numbers {NP : Numpy} {NRN : Neuron}
    (fuel : nat) (a : Tabak.tabak_args) (w w' : Tabak.process)
    (trace : list Q * list Q) :
  Tabak.tabak fuel a w = Done (trace, w') ->
  if Qeq_bool (Tabak.noise_amplitude a) 0
  then Tabak.np_random w' = Tabak.np_random w
  else exists size : nat,
         Tabak.np_random w' = (random_normal size (Tabak.np_random w)).2.
Proof.
  intros Hrun.
  destruct (tabak_unfold fuel a w) as (soma & e2 & Heq). rewrite Heq in Hrun. clear Heq.
  destruct (Tabak.run_simulation _ _ _ _ _) as [[[time voltage] w1]| |] eqn:Hsim;
    try discriminate.
  assert (Hw : w' = w1).
  { destruct (getitem_mask time _); try discriminate.
    destruct (getitem_mask voltage _); try discriminate. congruence. }
  subst w1. clear Hrun.
  destruct (Qeq_bool (Tabak.noise_amplitude a) 0) eqn:Hamp.
  - destruct (run_simulation_adaptive fuel soma (Tabak.simulation_time a) _
                {| Tabak.nrn := e2; Tabak.np_random := Tabak.np_random w |} Hamp)
      as [e' He'].
    rewrite He' in Hsim. injection Hsim as _ _ <-. reflexivity.
  - destruct (run_simulation_with_noise fuel soma (Tabak.simulation_time a) _
                {| Tabak.nrn := e2; Tabak.np_random := Tabak.np_random w |} Hamp)
      as (stim & e0 & Heq).
    cbv zeta in Heq. rewrite Heq in Hsim. clear Heq.
    destruct (Qeq_bool (h_dt (h_init e0)) 0); [discriminate |].
    destruct (Tabak.n_steps _ _ <? 0)%Z; [discriminate |].
    destruct (Tabak.noise_loop _ _ _ _ _ _) as [[i w2]| |] eqn:Hloop; try discriminate.
    injection Hsim as _ _ <-.
    apply noise_loop_exit in Hloop as (Hg & _).
    eexists. exact Hg.
Qed.

Lemma tabak_random_numbers_witness :
  exists (trace : list Q * list Q) (w' : Tabak.process) (size : nat),
    Tabak.tabak 3 Double.short_noisy_run Double.process0 = Done (trace, w')
    /\ Tabak.np_random w' = (random_normal (Numpy := Double.numpy) size tt).2.
Proof.
  assert (H : exists r w',
             Tabak.tabak 3 Double.short_noisy_run Double.process0 = Done (r, w')).
  { eexists _, _. vm_compute. reflexivity. }
  destruct H as (trace & w' & H).
  destruct (tabak_random_numbers _ _ _ _ _ H) as [size Hsize].
  exists trace, w', size. split; [exact H | exact Hsize].
Defined.

(** X6. Where the recording of a run with noise ends, when the engine
    records the clock after initialisation and after every step: the last
    recorded time is the clock at the exit of the loop, the first clock
    value that is not below [simulation_time]; every recorded time before
    it is below [simulation_time]; and [tabak] returns the recorded times
    after [discard]. *)
Theorem tabak_noisy_recording {NP : Numpy} {NRN : Neuron} :
  Recording NRN ->
  forall (fuel : nat) (a : Tabak.tabak_args) (w w' : Tabak.process)
         (time voltage : list Q),
    Qeq_bool (Tabak.noise_amplitude a) 0 = false ->
    Tabak.tabak fuel a w = Done ((time, voltage), w') ->
    exists (before : list Q) (last : Q),
      vec_t (Tabak.nrn w') = before ++ [last]
      /\ last = h_t (Tabak.nrn w')
      /\ Forall (fun t => (t < Tabak.simulation_time a)%Q) before
      /\ (Tabak.simulation_time a <= last)%Q
      /\ time = List.filter (fun t => Qlt_bool (Tabak.discard a) t) (before ++ [last]).
Proof.
  intros Hrec fuel a w w' time voltage Hamp Hrun.
  pose proof (tabak_Done _ _ _ _ _ _ Hrun) as (_ & Htime & _). cbv zeta in Htime.
  destruct (tabak_unfold fuel a w) as (soma & e2 & Heq). rewrite Heq in Hrun. clear Heq.
  destruct (Tabak.run_simulation _ _ _ _ _) as [[[rec_t rec_v] w1]| |] eqn:Hsim;
    try discriminate.
  assert (Hw : w' = w1).
  { destruct (getitem_mask rec_t _); try discriminate.
    destruct (getitem_mask rec_v _); try discriminate. congruence. }
  subst w1. clear Hrun.
  destruct (run_simulation_with_noise fuel soma (Tabak.simulation_time a) _
              {| Tabak.nrn := e2; Tabak.np_random := Tabak.np_random w |} Hamp)
    as (stim & e0 & Heq).
  cbv zeta in Heq. rewrite Heq in Hsim. clear Heq.
  destruct (Qeq_bool (h_dt (h_init e0)) 0); [discriminate |].
  destruct (Tabak.n_steps _ _ <? 0)%Z; [discriminate |].
  destruct (Tabak.noise_loop _ _ _ _ _ _) as [[i w2]| |] eqn:Hloop; try discriminate.
  injection Hsim as _ _ ->.
  apply noise_loop_exit in Hloop as (_ & _ & _ & HT & _ & Hvec).
  destruct (Hvec Hrec []) as (before & Hbefore & Hall).
  - simpl. apply (init_vec_t _ Hrec).
  - constructor.
  - exists before, (h_t (Tabak.nrn w')).
    split; [exact Hbefore |]. split; [reflexivity |]. split; [exact Hall |].
    split; [exact HT |]. rewrite <- Hbefore. exact Htime.
Qed.

Lemma tabak_noisy_recording_witness :
  exists (time voltage : list Q) (w' : Tabak.process) (before : list Q) (last : Q),
    Tabak.tabak 3 Double.short_noisy_run Double.process0 = Done ((time, voltage), w')
    /\ vec_t (Tabak.nrn w') = before ++ [last]
    /\ Forall (fun t => (t < 3 # 100)%Q) before
    /\ (3 # 100 <= last)%Q.
Proof.
  assert (H : exists r w',
             Tabak.tabak 3 Double.short_noisy_run Double.process0 = Done (r, w')).
  { eexists _, _. vm_compute. reflexivity. }
  destruct H as ([time voltage] & w' & H).
  destruct (tabak_noisy_recording double_recording 3 Double.short_noisy_run
              _ _ _ _ eq_refl H) as (before & last & H1 & _ & H3 & H4 & _).
  exists time, voltage, w', before, last. auto.
Defined.

(** * Further properties of analysis.py *)

Local Open Scope Q_scope.

(** ** Keyword arguments *)

Lemma call_kwargs_Raise {S} (explicit : list (string * Q)) (extra : gmap string Q)
    (s : S) (key : string) :
  key ∈ map fst explicit -> is_Some (extra !! key) ->
  Analysis.call_kwargs explicit extra s = Raise TypeError.
Proof.
  intros Hin [v Hv]. unfold Analysis.call_kwargs.
  destruct (forallb _ explicit) eqn:Hall; [| reflexivity].
  rewrite forallb_forall in Hall.
  apply list_elem_of_fmap in Hin as ([k x] & -> & Hin).
  apply list_elem_of_In, Hall in Hin. apply bool_decide_eq_true in Hin.
  simpl in Hin, Hv. congruence.
Qed.

(** ** Frequencies *)

Lemma np_sum_bound (counts : list Z) :
  Forall (fun x => (0 <= x)%Z) counts ->
  Forall (fun x => (0 <= x <= Analysis.np_sum counts)%Z) counts.
Proof.
  induction 1 as [|x counts Hx Hall IH]; [constructor |].
  change (Analysis.np_sum (x :: counts)) with (x + Analysis.np_sum counts)%Z.
  assert (0 <= Analysis.np_sum counts)%Z.
  { clear IH Hx. induction Hall as [|y l Hy _ IHl]; [simpl; lia |].
    change (Analysis.np_sum (y :: l)) with (y + Analysis.np_sum l)%Z. lia. }
  constructor; [lia |].
  eapply Forall_impl; [exact IH |]. simpl. intros; lia.
Qed.

Lemma histogram_counts_nonnegative (a : list Q) (n : nat) (lo hi : Q) :
  Forall (fun x => (0 <= x)%Z) (Analysis.np_histogram a n lo hi).1.
Proof.
  unfold Analysis.np_histogram. cbn [fst]. apply Forall_forall.
  intros x Hx. apply list_elem_of_fmap in Hx as (i & -> & _). lia.
Qed.

Lemma np_true_divide_zero (counts : list Z) :
  Forall (fun f => f = None) (Analysis.np_true_divide counts 0).
Proof.
  unfold Analysis.np_true_divide. apply Forall_forall. intros f Hf.
  apply list_elem_of_fmap in Hf as (x & -> & _). reflexivity.
Qed.

(** One entry of [a / a.sum()] for counts that are not all zero: a number
    between 0 and 1, which is 0 exactly when the count is. *)
Lemma np_true_divide_entry (counts : list Z) (i : nat) (c : Z) :
  Forall (fun x => (0 <= x)%Z) counts ->
  Analysis.np_sum counts <> 0%Z ->
  counts !! i = Some c ->
  exists f : Q,
    Analysis.np_true_divide counts (Analysis.np_sum counts) !! i = Some (Some f)
    /\ 0 <= f <= 1
    /\ (f == 0 <-> c = 0%Z).
Proof.
  intros Hpos Hne Hc. set (total := Analysis.np_sum counts) in *.
  exists (inject_Z c / inject_Z total).
  apply np_sum_bound in Hpos. fold total in Hpos.
  rewrite Forall_forall in Hpos.
  specialize (Hpos c (list_elem_of_lookup_2 _ _ _ Hc)).
  assert (Ht : 0 < inject_Z total).
  { change 0 with (inject_Z 0). rewrite <- Zlt_Qlt. lia. }
  split; [| split; [split |]].
  - unfold Analysis.np_true_divide. rewrite list_lookup_fmap, Hc. simpl.
    destruct (total =? 0)%Z eqn:E; [| reflexivity].
    apply Z.eqb_eq in E. contradiction.
  - apply Qle_shift_div_l; [exact Ht |]. rewrite Qmult_0_l.
    change 0 with (inject_Z 0). rewrite <- Zle_Qle. lia.
  - apply Qle_shift_div_r; [exact Ht |]. rewrite Qmult_1_l.
    rewrite <- Zle_Qle. lia.
  - split.
    + intros Hf. destruct (Z.eq_dec c 0%Z) as [E | E]; [exact E |]. exfalso.
      assert (Hcpos : 0 < inject_Z c).
      { change 0 with (inject_Z 0). rewrite <- Zlt_Qlt. lia. }
      assert (0 < inject_Z c / inject_Z total).
      { apply Qlt_shift_div_l; [exact Ht |]. rewrite Qmult_0_l. exact Hcpos. }
      rewrite Hf in H. exact (Qlt_irrefl _ H).
    + intros ->. unfold Qdiv. apply Qmult_0_l.
Qed.

(** X7. [calculate_frequency_bf] fixes the noise amplitude, the discarded
    time and the simulation time: a call that passes one of
    [noise_amplitude], [discard] or [simulation_time] among its keyword
    arguments raises [TypeError] (the keyword reaches [tabak] twice), and
    the simulator is not run. *)
Theorem calculate_frequency_bf_fixed_settings {NP : Numpy} {NRN : Neuron}
    {IM : Analysis.Imports} (parameters : gmap string Q) (key : string)
    (w : Tabak.process) :
  key ∈ ["noise_amplitude"; "discard"; "simulation_time"]%string ->
  is_Some (parameters !! key) ->
  Analysis.calculate_frequency_bf parameters w = Raise TypeError.
Proof.
  intros Hkey Hsome. unfold Analysis.calculate_frequency_bf.
  apply bind_Raise. apply (call_kwargs_Raise _ _ _ key); [| exact Hsome].
  exact Hkey.
Qed.

Lemma calculate_frequency_bf_fixed_settings_witness :
  Analysis.calculate_frequency_bf (IM := DoubleScripts.imports)
    {["discard"%string := 0%Q]} Double.process0 = Raise TypeError.
Proof.
  apply (calculate_frequency_bf_fixed_settings (IM := DoubleScripts.imports)
           _ "discard"%string).
  - apply list_elem_of_further, list_elem_of_here.
  - rewrite lookup_singleton. eauto.
Defined.

(** X8. The frequencies that [calculate_frequency_bf] returns: 41 edges of
    40 bins of equal width over [0, 200] and one frequency per bin.  Only
    the events that last between 0 and 200 ms are counted.  With no such
    event every frequency is [nan] (0/0); otherwise every frequency is a
    number between 0 and 1, and the frequency of a bin is 0 exactly when no
    event falls in the bin. *)
Theorem calculate_frequency_bf_frequencies {NP : Numpy} {NRN : Neuron}
    {IM : Analysis.Imports}
    (parameters : gmap string Q) (w w' : Tabak.process)
    (bins : list Q) (frequency : list (option Q)) (burstiness_factor : option Q) :
  Analysis.calculate_frequency_bf parameters w
    = Done ((bins, frequency, burstiness_factor), w') ->
  exists time voltage : list Q,
    Analysis.tabak
      (list_to_map [("noise_amplitude", Analysis.noise_amplitude);
                    ("discard", Analysis.discard);
                    ("simulation_time", Analysis.simulation_time)]%string
       ∪ parameters) w = Done ((time, voltage), w')
    /\ let events := Analysis.duration time voltage in
       let counted :=
         List.filter (fun d => Qle_bool 0 d && Qle_bool d 200) events in
       bins = Analysis.linspace 0 200 40
       /\ length bins = 41%nat
       /\ length frequency = 40%nat
       /\ (counted = [] -> Forall (fun f => f = None) frequency)
       /\ (counted <> [] ->
           forall i : nat,
             (i < 40)%nat ->
             exists f : Q,
               frequency !! i = Some (Some f)
               /\ 0 <= f <= 1
               /\ (f == 0 <-> List.filter (Analysis.in_bin 0 200 40 i) events = [])).
Proof.
  unfold Analysis.calculate_frequency_bf. intros H.
  apply bind_Done in H as (kwargs & w1 & Hk & H).
  apply call_kwargs_Done in Hk as [-> ->].
  apply bind_Done in H as ([time voltage] & w2 & Ht & H).
  exists time, voltage. cbv beta iota zeta in H |- *.
  set (events := Analysis.duration time voltage) in *.
  assert (Hrange : 0 < 200) by reflexivity.
  assert (Hbins : (0 < 40)%nat) by lia.
  pose proof (histogram_total 0 200 40 Hrange Hbins events) as Htotal.
  pose proof (histogram_shape 0 200 40 events) as [Hl1 Hl2].
  pose proof (histogram_counts_nonnegative events 40 0 200) as Hpos.
  assert (Hedges : (Analysis.np_histogram events 40 0 200).2 = Analysis.linspace 0 200 40)
    by reflexivity.
  assert (Hcount : forall i, (i < 40)%nat ->
            (Analysis.np_histogram events 40 0 200).1 !! i
            = Some (Z.of_nat (length (List.filter (Analysis.in_bin 0 200 40 i) events)))).
  { intros i Hi. unfold Analysis.np_histogram. cbn [fst].
    rewrite list_lookup_fmap, lookup_seq_lt by exact Hi. reflexivity. }
  cbn [fst snd] in H.
  destruct (Analysis.np_histogram events 40 0 200) as [counts edges].
  cbn [fst snd] in Htotal, Hl1, Hl2, Hpos, Hedges, Hcount.
  unfold ret in H. injection H as <- <- <- <-.
  split; [exact Ht |]. split; [exact Hedges |]. split; [exact Hl2 |].
  split; [unfold Analysis.np_true_divide; rewrite length_map; exact Hl1 |].
  split.
  - intros Hnil. rewrite Htotal, Hnil. apply np_true_divide_zero.
  - intros Hne i Hi.
    assert (Htot : Analysis.np_sum counts <> 0%Z).
    { rewrite Htotal. destruct (List.filter _ events); [contradiction | discriminate]. }
    destruct (np_true_divide_entry counts i _ Hpos Htot (Hcount i Hi))
      as (f & Hf & Hb & Hz).
    exists f. split; [exact Hf |]. split; [exact Hb |].
    rewrite Hz. split.
    + intros E. apply length_zero_iff_nil. lia.
    + intros E. rewrite E. reflexivity.
Qed.

Lemma calculate_frequency_bf_frequencies_witness :
  exists bins frequency burstiness_factor,
    Analysis.calculate_frequency_bf (IM := DoubleScripts.imports) ∅ Double.process0
      = Done ((bins, frequency, burstiness_factor), Double.process0)
    /\ bins = Analysis.linspace 0 200 40
    /\ length bins = 41%nat
    /\ length frequency = 40%nat.
Proof.
  assert (H : exists r, Analysis.calculate_frequency_bf (IM := DoubleScripts.imports)
                          ∅ Double.process0 = Done (r, Double.process0))
    by (eexists; vm_compute; reflexivity).
  destruct H as ([[bins frequency] bf] & H).
  destruct (calculate_frequency_bf_frequencies (IM := DoubleScripts.imports)
              _ _ _ _ _ _ H) as (time & voltage & _ & H1 & H2 & H3 & _).
  exists bins, frequency, bf. auto.
Defined.

(** ** One row of parameters *)

Section Rows.
Context {NP : Numpy} {NRN : Neuron} {IM : Analysis.Imports}.

Lemma getitem_Done {S} (a : list Q) (i : nat) (x : Q) (s : S) :
  a !! i = Some x -> Analysis.getitem a i s = Done (x, s).
Proof. unfold Analysis.getitem. intros ->. reflexivity. Qed.

Lemma getitem_Raise {S} (a : list Q) (i : nat) (s : S) :
  (length a <= i)%nat -> Analysis.getitem a i s = Raise IndexError.
Proof.
  intros Hlen. unfold Analysis.getitem.
  rewrite (proj2 (lookup_ge_None a i) Hlen). reflexivity.
Qed.

Lemma getitem_cases {S} (a : list Q) (i : nat) (s : S) :
  (exists x, a !! i = Some x /\ Analysis.getitem a i s = Done (x, s))
  \/ ((length a <= i)%nat /\ Analysis.getitem a i s = Raise IndexError).
Proof.
  destruct (a !! i) as [x|] eqn:E.
  - left. exists x. split; [reflexivity |]. apply getitem_Done. exact E.
  - right. apply lookup_ge_None in E. split; [exact E |]. apply getitem_Raise. exact E.
Qed.

Lemma tabak_parallel_short (row : list Q) (w : Tabak.process) :
  (length row < 7)%nat -> Analysis.tabak_parallel row w = Raise IndexError.
Proof.
  intros Hlen. unfold Analysis.tabak_parallel.
  repeat
    match goal with
    | |- bind (Analysis.getitem row ?i) _ ?s = _ =>
        let Hx := fresh "Hx" in
        let E := fresh "E" in
        destruct (getitem_cases row i s) as [(? & Hx & E) | (Hx & E)];
        [apply lookup_lt_Some in Hx; rewrite (bind_step _ _ _ _ _ E); clear E
        | apply bind_Raise; exact E]
    end.
  lia.
Qed.
End Rows.

(** X9. [tabak_parallel] reads the first seven entries of its row and
    nothing else: a row of fewer than seven entries raises [IndexError]
    before the simulator is called, and entries after the seventh do not
    change the result. *)
Theorem tabak_parallel_reads_seven_entries {NP : Numpy} {NRN : Neuron}
    {IM : Analysis.Imports} (row : list Q) (w : Tabak.process) :
  ((length row < 7)%nat -> Analysis.tabak_parallel row w = Raise IndexError)
  /\ (length row = 7%nat ->
      forall more : list Q,
        Analysis.tabak_parallel (row ++ more) w = Analysis.tabak_parallel row w).
Proof.
  split; [apply tabak_parallel_short |].
  intros Hlen more.
  do 7 (destruct row as [|? row]; [discriminate |]).
  destruct row; [| discriminate].
  rewrite tabak_parallel_row.
  unfold Analysis.tabak_parallel, bind, Analysis.getitem, ret. cbn.
  unfold Analysis.row_kwargs.
  destruct (Analysis.tabak _ w) as [[[time voltage] w']| |]; reflexivity.
Qed.

Lemma tabak_parallel_reads_seven_entries_witness :
  Analysis.tabak_parallel (IM := DoubleScripts.imports) [1; 2; 3] Double.process0
    = Raise IndexError
  /\ Analysis.tabak_parallel (IM := DoubleScripts.imports)
       ([1; 2; 3; 4; 5; 6; 7] ++ [8; 9]) Double.process0
     = Analysis.tabak_parallel (IM := DoubleScripts.imports)
         [1; 2; 3; 4; 5; 6; 7] Double.process0.
Proof.
  split.
  - apply (tabak_parallel_reads_seven_entries (IM := DoubleScripts.imports)).
    simpl. lia.
  - apply (tabak_parallel_reads_seven_entries (IM := DoubleScripts.imports)).
    reflexivity.
Defined.

(** ** The statistics of the sweep *)

Lemma filter_disjoint_length {X} (f g : X -> bool) (l : list X) :
  (forall x, f x && g x = false) ->
  (length (List.filter f l) + length (List.filter g l) <= length l)%nat.
Proof.
  intros Hdis. induction l as [|x l IH]; simpl; [lia |].
  specialize (Hdis x). destruct (f x), (g x); simpl in *; try discriminate; lia.
Qed.

Lemma collect_all_None (results : list (option Q)) :
  Forall (fun r => r = None) results -> Analysis.collect results = [].
Proof.
  induction 1 as [|r results -> _ IH]; [reflexivity |].
  unfold Analysis.collect in *. simpl. exact IH.
Qed.

Lemma fractions_add (a b n : nat) :
  (a + b <= n)%nat -> (0 < n)%nat ->
  inject_Z (Z.of_nat a) / inject_Z (Z.of_nat n)
  + inject_Z (Z.of_nat b) / inject_Z (Z.of_nat n) <= 1.
Proof.
  intros Hab Hn.
  assert (Hpos : 0 < inject_Z (Z.of_nat n)).
  { change 0 with (inject_Z 0). rewrite <- Zlt_Qlt. lia. }
  assert (E : inject_Z (Z.of_nat a) / inject_Z (Z.of_nat n)
              + inject_Z (Z.of_nat b) / inject_Z (Z.of_nat n)
              == inject_Z (Z.of_nat (a + b)) / inject_Z (Z.of_nat n)).
  { rewrite Nat2Z.inj_add, inject_Z_plus. field. intros E0. rewrite E0 in Hpos.
    exact (Qlt_irrefl _ Hpos). }
  rewrite E. apply (fraction_in_unit_interval (a + b) n); assumption.
Qed.

(** X10. Making the pool of workers needs at least three processors:
    [robustness] asks for [mp.cpu_count() - 2] processes, and on a machine
    with one or two processors it raises [ValueError], after it has drawn
    the parameters and before any model evaluation. *)
Theorem robustness_needs_three_processors {NP : Numpy} {NRN : Neuron}
    {IM : Analysis.Imports} {MA : Analysis.Machine}
    (g_BK A dt : Q) (w : Tabak.process) :
  (Analysis.cpu_count <= 2)%Z ->
  Analysis.robustness g_BK A dt w = Raise ValueError.
Proof.
  intros Hcpu. unfold Analysis.robustness.
  pose proof (sweep_parameters_Done g_BK A dt w) as Hsweep. cbv zeta in Hsweep.
  rewrite (bind_step _ _ _ _ _ Hsweep).
  apply bind_Raise. unfold Analysis.mp_Pool.
  destruct (Analysis.cpu_count - 2 <? 1)%Z eqn:E; [reflexivity |].
  apply Z.ltb_ge in E. lia.
Qed.

Lemma robustness_needs_three_processors_witness :
  Analysis.robustness (IM := DoubleScripts.imports) (MA := DoubleScripts.laptop)
    0 Analysis.A Analysis.dt Double.process0 = Raise ValueError.
Proof.
  apply (robustness_needs_three_processors (IM := DoubleScripts.imports)
           (MA := DoubleScripts.laptop)).
  vm_compute. discriminate.
Defined.

(** X11. [robustness] cannot report a sweep without events: when every
    model evaluation returns [None], no factor is collected and the
    fractions of bursters and spikers divide by zero: [ZeroDivisionError]. *)
Theorem robustness_without_events {NP : Numpy} {NRN : Neuron}
    {IM : Analysis.Imports} {MA : Analysis.Machine}
    (g_BK A dt : Q) (w w1 : Tabak.process)
    (rows : list (list Q)) (results : list (option Q)) :
  Analysis.sweep_parameters g_BK A dt w = Done (rows, w1) ->
  (3 <= Analysis.cpu_count)%Z ->
  Analysis.pool_imap 0 rows = Done results ->
  Forall (fun r => r = None) results ->
  Analysis.robustness g_BK A dt w = Raise ZeroDivisionError.
Proof.
  intros Hsweep Hcpu Himap Hnone. unfold Analysis.robustness.
  rewrite (bind_step _ _ _ _ _ Hsweep).
  assert (Hpool : Analysis.mp_Pool (Analysis.cpu_count - 2) w1 = Done (tt, w1)).
  { unfold Analysis.mp_Pool. destruct (Analysis.cpu_count - 2 <? 1)%Z eqn:E;
      [apply Z.ltb_lt in E; lia | reflexivity]. }
  rewrite (bind_step _ _ _ _ _ Hpool).
  assert (Hlift : Tabak.lift (Analysis.pool_imap 0 rows) w1 = Done (results, w1)).
  { unfold Tabak.lift. rewrite Himap. reflexivity. }
  rewrite (bind_step _ _ _ _ _ Hlift).
  rewrite (collect_all_None _ Hnone). apply aggregate_nil.
Qed.

Lemma robustness_without_events_witness :
  Analysis.robustness (IM := DoubleScripts.silent_imports)
    (MA := DoubleScripts.machine) 0 Analysis.A Analysis.dt Double.process0
  = Raise ZeroDivisionError.
Proof.
  assert (H : exists rows w1 results,
             Analysis.sweep_parameters (IM := DoubleScripts.silent_imports)
               0 Analysis.A Analysis.dt Double.process0 = Done (rows, w1)
             /\ Analysis.pool_imap (IM := DoubleScripts.silent_imports)
                  (MA := DoubleScripts.machine) 0 rows = Done results
             /\ forallb (fun r => bool_decide (r = None)) results = true).
  { eexists _, _, _. split; [vm_compute; reflexivity |].
    split; vm_compute; reflexivity. }
  destruct H as (rows & w1 & results & Hsweep & Himap & Hnone).
  apply (robustness_without_events (IM := DoubleScripts.silent_imports)
           (MA := DoubleScripts.machine) _ _ _ _ w1 rows results Hsweep).
  - vm_compute. discriminate.
  - exact Himap.
  - apply Forall_forall. intros r Hr. rewrite forallb_forall in Hnone.
    apply list_elem_of_In, Hnone in Hr. apply bool_decide_eq_true in Hr. exact Hr.
Defined.

(** X12. The two fractions that [robustness] returns are taken over the
    collected factors, those that are not [None]: the bursters are the
    factors above 0.5, the spikers those below 0.3.  Each fraction lies
    between 0 and 1, and together they are at most 1. *)
Theorem robustness_fractions {NP : Numpy} {NRN : Neuron}
    {IM : Analysis.Imports} {MA : Analysis.Machine}
    (g_BK A dt : Q) (w w' : Tabak.process)
    (bins : list Q) (binned : list Z) (bursters spikers : Q) :
  Analysis.robustness g_BK A dt w = Done ((bins, binned, bursters, spikers), w') ->
  exists (rows : list (list Q)) (results : list (option Q)),
    Analysis.sweep_parameters g_BK A dt w = Done (rows, w')
    /\ Analysis.pool_imap 0 rows = Done results
    /\ let factors := Analysis.collect results in
       let count cond := inject_Z (Z.of_nat (length (List.filter cond factors))) in
       let total := inject_Z (Z.of_nat (length factors)) in
       factors <> []
       /\ bursters = count (fun b => Qlt_bool (1 # 2) b) / total
       /\ spikers = count (fun b => Qlt_bool b (3 # 10)) / total
       /\ 0 <= bursters <= 1
       /\ 0 <= spikers <= 1
       /\ bursters + spikers <= 1.
Proof.
  intros H.
  apply robustness_Done in H as (rows & results & Hsweep & _ & Himap & Hne & Hagg).
  rewrite aggregate_Done in Hagg by exact Hne. injection Hagg as _ _ <- <-.
  exists rows, results. split; [exact Hsweep |]. split; [exact Himap |].
  cbv zeta. set (factors := Analysis.collect results) in *.
  assert (Hlen : (0 < length factors)%nat).
  { destruct factors; [contradiction | simpl; lia]. }
  split; [exact Hne |]. split; [reflexivity |]. split; [reflexivity |].
  unfold Analysis.fraction_where.
  split; [apply fraction_in_unit_interval; [apply filter_length_bound | exact Hlen] |].
  split; [apply fraction_in_unit_interval; [apply filter_length_bound | exact Hlen] |].
  apply fractions_add; [| exact Hlen].
  apply filter_disjoint_length. intros b.
  destruct (Qlt_bool (1 # 2) b) eqn:E1; [| reflexivity].
  destruct (Qlt_bool b (3 # 10)) eqn:E2; [| reflexivity].
  apply Qlt_bool_true in E1, E2. exfalso.
  apply (Qlt_irrefl b). eapply Qlt_trans; [exact E2 |].
  eapply Qlt_trans; [| exact E1]. reflexivity.
Qed.

Lemma robustness_fractions_witness :
  exists bins binned bursters spikers w',
    Analysis.robustness (IM := DoubleScripts.imports) (MA := DoubleScripts.machine)
      0 Analysis.A Analysis.dt Double.process0
    = Done ((bins, binned, bursters, spikers), w')
    /\ 0 <= bursters <= 1 /\ 0 <= spikers <= 1 /\ bursters + spikers <= 1.
Proof.
  assert (H : exists r w',
             Analysis.robustness (IM := DoubleScripts.imports)
               (MA := DoubleScripts.machine) 0 Analysis.A Analysis.dt Double.process0
             = Done (r, w')) by (eexists _, _; vm_compute; reflexivity).
  destruct H as ([[[bins binned] bursters] spikers] & w' & H).
  destruct (robustness_fractions (IM := DoubleScripts.imports)
              (MA := DoubleScripts.machine) _ _ _ _ _ _ _ _ _ H)
    as (rows & results & _ & _ & _ & _ & _ & Hb & Hs & Hsum).
  exists bins, binned, bursters, spikers, w'. repeat split; tauto.
Defined.

(** ** The files of figure 2 *)

Section Results.
Context {NP : Numpy} {NRN : Neuron} {IM : Analysis.Imports} {MA : Analysis.Machine}.

Lemma write_file_Raise (path : string) (f : Analysis.file) (w : Analysis.world) :
  Analysis.dirname path <> ""%string ->
  Analysis.dirname path ∉ Analysis.directories (Analysis.disk w) ->
  Analysis.write_file path f w = Raise FileNotFoundError.
Proof.
  intros Hname Hdir. unfold Analysis.write_file.
  apply String.eqb_neq in Hname. rewrite Hname.
  rewrite bool_decide_eq_false_2 by exact Hdir. reflexivity.
Qed.

Lemma write_file_needs_directory (path : string) (f : Analysis.file)
    (w w' : Analysis.world) (u : unit) :
  Analysis.write_file path f w = Done (u, w') ->
  Analysis.dirname path = ""%string
  \/ Analysis.dirname path ∈ Analysis.directories (Analysis.disk w).
Proof.
  unfold Analysis.write_file.
  destruct (String.eqb _ _) eqn:E1; [intros _; left; apply String.eqb_eq; exact E1 |].
  destruct (bool_decide _) eqn:E2; [| discriminate].
  intros _. right. apply bool_decide_eq_true in E2. exact E2.
Qed.

Lemma np_load_Done (path : string) (a : Analysis.ndarray) (w w' : Analysis.world) :
  Analysis.np_load path w = Done (a, w') ->
  w' = w /\ Analysis.files (Analysis.disk w) !! path = Some (Analysis.NpyFile a).
Proof.
  unfold Analysis.np_load.
  destruct (Analysis.files (Analysis.disk w) !! path) as [[| |]|]; try discriminate.
  intros [= <- <-]. auto.
Qed.

(** The result of a sweep that has returned: the edges of 10 bins over
    (0, 1) and 10 counts. *)
Lemma robustness_shape (g_BK A dt : Q) (w w' : Tabak.process)
    (bins : list Q) (binned : list Z) (bursters spikers : Q) :
  Analysis.robustness g_BK A dt w = Done ((bins, binned, bursters, spikers), w') ->
  bins = Analysis.linspace 0 1 10 /\ length binned = 10%nat.
Proof.
  intros H.
  apply robustness_Done in H as (rows & results & _ & _ & _ & Hne & Hagg).
  rewrite aggregate_Done in Hagg by exact Hne. injection Hagg as <- <- _ _.
  split; [reflexivity |]. apply (histogram_shape 0 1 10).
Qed.

(** What the sweeps and the seven writes of [generate_data_figure_2] leave
    of the world: the report, the six arrays in their files, and nothing
    else changed. *)
Lemma generate_data_figure_2_Done (w w' : Analysis.world)
    (arrays : Analysis.ndarray * Analysis.ndarray * Analysis.ndarray *
              Analysis.ndarray * Analysis.ndarray * Analysis.ndarray) :
  Analysis.generate_data_figure_2 w = Done (arrays, w') ->
  exists (n0 n05 n1 : list Z)
         (bursters_0 spikers_0 bursters_05 spikers_05 bursters_1 spikers_1 : Q),
    let edges := Analysis.FloatArray (Analysis.linspace 0 1 10) in
    arrays = (edges, edges, edges,
              Analysis.IntArray n0, Analysis.IntArray n05, Analysis.IntArray n1)
    /\ length n0 = 10%nat /\ length n05 = 10%nat /\ length n1 = 10%nat
    /\ Analysis.files (Analysis.disk w') =
      <["data/binned_burstiness_factors_1.npy"%string
        := Analysis.NpyFile (Analysis.IntArray n1)]>
        (<["data/binned_burstiness_factors_05.npy"%string
           := Analysis.NpyFile (Analysis.IntArray n05)]>
          (<["data/binned_burstiness_factors_0.npy"%string
             := Analysis.NpyFile (Analysis.IntArray n0)]>
            (<["data/bins_1.npy"%string := Analysis.NpyFile edges]>
              (<["data/bins_05.npy"%string := Analysis.NpyFile edges]>
                (<["data/bins_0.npy"%string := Analysis.NpyFile edges]>
                  (<["data/robustness.txt"%string
                     := Analysis.TextFile
                          ["G_BK = 0" +:+ Analysis.newline;
                           "Spikers = " +:+ Analysis.format_float spikers_0
                             +:+ Analysis.newline;
                           "Bursters = " +:+ Analysis.format_float bursters_0
                             +:+ Analysis.newline +:+ Analysis.newline;
                           "G_BK = 0.5" +:+ Analysis.newline;
                           "Spikers = " +:+ Analysis.format_float spikers_05
                             +:+ Analysis.newline;
                           "Bursters = " +:+ Analysis.format_float bursters_05
                             +:+ Analysis.newline +:+ Analysis.newline;
                           "G_BK = 1" +:+ Analysis.newline;
                           "Spikers = " +:+ Analysis.format_float spikers_1
                             +:+ Analysis.newline;
                           "Bursters = " +:+ Analysis.format_float bursters_1
                             +:+ Analysis.newline]]>
                    (Analysis.files (Analysis.disk w))))))))
    /\ Analysis.directories (Analysis.disk w') = Analysis.directories (Analysis.disk w)
    /\ Analysis.heap w' = Analysis.heap w
    /\ "data"%string ∈ Analysis.directories (Analysis.disk w).
Proof.
  unfold Analysis.generate_data_figure_2, Analysis.np_save. intros H.
  destruct saved_names as (E1 & E2 & E3 & E4 & E5 & E6).
  rewrite E1, E2, E3, E4, E5, E6 in H. clear E1 E2 E3 E4 E5 E6.
  apply bind_Done in H as ([[[e0 n0] b0] s0] & w1 & H1 & H).
  apply in_process_Done in H1 as (D1 & P1 & R1).
  apply robustness_shape in R1 as [-> L0].
  apply bind_Done in H as ([[[e05 n05] b05] s05] & w2 & H2 & H).
  apply in_process_Done in H2 as (D2 & P2 & R2).
  apply robustness_shape in R2 as [-> L05].
  apply bind_Done in H as ([[[e1 n1] b1] s1] & w3 & H3 & H).
  apply in_process_Done in H3 as (D3 & P3 & R3).
  apply robustness_shape in R3 as [-> L1].
  apply bind_Done in H as (? & w4 & H4 & H).
  pose proof (write_file_needs_directory _ _ _ _ _ H4) as Hdir.
  apply write_file_Done in H4 as (F4 & G4 & _ & Q4).
  apply bind_Done in H as (? & w5 & H5 & H).
  apply write_file_Done in H5 as (F5 & G5 & _ & Q5).
  apply bind_Done in H as (? & w6 & H6 & H).
  apply write_file_Done in H6 as (F6 & G6 & _ & Q6).
  apply bind_Done in H as (? & w7 & H7 & H).
  apply write_file_Done in H7 as (F7 & G7 & _ & Q7).
  apply bind_Done in H as (? & w8 & H8 & H).
  apply write_file_Done in H8 as (F8 & G8 & _ & Q8).
  apply bind_Done in H as (? & w9 & H9 & H).
  apply write_file_Done in H9 as (F9 & G9 & _ & Q9).
  apply bind_Done in H as (? & w10 & H10 & H).
  apply write_file_Done in H10 as (F10 & G10 & _ & Q10).
  unfold ret in H. injection H as <- <-.
  exists n0, n05, n1, b0, s0, b05, s05, b1, s1. cbv zeta.
  split; [reflexivity |]. split; [exact L0 |]. split; [exact L05 |].
  split; [exact L1 |]. split.
  { rewrite F10, F9, F8, F7, F6, F5, F4, D3, D2, D1. reflexivity. }
  split; [rewrite G10, G9, G8, G7, G6, G5, G4, D3, D2, D1; reflexivity |].
  split; [rewrite Q10, Q9, Q8, Q7, Q6, Q5, Q4, P3, P2, P1; reflexivity |].
  rewrite D3, D2, D1 in Hdir.
  destruct Hdir as [Hdir | Hdir]; [discriminate Hdir | exact Hdir].
Qed.
End Results.

(** X13. [generate_data_figure_2] needs the folder [data] and does not make
    it: on a disk without that folder it raises [FileNotFoundError] when
    it opens the report, after the three sweeps have been run, and their
    results are lost. *)
Theorem generate_data_figure_2_needs_data_folder {NP : Numpy} {NRN : Neuron}
    {IM : Analysis.Imports} {MA : Analysis.Machine}
    (w w1 w2 w3 : Analysis.world) (r0 r05 r1 : list Q * list Z * Q * Q) :
  "data"%string ∉ Analysis.directories (Analysis.disk w) ->
  Analysis.in_process
    (Analysis.robustness (Analysis.scale_conductance 0 Analysis.A)
       (31415927 # 10000000000000) Analysis.dt) w = Done (r0, w1) ->
  Analysis.in_process
    (Analysis.robustness (Analysis.scale_conductance (1 # 2) Analysis.A)
       (31415927 # 10000000000000) Analysis.dt) w1 = Done (r05, w2) ->
  Analysis.in_process
    (Analysis.robustness (Analysis.scale_conductance 1 Analysis.A)
       (31415927 # 10000000000000) Analysis.dt) w2 = Done (r1, w3) ->
  Analysis.generate_data_figure_2 w = Raise FileNotFoundError.
Proof.
  intros Hdir H0 H05 H1. unfold Analysis.generate_data_figure_2.
  pose proof (in_process_Done _ _ _ _ H0) as (D1 & _ & _).
  pose proof (in_process_Done _ _ _ _ H05) as (D2 & _ & _).
  pose proof (in_process_Done _ _ _ _ H1) as (D3 & _ & _).
  rewrite (bind_step _ _ _ _ _ H0). destruct r0 as [[[? ?] ?] ?].
  rewrite (bind_step _ _ _ _ _ H05). destruct r05 as [[[? ?] ?] ?].
  rewrite (bind_step _ _ _ _ _ H1). destruct r1 as [[[? ?] ?] ?].
  apply bind_Raise. apply write_file_Raise; [discriminate |].
  rewrite D3, D2, D1. exact Hdir.
Qed.

Lemma generate_data_figure_2_needs_data_folder_witness :
  Analysis.generate_data_figure_2 (IM := DoubleScripts.imports)
    (MA := DoubleScripts.machine) DoubleScripts.world_without_data
  = Raise FileNotFoundError.
Proof.
  assert (H : exists r0 w1 r05 w2 r1 w3,
    Analysis.in_process
      (Analysis.robustness (IM := DoubleScripts.imports) (MA := DoubleScripts.machine)
         (DoubleScripts.scale_conductance 0 Analysis.A)
         (31415927 # 10000000000000) Analysis.dt)
      DoubleScripts.world_without_data = Done (r0, w1)
    /\ Analysis.in_process
      (Analysis.robustness (IM := DoubleScripts.imports) (MA := DoubleScripts.machine)
         (DoubleScripts.scale_conductance (1 # 2) Analysis.A)
         (31415927 # 10000000000000) Analysis.dt) w1 = Done (r05, w2)
    /\ Analysis.in_process
      (Analysis.robustness (IM := DoubleScripts.imports) (MA := DoubleScripts.machine)
         (DoubleScripts.scale_conductance 1 Analysis.A)
         (31415927 # 10000000000000) Analysis.dt) w2 = Done (r1, w3)).
  { eexists _, _, _, _, _, _. split; [vm_compute; reflexivity |].
    split; vm_compute; reflexivity. }
  destruct H as (r0 & w1 & r05 & w2 & r1 & w3 & H0 & H05 & H1).
  apply (generate_data_figure_2_needs_data_folder (IM := DoubleScripts.imports)
           (MA := DoubleScripts.machine) _ w1 w2 w3 r0 r05 r1);
    [| exact H0 | exact H05 | exact H1].
  apply not_elem_of_empty.
Defined.



(** X15. [load_results_figure_2] returns six arrays exactly when the six
    files are on the disk and hold arrays; it then returns the contents of
    the files, in the order [bins_0], [bins_05], [bins_1],
    [binned_burstiness_factors_0], [binned_burstiness_factors_05],
    [binned_burstiness_factors_1], and changes nothing. *)
Theorem load_results_figure_2_reads_six_files {NP : Numpy} {NRN : Neuron}
    (w w' : Analysis.world)
    (b0 b05 b1 n0 n05 n1 : Analysis.ndarray) :
  Analysis.load_results_figure_2 w = Done ((b0, b05, b1, n0, n05, n1), w')
  <-> (w' = w
       /\ let saved := Analysis.files (Analysis.disk w) in
          saved !! "data/bins_0.npy"%string = Some (Analysis.NpyFile b0)
          /\ saved !! "data/bins_05.npy"%string = Some (Analysis.NpyFile b05)
          /\ saved !! "data/bins_1.npy"%string = Some (Analysis.NpyFile b1)
          /\ saved !! "data/binned_burstiness_factors_0.npy"%string
             = Some (Analysis.NpyFile n0)
          /\ saved !! "data/binned_burstiness_factors_05.npy"%string
             = Some (Analysis.NpyFile n05)
          /\ saved !! "data/binned_burstiness_factors_1.npy"%string
             = Some (Analysis.NpyFile n1)).
Proof.
  unfold Analysis.load_results_figure_2.
  destruct loaded_names as (E1 & E2 & E3 & E4 & E5 & E6).
  rewrite E1, E2, E3, E4, E5, E6. clear E1 E2 E3 E4 E5 E6. cbv zeta. split.
  - intros H.
    apply bind_Done in H as (? & w1 & H1 & H). apply np_load_Done in H1 as [-> F1].
    apply bind_Done in H as (? & w2 & H2 & H). apply np_load_Done in H2 as [-> F2].
    apply bind_Done in H as (? & w3 & H3 & H). apply np_load_Done in H3 as [-> F3].
    apply bind_Done in H as (? & w4 & H4 & H). apply np_load_Done in H4 as [-> F4].
    apply bind_Done in H as (? & w5 & H5 & H). apply np_load_Done in H5 as [-> F5].
    apply bind_Done in H as (? & w6 & H6 & H). apply np_load_Done in H6 as [-> F6].
    unfold ret in H. injection H as <- <- <- <- <- <- <-. auto 10.
  - intros (-> & F1 & F2 & F3 & F4 & F5 & F6).
    rewrite (bind_step _ _ _ _ _ (np_load_saved _ _ _ F1)).
    rewrite (bind_step _ _ _ _ _ (np_load_saved _ _ _ F2)).
    rewrite (bind_step _ _ _ _ _ (np_load_saved _ _ _ F3)).
    rewrite (bind_step _ _ _ _ _ (np_load_saved _ _ _ F4)).
    rewrite (bind_step _ _ _ _ _ (np_load_saved _ _ _ F5)).
    rewrite (bind_step _ _ _ _ _ (np_load_saved _ _ _ F6)).
    reflexivity.
Qed.

Lemma load_results_figure_2_reads_six_files_witness :
  let disk :=
    {| Analysis.directories := {["data"%string]};
       Analysis.files :=
         list_to_map
           [("data/bins_0.npy", Analysis.NpyFile (Analysis.FloatArray [0; 1]));
            ("data/bins_05.npy", Analysis.NpyFile (Analysis.FloatArray [0; 1]));
            ("data/bins_1.npy", Analysis.NpyFile (Analysis.FloatArray [0; 1]));
            ("data/binned_burstiness_factors_0.npy",
             Analysis.NpyFile (Analysis.IntArray [3%Z]));
            ("data/binned_burstiness_factors_05.npy",
             Analysis.NpyFile (Analysis.IntArray [2%Z]));
            ("data/binned_burstiness_factors_1.npy",
             Analysis.NpyFile (Analysis.IntArray [1%Z]))]%string |} in
  let w := {| Analysis.proc := Double.process0; Analysis.disk := disk;
              Analysis.heap := [] |} in
  Analysis.load_results_figure_2 w
  = Done ((Analysis.FloatArray [0; 1], Analysis.FloatArray [0; 1],
           Analysis.FloatArray [0; 1], Analysis.IntArray [3%Z],
           Analysis.IntArray [2%Z], Analysis.IntArray [1%Z]), w).
Proof.
  intros disk w.
  apply (proj2 (load_results_figure_2_reads_six_files w w _ _ _ _ _ _)).
  split; [reflexivity |]. repeat split; vm_compute; reflexivity.
Defined.

(** ** The sweeps of figure 1 *)

Lemma list_to_map_union (explicit : list (string * Q)) (extra : gmap string Q) :
  list_to_map explicit ∪ extra
  = foldr (fun kv m => <[kv.1 := kv.2]> m) extra explicit.
Proof.
  induction explicit as [|[k v] explicit IH]; simpl.
  - apply (left_id_L ∅ (∪)).
  - rewrite <- insert_union_l, IH. reflexivity.
Qed.

Section Loops.
Context {S X Y : Type}.

Lemma for_each_Done (f : X -> M S Y) (xs : list X) :
  forall (s s' : S) (ys : list Y),
    Analysis.for_each f xs s = Done (ys, s') ->
    length ys = length xs
    /\ forall (i : nat) (x : X),
         xs !! i = Some x ->
         exists (y : Y) (si si' : S), f x si = Done (y, si') /\ ys !! i = Some y.
Proof.
  induction xs as [|x xs IH]; intros s s' ys H; simpl in H.
  - unfold ret in H. injection H as <- <-. split; [reflexivity |].
    intros i x Hx. discriminate.
  - apply bind_Done in H as (y & s1 & Hy & H).
    apply bind_Done in H as (rest & s2 & Hrest & H).
    unfold ret in H. injection H as <- <-.
    destruct (IH _ _ _ Hrest) as [Hlen Hall]. split; [simpl; lia |].
    intros [|i] x' Hx; simpl in Hx.
    + injection Hx as <-. exists y, s, s1. split; [exact Hy | reflexivity].
    + apply Hall. exact Hx.
Qed.

Lemma for_each_Raise (f : X -> M S Y) (x : X) (xs : list X) (s : S) (e : exn) :
  f x s = Raise e -> Analysis.for_each f (x :: xs) s = Raise e.
Proof. intros H. simpl. apply bind_Raise. exact H. Qed.
End Loops.

Section Sweeps.
Context {NP : Numpy} {NRN : Neuron} {IM : Analysis.Imports}.

(** A call of [calculate_frequency_bf] with named and forwarded keywords
    raises [TypeError] when a forwarded keyword is one of the named ones
    or one of the three that [calculate_frequency_bf] sets itself. *)
Lemma forwarded_call_TypeError {Z} (explicit : list (string * Q))
    (parameters : gmap string Q) (key : string) (w : Tabak.process)
    (k : list Q * list (option Q) * option Q -> M Tabak.process Z) :
  key ∈ map fst explicit
        ++ ["noise_amplitude"; "discard"; "simulation_time"]%string ->
  is_Some (parameters !! key) ->
  bind (Analysis.call_kwargs explicit parameters)
       (fun kwargs => bind (Analysis.calculate_frequency_bf kwargs) k) w
  = Raise TypeError.
Proof.
  intros Hkey Hsome. apply elem_of_app in Hkey as [Hkey | Hkey].
  - apply bind_Raise. apply (call_kwargs_Raise _ _ _ key); assumption.
  - unfold Analysis.call_kwargs at 1.
    destruct (forallb _ explicit); [| apply bind_Raise; reflexivity].
    rewrite (bind_step _ _ w w (list_to_map explicit ∪ parameters)) by reflexivity.
    apply bind_Raise. unfold Analysis.calculate_frequency_bf.
    apply bind_Raise. apply (call_kwargs_Raise _ _ _ key); [exact Hkey |].
    apply lookup_union_is_Some. right. exact Hsome.
Qed.
End Sweeps.

(** X16. What [change_g_BK] needs of [scale_tabak(A)].  It deletes the
    entry [g_BK] before it sweeps: without such an entry it raises
    [KeyError], and no model evaluation is made.  It passes [g_BK], [A] and
    [dt] by name, and [calculate_frequency_bf] passes the noise amplitude,
    the discarded time and the simulation time: with an entry [g_BK] and an
    entry for [A], [dt], [noise_amplitude], [discard] or [simulation_time],
    it raises [TypeError] at its first evaluation. *)
Theorem change_g_BK_needs_g_BK {NP : Numpy} {NRN : Neuron}
    {IM : Analysis.Imports} (w : Tabak.process) :
  (Analysis.scale_tabak Analysis.A !! "g_BK"%string = None ->
   Analysis.change_g_BK w = Raise KeyError)
  /\ (forall key : string,
        key ∈ ["A"; "dt"; "noise_amplitude"; "discard"; "simulation_time"]%string ->
        is_Some (Analysis.scale_tabak Analysis.A !! "g_BK"%string) ->
        is_Some (Analysis.scale_tabak Analysis.A !! key) ->
        Analysis.change_g_BK w = Raise TypeError).
Proof.
  unfold Analysis.change_g_BK, Analysis.del_key. split.
  - intros Hnone. apply bind_Raise. rewrite Hnone. reflexivity.
  - intros key Hkey [g Hg] Hsome. rewrite Hg.
    rewrite (bind_step _ _ w w (delete "g_BK"%string (Analysis.scale_tabak Analysis.A)))
      by reflexivity.
    apply bind_Raise. apply for_each_Raise.
    apply (forwarded_call_TypeError _ _ key).
    + apply list_elem_of_further. exact Hkey.
    + rewrite lookup_delete_ne; [exact Hsome |].
      intros <-. clear Hsome Hg.
      repeat (apply elem_of_cons in Hkey as [Hkey | Hkey]; [discriminate Hkey |]).
      exact (not_elem_of_nil _ Hkey).
Qed.

Lemma change_g_BK_needs_g_BK_witness :
  Analysis.change_g_BK (IM := DoubleScripts.bare_imports) Double.process0
  = Raise KeyError
  /\ Analysis.change_g_BK (IM := DoubleScripts.dt_imports) Double.process0
     = Raise TypeError.
Proof.
  split.
  - apply (change_g_BK_needs_g_BK (IM := DoubleScripts.bare_imports)).
    reflexivity.
  - apply (proj2 (change_g_BK_needs_g_BK (IM := DoubleScripts.dt_imports) _)
             "dt"%string).
    + apply list_elem_of_further, list_elem_of_here.
    + eexists. vm_compute. reflexivity.
    + eexists. vm_compute. reflexivity.
Defined.

(** X17. When [change_g_BK] returns, it returns the seven conductances
    0, 0.2, 0.4, 0.5, 0.6, 0.8 and 1 nS, not scaled, and seven burstiness
    factors, in the same order: the factor at position [i] is that of
    [calculate_frequency_bf] run on the parameters [scale_tabak(A)] with
    [A], [dt] and the scaled conductance [i] as [g_BK]. *)
Theorem change_g_BK_sweeps_g_BK {NP : Numpy} {NRN : Neuron}
    {IM : Analysis.Imports} (w w' : Tabak.process)
    (G_BKs : list Q) (burstiness_factors : list (option Q)) :
  Analysis.change_g_BK w = Done ((G_BKs, burstiness_factors), w') ->
  G_BKs = [0; 2 # 10; 4 # 10; 5 # 10; 6 # 10; 8 # 10; 1]
  /\ length burstiness_factors = 7%nat
  /\ forall (i : nat) (G_BK : Q),
       G_BKs !! i = Some G_BK ->
       exists (bins : list Q) (frequency : list (option Q))
              (burstiness_factor : option Q) (wi wi' : Tabak.process),
         Analysis.calculate_frequency_bf
           (<["g_BK"%string := Analysis.scale_conductance G_BK Analysis.A]>
              (<["A"%string := Analysis.A]>
                 (<["dt"%string := Analysis.dt]> (Analysis.scale_tabak Analysis.A))))
           wi = Done ((bins, frequency, burstiness_factor), wi')
         /\ burstiness_factors !! i = Some burstiness_factor.
Proof.
  unfold Analysis.change_g_BK. intros H.
  apply bind_Done in H as (parameters & w1 & Hdel & H).
  assert (Hp : parameters = delete "g_BK"%string (Analysis.scale_tabak Analysis.A)).
  { unfold Analysis.del_key in Hdel.
    destruct (Analysis.scale_tabak Analysis.A !! "g_BK"%string); [| discriminate].
    unfold ret in Hdel. injection Hdel as <- _. reflexivity. }
  apply bind_Done in H as (bfs & w2 & Hloop & H).
  unfold ret in H. injection H as <- <- <-.
  apply for_each_Done in Hloop as [Hlen Hall].
  split; [reflexivity |]. split; [rewrite Hlen; reflexivity |].
  intros i G_BK Hi.
  destruct (Hall i (Analysis.scale_conductance G_BK Analysis.A))
    as (bf & wi & wi' & Hrun & Hbf).
  { rewrite list_lookup_fmap, Hi. reflexivity. }
  apply bind_Done in Hrun as (kwargs & wk & Hk & Hrun).
  apply call_kwargs_Done in Hk as [-> ->].
  apply bind_Done in Hrun as ([[bins frequency] bf'] & wj & Hrun & Hret).
  unfold ret in Hret. injection Hret as -> ->.
  exists bins, frequency, bf, wi, wi'. split; [| exact Hbf].
  rewrite <- Hrun. f_equal.
  rewrite list_to_map_union. cbn [foldr fst snd].
  rewrite Hp.
  rewrite <- (insert_delete_eq (<["A"%string := _]> _)).
  rewrite !delete_insert_ne by discriminate. reflexivity.
Qed.

Lemma change_g_BK_sweeps_g_BK_witness :
  exists G_BKs burstiness_factors w',
    Analysis.change_g_BK (IM := DoubleScripts.imports) Double.process0
    = Done ((G_BKs, burstiness_factors), w')
    /\ G_BKs = [0; 2 # 10; 4 # 10; 5 # 10; 6 # 10; 8 # 10; 1]
    /\ length burstiness_factors = 7%nat.
Proof.
  assert (H : exists r w',
             Analysis.change_g_BK (IM := DoubleScripts.imports) Double.process0
             = Done (r, w')) by (eexists _, _; vm_compute; reflexivity).
  destruct H as ([G_BKs bfs] & w' & H). exists G_BKs, bfs, w'.
  split; [exact H |].
  destruct (change_g_BK_sweeps_g_BK (IM := DoubleScripts.imports) _ _ _ _ H)
    as (HG & Hlen & _).
  split; assumption.
Defined.

(** X18. [change_tau_BK] passes [tau_BK], [A] and [dt] itself, and
    [calculate_frequency_bf] passes the noise amplitude, the discarded time
    and the simulation time: when [scale_tabak(A)] has an entry for one of
    these six names, [change_tau_BK] raises [TypeError] at its first
    evaluation. *)
Theorem change_tau_BK_rejects_set_keywords {NP : Numpy} {NRN : Neuron}
    {IM : Analysis.Imports} (key : string) (w : Tabak.process) :
  key ∈ ["tau_BK"; "A"; "dt"; "noise_amplitude"; "discard";
         "simulation_time"]%string ->
  is_Some (Analysis.scale_tabak Analysis.A !! key) ->
  Analysis.change_tau_BK w = Raise TypeError.
Proof.
  intros Hkey Hsome. unfold Analysis.change_tau_BK.
  apply bind_Raise. apply for_each_Raise.
  apply (forwarded_call_TypeError _ _ key); [exact Hkey |].
  rewrite lookup_insert_ne; [exact Hsome |].
  intros <-. clear Hsome.
  repeat (apply elem_of_cons in Hkey as [Hkey | Hkey]; [discriminate Hkey |]).
  exact (not_elem_of_nil _ Hkey).
Qed.

Lemma change_tau_BK_rejects_set_keywords_witness :
  Analysis.change_tau_BK (IM := DoubleScripts.tau_imports) Double.process0
  = Raise TypeError.
Proof.
  apply (change_tau_BK_rejects_set_keywords (IM := DoubleScripts.tau_imports)
           "tau_BK"%string).
  - apply list_elem_of_here.
  - eexists. vm_compute. reflexivity.
Defined.

(** X19. When [change_tau_BK] returns, it returns the seven time constants
    2, 4, 5, 6, 7, 8 and 10 ms and seven burstiness factors, in the same
    order: the factor at position [i] is that of [calculate_frequency_bf]
    run on the parameters [scale_tabak(A)] with [g_BK] set to the scaled
    1 nS, whatever [scale_tabak] gave, [A], [dt] and the time constant
    [i] as [tau_BK]. *)
Theorem change_tau_BK_sweeps_tau_BK {NP : Numpy} {NRN : Neuron}
    {IM : Analysis.Imports} (w w' : Tabak.process)
    (tau_BKs : list Q) (burstiness_factors : list (option Q)) :
  Analysis.change_tau_BK w = Done ((tau_BKs, burstiness_factors), w') ->
  tau_BKs = [2; 4; 5; 6; 7; 8; 10]
  /\ length burstiness_factors = 7%nat
  /\ forall (i : nat) (tau_BK : Q),
       tau_BKs !! i = Some tau_BK ->
       exists (bins : list Q) (frequency : list (option Q))
              (burstiness_factor : option Q) (wi wi' : Tabak.process),
         Analysis.calculate_frequency_bf
           (<["tau_BK"%string := tau_BK]>
              (<["A"%string := Analysis.A]>
                 (<["dt"%string := Analysis.dt]>
                    (<["g_BK"%string := Analysis.scale_conductance 1 Analysis.A]>
                       (Analysis.scale_tabak Analysis.A)))))
           wi = Done ((bins, frequency, burstiness_factor), wi')
         /\ burstiness_factors !! i = Some burstiness_factor.
Proof.
  unfold Analysis.change_tau_BK. intros H.
  apply bind_Done in H as (bfs & w2 & Hloop & H).
  unfold ret in H. injection H as <- <- <-.
  apply for_each_Done in Hloop as [Hlen Hall].
  split; [reflexivity |]. split; [rewrite Hlen; reflexivity |].
  intros i tau_BK Hi.
  destruct (Hall i tau_BK Hi) as (bf & wi & wi' & Hrun & Hbf).
  apply bind_Done in Hrun as (kwargs & wk & Hk & Hrun).
  apply call_kwargs_Done in Hk as [-> ->].
  apply bind_Done in Hrun as ([[bins frequency] bf'] & wj & Hrun & Hret).
  unfold ret in Hret. injection Hret as -> ->.
  exists bins, frequency, bf, wi, wi'. split; [| exact Hbf].
  rewrite <- Hrun. f_equal.
  rewrite list_to_map_union. reflexivity.
Qed.

Lemma change_tau_BK_sweeps_tau_BK_witness :
  exists tau_BKs burstiness_factors w',
    Analysis.change_tau_BK (IM := DoubleScripts.imports) Double.process0
    = Done ((tau_BKs, burstiness_factors), w')
    /\ tau_BKs = [2; 4; 5; 6; 7; 8; 10]
    /\ length burstiness_factors = 7%nat.
Proof.
  assert (H : exists r w',
             Analysis.change_tau_BK (IM := DoubleScripts.imports) Double.process0
             = Done (r, w')) by (eexists _, _; vm_compute; reflexivity).
  destruct H as ([tau_BKs bfs] & w' & H). exists tau_BKs, bfs, w'.
  split; [exact H |].
  destruct (change_tau_BK_sweeps_tau_BK (IM := DoubleScripts.imports) _ _ _ _ H)
    as (HG & Hlen & _).
  split; assumption.
Defined.

(** X20. Each panel of figure 1 runs the model twice with the same keyword
    arguments: the trace that is plotted comes from the first run, the
    histogram and the burstiness factor from a second run, made by
    [calculate_frequency_bf] from the state of the simulator and of the
    random generator that the first run left. *)
Theorem figure_1_panel_runs_model_twice {NP : Numpy} {NRN : Neuron}
    {IM : Analysis.Imports} (parameters : gmap string Q)
    (w w' : Analysis.world) (p : Analysis.panel) :
  Analysis.figure_1_panel parameters w = Done (p, w') ->
  let kwargs :=
    <["noise_amplitude"%string := Analysis.noise_amplitude]>
      (<["discard"%string := Analysis.discard]>
         (<["simulation_time"%string := Analysis.simulation_time]>
            (<["A"%string := Analysis.A]>
               (<["dt"%string := Analysis.dt]> parameters)))) in
  exists (time V time2 V2 : list Q) (p1 : Tabak.process),
    Analysis.tabak kwargs (Analysis.proc w) = Done ((time, V), p1)
    /\ Analysis.tabak kwargs p1 = Done ((time2, V2), Analysis.proc w')
    /\ Analysis.heap w' !! Analysis.time_ p = Some time
    /\ Analysis.heap w' !! Analysis.V_ p = Some V
    /\ Analysis.burstiness_factor_ p
       = Analysis.burstiness (Analysis.duration time2 V2)
    /\ Analysis.frequency_ p
       = let counts := (Analysis.np_histogram (Analysis.duration time2 V2) 40 0 200).1 in
         Analysis.np_true_divide counts (Analysis.np_sum counts).
Proof.
  unfold Analysis.figure_1_panel. intros H.
  apply bind_Done in H as (kw & w1 & Hk & H).
  apply call_kwargs_Done in Hk as [-> ->].
  apply bind_Done in H as ([time V] & w2 & Hrun & H).
  apply in_process_Done in Hrun as (Hd2 & Hh2 & Hrun).
  apply bind_Done in H as (lt & w3 & Ht & H).
  apply new_array_Done in Ht as (-> & Hh3 & Hp3 & Hd3).
  apply bind_Done in H as (lv & w4 & Hv & H).
  apply new_array_Done in Hv as (-> & Hh4 & Hp4 & Hd4).
  apply bind_Done in H as (kw2 & w5 & Hk2 & H).
  apply call_kwargs_Done in Hk2 as [-> ->].
  apply bind_Done in H as ([[bins freq] bf] & w6 & Hfreq & H).
  apply in_process_Done in Hfreq as (Hd6 & Hh6 & Hfreq).
  apply bind_Done in H as (lb & w7 & Hb & H).
  apply new_array_Done in Hb as (-> & Hh7 & Hp7 & Hd7).
  unfold ret in H. injection H as <- <-. cbn [Analysis.time_ Analysis.V_
    Analysis.burstiness_factor_ Analysis.frequency_].
  unfold Analysis.calculate_frequency_bf in Hfreq.
  apply bind_Done in Hfreq as (kw3 & w8 & Hk3 & Hfreq).
  apply call_kwargs_Done in Hk3 as [-> ->].
  apply bind_Done in Hfreq as ([time2 V2] & w9 & Hrun2 & Hfreq).
  cbv beta iota zeta in Hfreq. cbn [fst snd] in Hfreq.
  assert (Hret : (bins, freq, bf) =
                 ((Analysis.np_histogram (Analysis.duration time2 V2) 40 0 200).2,
                  Analysis.np_true_divide
                    (Analysis.np_histogram (Analysis.duration time2 V2) 40 0 200).1
                    (Analysis.np_sum
                       (Analysis.np_histogram (Analysis.duration time2 V2) 40 0 200).1),
                  Analysis.burstiness (Analysis.duration time2 V2))
                 /\ w9 = Analysis.proc w6).
  { destruct (Analysis.np_histogram (Analysis.duration time2 V2) 40 0 200)
      as [counts edges].
    unfold ret in Hfreq. injection Hfreq as <- <- <- <-. auto. }
  destruct Hret as [Hret ->]. clear Hfreq.
  apply pair_equal_spec in Hret as [Hret ->].
  apply pair_equal_spec in Hret as [-> ->].
  rewrite list_to_map_union in Hrun. cbn [foldr fst snd] in Hrun.
  rewrite list_to_map_union in Hrun2. cbn [foldr fst snd] in Hrun2.
  rewrite list_to_map_union in Hrun2. cbn [foldr fst snd] in Hrun2.
  exists time, V, time2, V2, (Analysis.proc w2).
  rewrite Hp7. rewrite Hp4, Hp3 in Hrun2.
  split; [exact Hrun |]. split; [exact Hrun2 |].
  rewrite Hh7, Hh6, Hh4, Hh3.
  split.
  { rewrite <- !app_assoc. apply list_lookup_middle. reflexivity. }
  split.
  { rewrite <- app_assoc. apply list_lookup_middle. reflexivity. }
  split; reflexivity.
Qed.

Lemma figure_1_panel_runs_model_twice_witness :
  exists p w' time V time2 V2 p1,
    Analysis.figure_1_panel (IM := DoubleScripts.imports) ∅ DoubleScripts.world0
    = Done (p, w')
    /\ Analysis.heap w' !! Analysis.time_ p = Some time
    /\ Analysis.heap w' !! Analysis.V_ p = Some V
    /\ DoubleScripts.tabak
         (<["noise_amplitude"%string := Analysis.noise_amplitude]>
            (<["discard"%string := Analysis.discard]>
               (<["simulation_time"%string := Analysis.simulation_time]>
                  (<["A"%string := Analysis.A]>
                     (<["dt"%string := Analysis.dt]> ∅))))) p1
       = Done ((time2, V2), Analysis.proc w').
Proof.
  assert (H : exists p w',
             Analysis.figure_1_panel (IM := DoubleScripts.imports) ∅
               DoubleScripts.world0 = Done (p, w'))
    by (eexists _, _; vm_compute; reflexivity).
  destruct H as (p & w' & H).
  destruct (figure_1_panel_runs_model_twice (IM := DoubleScripts.imports) _ _ _ _ H)
    as (time & V & time2 & V2 & p1 & _ & H2 & Ht & HV & _).
  exists p, w', time, V, time2, V2, p1. auto.
Defined.

(** ** The two figures *)

Section Figures.
Context {NP : Numpy} {NRN : Neuron} {IM : Analysis.Imports} {MA : Analysis.Machine}.

Lemma plt_savefig_Done (path : string) (w w' : Analysis.world) (u : unit) :
  Analysis.plt_savefig path w = Done (u, w') ->
  Analysis.files (Analysis.disk w')
  = <[path := Analysis.FigureFile]> (Analysis.files (Analysis.disk w))
  /\ Analysis.directories (Analysis.disk w') = Analysis.directories (Analysis.disk w)
  /\ (Analysis.dirname path = ""%string
      \/ Analysis.dirname path ∈ Analysis.directories (Analysis.disk w)).
Proof.
  unfold Analysis.plt_savefig. intros H.
  pose proof (write_file_needs_directory _ _ _ _ _ H) as Hdir.
  apply write_file_Done in H as (Hf & Hd & _). auto.
Qed.

(** [figure_1] leaves one new file on the disk. *)
Lemma figure_1_Done (w w' : Analysis.world) (u : unit) :
  Analysis.figure_1 w = Done (u, w') ->
  Analysis.files (Analysis.disk w')
  = <["../article/figures/figure_1.eps"%string := Analysis.FigureFile]>
      (Analysis.files (Analysis.disk w))
  /\ Analysis.directories (Analysis.disk w') = Analysis.directories (Analysis.disk w)
  /\ "../article/figures"%string ∈ Analysis.directories (Analysis.disk w).
Proof.
  unfold Analysis.figure_1. intros H.
  apply bind_Done in H as (d & w1 & Hc & H).
  assert (Hdisk1 : Analysis.disk w1 = Analysis.disk w).
  { clear H. unfold Analysis.figure_1_compute in Hc.
    apply bind_Done in Hc as (p0 & w2 & H0 & Hc).
    apply figure_1_panel_Done in H0 as (? & ? & ? & _ & _ & _ & _ & D0).
    apply bind_Done in Hc as (p05 & w3 & H05 & Hc).
    apply figure_1_panel_Done in H05 as (? & ? & ? & _ & _ & _ & _ & D05).
    apply bind_Done in Hc as (p1 & w4 & H1 & Hc).
    apply figure_1_panel_Done in H1 as (? & ? & ? & _ & _ & _ & _ & D1).
    apply bind_Done in Hc as ([G bfG] & w5 & HG & Hc).
    apply in_process_Done in HG as (D5 & _ & _).
    apply bind_Done in Hc as ([tau bftau] & w6 & Htau & Hc).
    apply in_process_Done in Htau as (D6 & _ & _).
    unfold ret in Hc. injection Hc as _ <-. congruence. }
  apply figure_1_compute_Done in Hc
    as (t0 & v0 & b0 & t05 & v05 & b05 & t1 & v1 & b1 & Hh & Ht0 & _ & Hb0 & Ht05
        & _ & Hb05 & Ht1 & _ & Hb1).
  apply bind_Done in H as (scalars & w2 & Hr & H).
  rewrite (figure_1_rescale_Done d w1 _ _ _ _ _ _ _ _ _ _ Hh Ht0 Hb0 Ht05 Hb05 Ht1 Hb1)
    in Hr.
  injection Hr as _ <-.
  apply plt_savefig_Done in H as (Hf & Hd & Hdir). cbn [Analysis.disk] in Hf, Hd, Hdir.
  rewrite Hdisk1 in Hf, Hd, Hdir.
  split; [exact Hf |]. split; [exact Hd |].
  destruct Hdir as [Hdir | Hdir]; [discriminate Hdir | exact Hdir].
Qed.
End Figures.

(** X21. What a complete run of the script leaves on the disk.  When
    [main] returns, it has written nine files, replacing what was there:
    the two figures, the report of nine chunks of text, three files of
    bins that each hold the 11 edges of 10 bins over (0, 1) and three
    files of counts that each hold 10 counts.  Every other file and the
    folders are as before.  It makes no folder: it returns only when the
    folders [data] and [../article/figures] exist. *)
Theorem main_writes_nine_files {NP : Numpy} {NRN : Neuron}
    {IM : Analysis.Imports} {MA : Analysis.Machine}
    (w w' : Analysis.world) (u : unit) :
  Analysis.main w = Done (u, w') ->
  let saved := Analysis.files (Analysis.disk w') in
  let edges := Analysis.FloatArray (Analysis.linspace 0 1 10) in
  (forall path : string,
      path ∉ ["../article/figures/figure_1.eps"; "../article/figures/figure_2.eps";
              "data/robustness.txt"; "data/bins_0.npy"; "data/bins_05.npy";
              "data/bins_1.npy"; "data/binned_burstiness_factors_0.npy";
              "data/binned_burstiness_factors_05.npy";
              "data/binned_burstiness_factors_1.npy"]%string ->
      saved !! path = Analysis.files (Analysis.disk w) !! path)
  /\ saved !! "../article/figures/figure_1.eps"%string = Some Analysis.FigureFile
  /\ saved !! "../article/figures/figure_2.eps"%string = Some Analysis.FigureFile
  /\ (exists chunks : list string,
        saved !! "data/robustness.txt"%string = Some (Analysis.TextFile chunks)
        /\ length chunks = 9%nat)
  /\ (exists n0 n05 n1 : list Z,
        length n0 = 10%nat /\ length n05 = 10%nat /\ length n1 = 10%nat
        /\ saved !! "data/bins_0.npy"%string = Some (Analysis.NpyFile edges)
        /\ saved !! "data/bins_05.npy"%string = Some (Analysis.NpyFile edges)
        /\ saved !! "data/bins_1.npy"%string = Some (Analysis.NpyFile edges)
        /\ saved !! "data/binned_burstiness_factors_0.npy"%string
           = Some (Analysis.NpyFile (Analysis.IntArray n0))
        /\ saved !! "data/binned_burstiness_factors_05.npy"%string
           = Some (Analysis.NpyFile (Analysis.IntArray n05))
        /\ saved !! "data/binned_burstiness_factors_1.npy"%string
           = Some (Analysis.NpyFile (Analysis.IntArray n1)))
  /\ Analysis.directories (Analysis.disk w') = Analysis.directories (Analysis.disk w)
  /\ "data"%string ∈ Analysis.directories (Analysis.disk w)
  /\ "../article/figures"%string ∈ Analysis.directories (Analysis.disk w).
Proof.
  unfold Analysis.main, Analysis.figure_2, Analysis.plot_figure_2. intros H.
  apply bind_Done in H as (u1 & w1 & H1 & H).
  apply figure_1_Done in H1 as (F1 & D1 & Hfigures).
  apply bind_Done in H as (results & w2 & H2 & H).
  apply generate_data_figure_2_Done in H2
    as (n0 & n05 & n1 & b0 & s0 & b05 & s05 & b1 & s1 & _ & L0 & L05 & L1
        & F2 & D2 & _ & Hdata).
  apply plt_savefig_Done in H as (F3 & D3 & _).
  change (Analysis.os_path_join Analysis.figure_folder
            ("figure_2" +:+ Analysis.figure_format))
    with "../article/figures/figure_2.eps"%string in F3.
  cbv zeta in *. rewrite F3, F2, F1, D3, D2. rewrite D1 in Hdata.
  split; [| split; [| split; [| split; [| split; [| auto]]]]].
  - intros path Hpath.
    repeat (rewrite lookup_insert_ne;
            [| intros <-; apply Hpath;
               repeat first [apply list_elem_of_here | apply list_elem_of_further]]).
    reflexivity.
  - repeat (rewrite lookup_insert_ne; [| discriminate]). apply lookup_insert_eq.
  - apply lookup_insert_eq.
  - eexists. split.
    + repeat (rewrite lookup_insert_ne; [| discriminate]). apply lookup_insert_eq.
    + reflexivity.
  - exists n0, n05, n1.
    split; [exact L0 |]. split; [exact L05 |]. split; [exact L1 |].
    repeat split;
      repeat (rewrite lookup_insert_ne; [| discriminate]);
      apply lookup_insert_eq.
Qed.

Lemma main_writes_nine_files_witness :
  exists w',
    Analysis.main (IM := DoubleScripts.imports) (MA := DoubleScripts.machine)
      DoubleScripts.world0 = Done (tt, w')
    /\ Analysis.files (Analysis.disk w') !! "../article/figures/figure_1.eps"%string
       = Some Analysis.FigureFile
    /\ Analysis.files (Analysis.disk w') !! "../article/figures/figure_2.eps"%string
       = Some Analysis.FigureFile
    /\ Analysis.files (Analysis.disk w') !! "data/bins_1.npy"%string
       = Some (Analysis.NpyFile (Analysis.FloatArray (Analysis.linspace 0 1 10)))
    /\ Analysis.directories (Analysis.disk w')
       = Analysis.directories (Analysis.disk DoubleScripts.world0).
Proof.
  assert (H : exists w',
             Analysis.main (IM := DoubleScripts.imports) (MA := DoubleScripts.machine)
               DoubleScripts.world0 = Done (tt, w'))
    by (eexists; vm_compute; reflexivity).
  destruct H as (w' & H). exists w'. split; [exact H |].
  destruct (main_writes_nine_files (IM := DoubleScripts.imports)
              (MA := DoubleScripts.machine) _ _ _ H)
    as (_ & H1 & H2 & _ & (n0 & n05 & n1 & _ & _ & _ & _ & _ & Hb1 & _) & H3 & _).
  auto.
Defined.
